(** * httpcache: a file-backed caching http.RoundTripper

    Shallow embedding of [roundtripper.go] (package httpcache) and the
    properties of its two fetch modes.

    The Go program talks to three kinds of collaborators that are not part of
    the repository: pure library functions (net/url, crypto/sha256,
    encoding/hex, path/filepath, time), the operating system (package os) and
    the wrapped transport (an http.RoundTripper).  They are taken as
    parameters, bundled in the classes [Lib] and [OS], so every theorem holds
    for whatever these collaborators answer.  Module [Sample] gives one
    concrete, executable choice of them; module [Runs], at the end, replays the
    scenarios of the repository's test file on it. *)

From Stdlib Require Import ZArith String Ascii List Bool Lia.
From Stdlib Require Import Init.Byte.
From stdpp Require Import base option list gmap strings.

Local Open Scope string_scope.
Local Open Scope list_scope.
Local Open Scope Z_scope.
#[local] Arguments String.append !_ _ / : simpl nomatch.

(** ** Go strings *)

Abbreviation bytes := (list Byte.byte).

(** [strings.HasPrefix(s, prefix)]. *)
Fixpoint strings_HasPrefix (s prefix : string) {struct prefix} : bool :=
  match prefix, s with
  | EmptyString, _ => true
  | String _ _, EmptyString => false
  | String a p, String b t => if Ascii.eqb a b then strings_HasPrefix t p else false
  end.

(** [s[n:]] for [n <= len(s)]. *)
Fixpoint string_drop (n : nat) (s : string) : string :=
  match n, s with
  | O, _ => s
  | S n', String _ t => string_drop n' t
  | S _, EmptyString => EmptyString
  end.

(** [strings.TrimPrefix(s, prefix)]: [s] without the leading [prefix], or [s]
    itself when it does not start with it. *)
Definition strings_TrimPrefix (s prefix : string) : string :=
  if strings_HasPrefix s prefix then string_drop (String.length prefix) s else s.

(** ** Go errors *)

(** The error values the program builds or inspects.  [errorString] is what
    [errors.New] and [fmt.Errorf] without [%w] make, [wrapError] what
    [fmt.Errorf] with [%w] makes (it keeps the formatted message and the wrapped
    error), [PathError] is [*fs.PathError], and the last three are the
    sentinels of package io/fs that package os re-exports; an operating-system
    error number is represented by the sentinel it [Is]. *)
Inductive error : Type :=
| errorString (s : string)
| wrapError (msg : string) (err : error)
| PathError (op path : string) (err : error)
| ErrNotExist
| ErrExist
| ErrPermission.

#[global] Instance error_eq_dec : EqDecision error.
Proof. solve_decision. Defined.

(** The [Error()] method. *)
Fixpoint Error (e : error) : string :=
  match e with
  | errorString s => s
  | wrapError msg _ => msg
  | PathError op path err => op +:+ " " +:+ path +:+ ": " +:+ Error err
  | ErrNotExist => "file does not exist"
  | ErrExist => "file already exists"
  | ErrPermission => "permission denied"
  end.

(** [errors.Is(err, target)]: [err] or an error in its [Unwrap] chain equals
    [target]. *)
Fixpoint errors_Is (err target : error) : bool :=
  if decide (err = target) then true
  else match err with
       | wrapError _ inner => errors_Is inner target
       | PathError _ _ inner => errors_Is inner target
       | _ => false
       end.

(** A Go result pair [(value, error)] with exactly one side set. *)
Inductive result (A : Type) : Type :=
| Ok (a : A)
| Err (e : error).
Arguments Ok {A} a.
Arguments Err {A} e.

(** ** net/url *)

Record Userinfo := mkUserinfo {
  username : string;
  password : string;
  passwordSet : bool
}.

(** [url.URL], field by field. *)
Record URL := mkURL {
  Scheme : string;
  Opaque : string;
  User : option Userinfo;
  Host : string;
  Path : string;
  RawPath : string;
  OmitHost : bool;
  ForceQuery : bool;
  RawQuery : string;
  Fragment : string;
  RawFragment : string
}.

(** [u.Scheme = s] on a copy of the struct. *)
Definition set_Scheme (u : URL) (s : string) : URL :=
  mkURL s (Opaque u) (User u) (Host u) (Path u) (RawPath u) (OmitHost u)
        (ForceQuery u) (RawQuery u) (Fragment u) (RawFragment u).

(** [cloneURL] (here and in net/http): a copy of the struct. *)
Definition cloneURL (u : URL) : URL := u.

(** ** Library collaborators *)

(** The pure functions of Go's standard library that the program calls. *)
Class Lib := {
  (** [time.Time], [Time.UTC] and [Time.Format] *)
  Time : Type;
  Time_UTC : Time -> Time;
  Time_Format : Time -> string -> string;
  (** [url.Parse] and the [String] method of a URL *)
  url_Parse : string -> result URL;
  URL_String : URL -> string;
  (** [sha256.Sum256], [hex.EncodeToString], [filepath.Join] *)
  sha256_Sum256 : bytes -> bytes;
  hex_EncodeToString : bytes -> string;
  filepath_Join : string -> string -> string
}.

(** ** net/http data *)

(** Addresses of heap objects. *)
Abbreviation loc := nat.

(** The contents of an [http.Header] (a [map[string][]string]). *)
Abbreviation Header := (gmap string (list string)).

(** [http.TimeFormat] and the status codes the program names. *)
Definition http_TimeFormat : string := "Mon, 02 Jan 2006 15:04:05 GMT".
Definition http_StatusOK : Z := 200.
Definition http_StatusMultipleChoices : Z := 300.
Definition http_StatusNotModified : Z := 304.

(** [validHeaderFieldByte] of net/textproto: the token characters of RFC 7230. *)
Definition validHeaderFieldByte (c : ascii) : bool :=
  let n := nat_of_ascii c in
  ((48 <=? n) && (n <=? 57) || (65 <=? n) && (n <=? 90) || (97 <=? n) && (n <=? 122)
   || existsb (Nat.eqb n) [33; 35; 36; 37; 38; 39; 42; 43; 45; 46; 94; 95; 96; 124; 126])%nat.

Definition is_lower (c : ascii) : bool := let n := nat_of_ascii c in ((97 <=? n) && (n <=? 122))%nat.
Definition is_upper (c : ascii) : bool := let n := nat_of_ascii c in ((65 <=? n) && (n <=? 90))%nat.

(** The second loop of [canonicalMIMEHeaderKey]: upper case at the start and
    after each dash, lower case elsewhere. *)
Fixpoint canonical_loop (upper : bool) (s : string) : string :=
  match s with
  | EmptyString => EmptyString
  | String c t =>
      let c' := if upper && is_lower c then ascii_of_nat (nat_of_ascii c - 32)
                else if negb upper && is_upper c then ascii_of_nat (nat_of_ascii c + 32)
                else c in
      String c' (canonical_loop (Ascii.eqb c' "-") t)
  end.

(** [textproto.CanonicalMIMEHeaderKey]: a key with a byte outside the token
    characters is returned unchanged. *)
Definition CanonicalMIMEHeaderKey (s : string) : string :=
  if forallb validHeaderFieldByte (list_ascii_of_string s) then canonical_loop true s else s.

(** [Header.Get] and [Header.Set] on the contents of a map. *)
Definition MIMEHeader_Get (h : Header) (key : string) : string :=
  match h !! CanonicalMIMEHeaderKey key with
  | Some (v :: _) => v
  | _ => ""
  end.

Definition MIMEHeader_Set (h : Header) (key value : string) : Header :=
  <[CanonicalMIMEHeaderKey key := [value]]> h.

(** An [io.ReadCloser] as what reading it to the end gives: the bytes it
    yields and the error, if any, that ends the reading instead of EOF. *)
Record ReadCloser := mkReader {
  reader_data : bytes;
  reader_err : option error
}.

(** [io.NopCloser(bytes.NewReader(b))]. *)
Definition bytes_NewReader (b : bytes) : ReadCloser := mkReader b None.

(** [*http.Request]: the fields the program and its tests touch.  The header
    is a reference to a map on the heap ([None] is the nil map); by the
    contract of http.RoundTripper a request handed to [RoundTrip] has its URL
    and Header initialized. *)
Record Request := mkRequest {
  Method : string;
  Request_URL : URL;
  Request_Header : option loc;
  Request_Host : string
}.

(** [*http.Response].  [Body] is an interface value ([None] is nil) and
    [Response_Request] a pointer to a request. *)
Record Response := mkResponse {
  StatusCode : Z;
  Status : string;
  Body : option ReadCloser;
  Response_Header : Header;
  ContentLength : Z;
  Response_Request : option loc
}.

(** [cachedResponse]. *)
Definition cachedResponse (req : loc) (body : bytes) : Response :=
  {| StatusCode := http_StatusOK;
     Status := "200 OK";
     Body := Some (bytes_NewReader body);
     Response_Header := {[ "X-HTTP-Cache" := ["HIT"] ]};
     ContentLength := Z.of_nat (length body);
     Response_Request := Some req |}.

(** ** The operating system and the transport *)

(** [os.FileInfo], as far as the program reads it. *)
Record FileInfo `{Lib} := mkFileInfo {
  Size : Z;
  ModTime : Time;
  IsDir : bool
}.
Arguments mkFileInfo {_} _ _ _.

(** An [http.RoundTripper] other than the cache itself: given the address of
    the request, the request and the contents of its header map, it acts on
    the world and answers with a response or an error.  It gets the request by
    value: a RoundTripper must not modify the request it is given. *)
Definition RoundTripper (W : Type) : Type :=
  loc -> Request -> Header -> W -> W * result Response.

(** What package os and the default transport do to the world [W] (the file
    system and the network). *)
Class OS `{Lib} (W : Type) := {
  sys_Stat : string -> W -> W * result FileInfo;
  sys_ReadFile : string -> W -> W * result bytes;
  sys_WriteFile : string -> bytes -> Z -> W -> W * option error;
  sys_Rename : string -> string -> W -> W * option error;
  sys_MkdirAll : string -> Z -> W -> W * option error;
  http_DefaultTransport : RoundTripper W
}.

(** One call to a collaborator, with its answer. *)
Inductive Event `{Lib} : Type :=
| EvStat (path : string) (r : result FileInfo)
| EvReadFile (path : string) (r : result bytes)
| EvWriteFile (path : string) (data : bytes) (perm : Z) (r : option error)
| EvRename (oldpath newpath : string) (r : option error)
| EvMkdirAll (path : string) (perm : Z) (r : option error)
| EvRoundTrip (req : loc) (snapshot : Request) (header : Header) (r : result Response).

(** The state a call runs in: the heap of requests and of header maps, the
    world, and the log of the calls made to the collaborators so far.  The log
    is ghost state: the program never reads it. *)
Record State `{Lib} (W : Type) := mkState {
  reqs : list Request;
  hdrs : list Header;
  world : W;
  trace : list Event
}.
Arguments mkState {_ W} _ _ _ _.
Arguments reqs {_ W} _.
Arguments hdrs {_ W} _.
Arguments world {_ W} _.
Arguments trace {_ W} _.

(** [cacheRoundTripper]. [original] is an interface value; [None] is nil. *)
Record cacheRoundTripper (W : Type) := mkCache {
  original : option (RoundTripper W);
  cacheDir : string
}.
Arguments mkCache {W} _ _.
Arguments original {W} _.
Arguments cacheDir {W} _.

(** [*http.Transport], as far as [RegisterProtocol] is concerned: the
    alternate protocols registered on it. *)
Abbreviation Transport W := (gmap string (cacheRoundTripper W)).

Section Model.
Context `{Lib} {W : Type} `{!OS W}.

(** *** The monad of the effectful code

    A computation takes a state and gives the state it leaves behind together
    with the value it returns, or [None] when it panics (a Go run-time panic,
    such as a nil dereference). *)
Definition M (A : Type) : Type := State W -> State W * option A.

Definition ret {A : Type} (a : A) : M A := fun st => (st, Some a).

Definition bind {A B : Type} (m : M A) (k : A -> M B) : M B := fun st =>
  match m st with
  | (st', Some a) => k a st'
  | (st', None) => (st', None)
  end.

Notation "'let*' x ':=' m 'in' k" := (bind m (fun x => k))
  (at level 10, x name, m at level 100, k at level 200, only parsing).
Notation "'let*' ' pat ':=' m 'in' k" := (bind m (fun x => match x with pat => k end))
  (at level 10, pat pattern, m at level 100, k at level 200, only parsing).

Definition panic {A : Type} : M A := fun st => (st, None).

(** Reading and writing the heap. *)
Definition deref_req (l : loc) : M Request := fun st => (st, reqs st !! l).

Definition new_req (r : Request) : M loc := fun st =>
  (mkState (reqs st ++ [r]) (hdrs st) (world st) (trace st), Some (length (reqs st))).

Definition assign_req (l : loc) (r : Request) : M unit := fun st =>
  match reqs st !! l with
  | Some _ => (mkState (<[l := r]> (reqs st)) (hdrs st) (world st) (trace st), Some tt)
  | None => (st, None)
  end.

Definition deref_hdr (l : loc) : M Header := fun st => (st, hdrs st !! l).

Definition new_hdr (h : Header) : M loc := fun st =>
  (mkState (reqs st) (hdrs st ++ [h]) (world st) (trace st), Some (length (hdrs st))).

Definition assign_hdr (l : loc) (h : Header) : M unit := fun st =>
  match hdrs st !! l with
  | Some _ => (mkState (reqs st) (<[l := h]> (hdrs st)) (world st) (trace st), Some tt)
  | None => (st, None)
  end.

(** A call to a collaborator: it changes the world and is logged. *)
Definition call {A : Type} (f : W -> W * A) (ev : A -> Event) : M A := fun st =>
  let '(w, a) := f (world st) in
  (mkState (reqs st) (hdrs st) w (trace st ++ [ev a]), Some a).

Definition os_Stat (path : string) : M (result FileInfo) :=
  call (sys_Stat path) (EvStat path).
Definition os_ReadFile (path : string) : M (result bytes) :=
  call (sys_ReadFile path) (EvReadFile path).
Definition os_WriteFile (path : string) (data : bytes) (perm : Z) : M (option error) :=
  call (sys_WriteFile path data perm) (EvWriteFile path data perm).
Definition os_Rename (oldpath newpath : string) : M (option error) :=
  call (sys_Rename oldpath newpath) (EvRename oldpath newpath).
Definition os_MkdirAll (path : string) (perm : Z) : M (option error) :=
  call (sys_MkdirAll path perm) (EvMkdirAll path perm).

(** [rt.RoundTrip(req)] on a transport other than the cache. *)
Definition RoundTripper_RoundTrip (rt : RoundTripper W) (req : loc) : M (result Response) :=
  let* r := deref_req req in
  let* h := match Request_Header r with
      | Some hl => deref_hdr hl
      | None => ret ∅
      end in
  call (rt req r h) (EvRoundTrip req r h).

(** [req.Header.Get(key)] and [req.Header.Set(key, value)] through the
    reference: reading a nil map gives the zero value, writing to it panics. *)
Definition Header_Get (h : option loc) (key : string) : M string :=
  match h with
  | Some hl => let* m := deref_hdr hl in ret (MIMEHeader_Get m key)
  | None => ret ""
  end.

Definition Header_Set (h : option loc) (key value : string) : M unit :=
  match h with
  | Some hl => let* m := deref_hdr hl in assign_hdr hl (MIMEHeader_Set m key value)
  | None => panic
  end.

(** [req.Clone(ctx)]: a new request with a copy of the URL and, unless the
    header is nil, a new header map with the same contents. *)
Definition Request_Clone (req : loc) : M loc :=
  let* r := deref_req req in
  let* h2 := match Request_Header r with
       | Some hl => let* m := deref_hdr hl in let* hl2 := new_hdr m in ret (Some hl2)
       | None => ret None
       end in
  new_req (mkRequest (Method r) (cloneURL (Request_URL r)) h2 (Request_Host r)).

(** [io.ReadAll(body)]: a nil reader panics. *)
Definition io_ReadAll (body : option ReadCloser) : M (bytes * option error) :=
  match body with
  | Some rc => ret (reader_data rc, reader_err rc)
  | None => panic
  end.

(** *** The program, function by function *)

(** [cachePathForURL]. *)
Definition cachePathForURL (c : cacheRoundTripper W) (u : URL) : string :=
  let keyURL := cloneURL u in
  let keyURL :=
    if String.eqb (Scheme keyURL) "cache" || String.eqb (Scheme keyURL) "cachez"
    then set_Scheme keyURL "http" else keyURL in
  let hash := sha256_Sum256 (list_byte_of_string (URL_String keyURL)) in
  filepath_Join (cacheDir c) (hex_EncodeToString hash).

(** [readCacheFile], with Go's triple of results: [(nil, nil, err)] or
    [(data, info, nil)]. *)
Definition readCacheFile (path : string) : M (bytes * option FileInfo * option error) :=
  let* ri := os_Stat path in
  match ri with
  | Err err => ret ([], None, Some err)
  | Ok info =>
      let* rd := os_ReadFile path in
      match rd with
      | Err err => ret ([], None, Some err)
      | Ok data => ret (data, Some info, None)
      end
  end.

(** [writeCacheFile]. *)
Definition writeCacheFile (path : string) (data : bytes) : M (option error) :=
  let tmpPath := path +:+ ".tmp" in
  let* e := os_WriteFile tmpPath data 420 (* 0o644 *) in
  match e with
  | Some err => ret (Some err)
  | None => os_Rename tmpPath path
  end.

(** [unwrapScheme]. *)
Definition unwrapScheme (u : URL) (scheme : string) : result URL :=
  let raw := URL_String u in
  let prefix := scheme +:+ ":" in
  if negb (strings_HasPrefix raw prefix) then
    Err (errorString ("url does not start with " +:+ prefix +:+ " prefix"))
  else
    let targetRaw := strings_TrimPrefix raw prefix in
    if String.eqb targetRaw "" then
      Err (errorString ("missing downstream URL after " +:+ prefix +:+ " prefix"))
    else
      match url_Parse targetRaw with
      | Err err => Err (wrapError ("parse downstream URL: " +:+ Error err) err)
      | Ok targetURL =>
          if String.eqb (Scheme targetURL) "" then
            Err (errorString "downstream URL must include scheme")
          else Ok targetURL
      end.

(** [drainAndClose]: nothing to do on a nil body; otherwise what is left of
    the reader is discarded and it is closed, which leaves no mark on the
    state. *)
Definition drainAndClose (body : option ReadCloser) : M unit :=
  match body with
  | None => ret tt
  | Some _ => ret tt
  end.

(** [roundTripWithValidation].  [fetch] is the function from the cloning of
    the request on; it is reached unless the cache read failed with an error
    other than "not found". *)
Definition roundTripWithValidation (c : cacheRoundTripper W) (req : loc) : M (result Response) :=
  let* r := deref_req req in
  match unwrapScheme (Request_URL r) "cache" with
  | Err err => ret (Err err)
  | Ok downstreamURL =>
      let cachePath := cachePathForURL c downstreamURL in
      let* ' (cachedBody, cachedInfo, cacheErr) := readCacheFile cachePath in
      let hasCache := match cacheErr with None => true | Some _ => false end in
      let fetch : M (result Response) :=
        let* upstreamReq := Request_Clone req in
        let* u := deref_req upstreamReq in
        let* _ := assign_req upstreamReq
              (mkRequest (Method u) downstreamURL (Request_Header u) (Request_Host u)) in
        let* unset := (if hasCache
                 then let* ims := Header_Get (Request_Header u) "If-Modified-Since" in
                      ret (String.eqb ims "")
                 else ret false) in
        let* _ := (if unset
             then match cachedInfo with
                  | Some info =>
                      Header_Set (Request_Header u) "If-Modified-Since"
                        (Time_Format (Time_UTC (ModTime info)) http_TimeFormat)
                  | None => panic
                  end
             else ret tt) in
        match original c with
        | None => panic
        | Some rt =>
            let* ans := RoundTripper_RoundTrip rt upstreamReq in
            match ans with
            | Err err =>
                if hasCache then ret (Ok (cachedResponse req cachedBody))
                else ret (Err err)
            | Ok resp =>
                if hasCache && (StatusCode resp =? http_StatusNotModified) then
                  let* _ := drainAndClose (Body resp) in
                  ret (Ok (cachedResponse req cachedBody))
                else if (http_StatusOK <=? StatusCode resp)
                        && (StatusCode resp <? http_StatusMultipleChoices) then
                  let* ' (body, readErr) := io_ReadAll (Body resp) in
                  let* _ := drainAndClose (Body resp) in
                  match readErr with
                  | Some err =>
                      if hasCache then ret (Ok (cachedResponse req cachedBody))
                      else ret (Err err)
                  | None =>
                      let* _ := writeCacheFile cachePath body in
                      ret (Ok (mkResponse (StatusCode resp) (Status resp)
                                  (Some (bytes_NewReader body)) (Response_Header resp)
                                  (Z.of_nat (length body)) (Response_Request resp)))
                  end
                else if hasCache then
                  let* _ := drainAndClose (Body resp) in
                  ret (Ok (cachedResponse req cachedBody))
                else ret (Ok resp)
            end
        end in
      match cacheErr with
      | Some err => if negb (errors_Is err ErrNotExist) then ret (Err err) else fetch
      | None => fetch
      end
  end.

(** [roundTripCacheOnly]. *)
Definition roundTripCacheOnly (c : cacheRoundTripper W) (req : loc) : M (result Response) :=
  let* r := deref_req req in
  match unwrapScheme (Request_URL r) "cachez" with
  | Err err => ret (Err err)
  | Ok downstreamURL =>
      let cachePath := cachePathForURL c downstreamURL in
      let* ' (cachedBody, _, err) := readCacheFile cachePath in
      match err with
      | Some err =>
          if errors_Is err ErrNotExist
          then ret (Err (errorString ("cache miss for " +:+ URL_String downstreamURL)))
          else ret (Err err)
      | None => ret (Ok (cachedResponse req cachedBody))
      end
  end.

(** [RoundTrip], the method that makes [cacheRoundTripper] an
    http.RoundTripper. *)
Definition RoundTrip (c : cacheRoundTripper W) (req : loc) : M (result Response) :=
  match original c with
  | None => ret (Err (errorString "original RoundTripper is not set"))
  | Some rt =>
      let* r := deref_req req in
      if String.eqb (Scheme (Request_URL r)) "cache" then roundTripWithValidation c req
      else if String.eqb (Scheme (Request_URL r)) "cachez" then roundTripCacheOnly c req
      else RoundTripper_RoundTrip rt req
  end.

(** [NewRoundTripper]. *)
Definition NewRoundTripper (cacheDir : string) (original : option (RoundTripper W))
  : M (result (cacheRoundTripper W)) :=
  if String.eqb cacheDir "" then ret (Err (errorString "cache directory is required"))
  else
    let* e := os_MkdirAll cacheDir 493 (* 0o755 *) in
    match e with
    | Some err => ret (Err (wrapError ("create cache directory: " +:+ Error err) err))
    | None =>
        let original :=
          match original with
          | None => http_DefaultTransport
          | Some rt => rt
          end in
        ret (Ok (mkCache (Some original) cacheDir))
    end.

(** [transport.RegisterProtocol(scheme, rt)]: registering a scheme twice
    panics. *)
Definition Transport_RegisterProtocol (t : Transport W) (scheme : string)
    (rt : cacheRoundTripper W) : M (Transport W) :=
  match t !! scheme with
  | Some _ => panic
  | None => ret (<[scheme := rt]> t)
  end.

(** [AddCacheRoundTripper].  The host transport is passed by reference
    ([None] is the nil pointer); the result pairs what it holds after the call
    with the error returned. *)
Definition AddCacheRoundTripper (cacheDir : string) (original : option (RoundTripper W))
    (transport : option (Transport W)) : M (option (Transport W) * option error) :=
  match transport with
  | None => ret (None, Some (errorString "transport is nil"))
  | Some t =>
      let* rt := NewRoundTripper cacheDir original in
      match rt with
      | Err err => ret (Some t, Some err)
      | Ok rt =>
          let* t := Transport_RegisterProtocol t "cache" rt in
          let* t := Transport_RegisterProtocol t "cachez" rt in
          ret (Some t, None)
      end
  end.

End Model.

Arguments M {_} W A.

(** * Notions used in the statements *)

(** A string begins with a prefix when it is the prefix followed by a rest. *)
Definition begins_with (s prefix : string) : Prop := exists rest, s = prefix +:+ rest.

(** The events that are calls to the wrapped transport. *)
Definition is_transport_call `{Lib} (e : Event) : bool :=
  match e with
  | EvRoundTrip _ _ _ _ => true
  | _ => false
  end.

(** The number of calls to the wrapped transport in a log. *)
Definition transport_calls `{Lib} (evs : list Event) : nat :=
  length (filter (fun e => is_transport_call e = true) evs).

(** What a computation may do to the state: leave the heap alone and add
    storage events only. *)
Definition storage_only `{Lib} {W : Type} (st st' : State W) : Prop :=
  reqs st' = reqs st /\ hdrs st' = hdrs st /\
  exists evs, trace st' = trace st ++ evs /\ Forall (fun e => is_transport_call e = false) evs.

(** The name of the conditional-validation header. *)
Definition IMS : string := "If-Modified-Since".

(** The request handed to the wrapped transport: the caller's request
    retargeted at the destination, with the header map at [hl']. *)
Definition upstream_request (r : Request) (d : URL) (hl' : loc) : Request :=
  mkRequest (Method r) d (Some hl') (Request_Host r).

(** The header sent upstream, from the caller's header [h] and the outcome of
    the cache read. *)
Definition upstream_header `{Lib} (h : Header) (cachedInfo : option FileInfo)
    (cacheErr : option error) : Header :=
  match cacheErr, cachedInfo with
  | None, Some info =>
      if String.eqb (MIMEHeader_Get h IMS) ""
      then MIMEHeader_Set h IMS (Time_Format (Time_UTC (ModTime info)) http_TimeFormat)
      else h
  | _, _ => h
  end.

(** A status of the success class. *)
Definition is_2xx (code : Z) : Prop :=
  http_StatusOK <= code < http_StatusMultipleChoices.

(** The caller has set the header [key]: the header map of its request has
    an entry under that name. *)
Definition caller_set (h : Header) (key : string) : Prop := is_Some (h !! key).

(** The storage events that read the file at [path]. *)
Definition reads_path `{Lib} (path : string) (e : Event) : Prop :=
  match e with
  | EvStat p _ => p = path
  | EvReadFile p _ => p = path
  | _ => False
  end.

(** The events that change the storage. *)
Definition is_write `{Lib} (e : Event) : bool :=
  match e with
  | EvWriteFile _ _ _ _ => true
  | EvRename _ _ _ => true
  | EvMkdirAll _ _ _ => true
  | _ => false
  end.

(** The events by which [writeCacheFile] stores [data] at [path]. *)
Definition stores_at `{Lib} (path : string) (data : bytes) (e : Event) : Prop :=
  match e with
  | EvWriteFile p b perm _ => p = path +:+ ".tmp" /\ b = data /\ perm = 420
  | EvRename p q _ => p = path +:+ ".tmp" /\ q = path
  | _ => False
  end.

(** A world in which the file system keeps what is stored through a temporary
    file: once [path ".tmp"] has been written and renamed to [path], the
    file at [path] can be examined and read, and reads as what was written. *)
Definition keeps_files `{Lib} {W : Type} `{!OS W} (path : string) (w : W) : Prop :=
  forall data w1 w2,
    sys_WriteFile (path +:+ ".tmp") data 420 w = (w1, None) ->
    sys_Rename (path +:+ ".tmp") path w1 = (w2, None) ->
    exists info w3 w4,
      sys_Stat path w2 = (w3, Ok info) /\ sys_ReadFile path w3 = (w4, Ok data).

(** * A sample of the collaborators

    One executable choice of the library functions, of the operating system
    and of the network, on which the program runs by computation: the hash
    is SHA-256 and the date format is http.TimeFormat as Go computes them,
    and [url_Parse] and [URL_String] follow net/url on URLs that need no
    escaping.  The file system is a map from paths to files. *)

Module Sample.

(** ** time: seconds since the Unix epoch, rendered in UTC *)

Definition digit (z : Z) : ascii := ascii_of_nat (Z.to_nat (48 + z mod 10)).
Definition pad2 (z : Z) : string := String (digit (z / 10)) (String (digit z) "").
Definition pad4 (z : Z) : string := pad2 (z / 100) +:+ pad2 z.

Definition weekdays : list string := ["Sun"; "Mon"; "Tue"; "Wed"; "Thu"; "Fri"; "Sat"].
Definition months : list string :=
  ["Jan"; "Feb"; "Mar"; "Apr"; "May"; "Jun"; "Jul"; "Aug"; "Sep"; "Oct"; "Nov"; "Dec"].

(** Year, month and day of the given day number (days since 1970-01-01) in the
    proleptic Gregorian calendar. *)
Definition civil (days : Z) : Z * Z * Z :=
  let z := days + 719468 in
  let era := z / 146097 in
  let doe := z - era * 146097 in
  let yoe := (doe - doe / 1460 + doe / 36524 - doe / 146096) / 365 in
  let doy := doe - (365 * yoe + yoe / 4 - yoe / 100) in
  let mp := (5 * doy + 2) / 153 in
  let d := doy - (153 * mp + 2) / 5 + 1 in
  let m := if mp <? 10 then mp + 3 else mp - 9 in
  (yoe + era * 400 + (if m <=? 2 then 1 else 0), m, d).

(** [t.Format(http.TimeFormat)] for a time in UTC. *)
Definition http_date (t : Z) : string :=
  let days := t / 86400 in
  let secs := t mod 86400 in
  let '(y, m, d) := civil days in
  nth (Z.to_nat ((days + 4) mod 7)) weekdays "" +:+ ", " +:+ pad2 d +:+ " "
  +:+ nth (Z.to_nat (m - 1)) months "" +:+ " " +:+ pad4 y +:+ " "
  +:+ pad2 (secs / 3600) +:+ ":" +:+ pad2 (secs / 60 mod 60) +:+ ":" +:+ pad2 (secs mod 60)
  +:+ " GMT".

(** The modification time the repository's test gives the cache file:
    [time.Date(2026, time.January, 2, 3, 4, 5, 0, time.UTC)]. *)
Definition test_modTime : Z := 1767323045.

(** ** encoding/hex and crypto/sha256 *)

Definition byteZ (b : Byte.byte) : Z := Z.of_N (Byte.to_N b).
Definition Zbyte (z : Z) : Byte.byte :=
  match Byte.of_N (Z.to_N (z mod 256)) with
  | Some b => b
  | None => Byte.x00
  end.

Definition hexdigit (z : Z) : ascii :=
  ascii_of_nat (Z.to_nat (if z <? 10 then 48 + z else 87 + z)).

Fixpoint EncodeToString (bs : bytes) : string :=
  match bs with
  | [] => EmptyString
  | b :: rest =>
      String (hexdigit (byteZ b / 16)) (String (hexdigit (byteZ b mod 16)) (EncodeToString rest))
  end.

Definition w32 (x : Z) : Z := x mod 2 ^ 32.
Definition rotr (n x : Z) : Z := Z.lor (Z.shiftr x n) (w32 (Z.shiftl x (32 - n))).
Definition Ch (x y z : Z) : Z := Z.lxor (Z.land x y) (Z.land (w32 (Z.lnot x)) z).
Definition Maj (x y z : Z) : Z := Z.lxor (Z.lxor (Z.land x y) (Z.land x z)) (Z.land y z).
Definition Sigma0 (x : Z) : Z := Z.lxor (Z.lxor (rotr 2 x) (rotr 13 x)) (rotr 22 x).
Definition Sigma1 (x : Z) : Z := Z.lxor (Z.lxor (rotr 6 x) (rotr 11 x)) (rotr 25 x).
Definition sigma0 (x : Z) : Z := Z.lxor (Z.lxor (rotr 7 x) (rotr 18 x)) (Z.shiftr x 3).
Definition sigma1 (x : Z) : Z := Z.lxor (Z.lxor (rotr 17 x) (rotr 19 x)) (Z.shiftr x 10).

(** The integer cube root, one bit at a time. *)
Fixpoint icbrt_bits (bits : nat) (n r : Z) : Z :=
  match bits with
  | O => r
  | S b =>
      let r' := r + 2 ^ Z.of_nat b in
      icbrt_bits b n (if r' * r' * r' <=? n then r' else r)
  end.

Definition primes64 : list Z :=
  [2; 3; 5; 7; 11; 13; 17; 19; 23; 29; 31; 37; 41; 43; 47; 53; 59; 61; 67; 71; 73; 79; 83;
   89; 97; 101; 103; 107; 109; 113; 127; 131; 137; 139; 149; 151; 157; 163; 167; 173; 179;
   181; 191; 193; 197; 199; 211; 223; 227; 229; 233; 239; 241; 251; 257; 263; 269; 271; 277;
   281; 283; 293; 307; 311].

(** The round constants and the initial hash value: the first 32 bits of the
    fractional parts of the cube roots, resp. square roots, of the first
    primes. *)
Definition round_constants : list Z :=
  Eval vm_compute in map (fun p => w32 (icbrt_bits 40 (p * 2 ^ 96) 0)) primes64.
Definition initial_hash : list Z :=
  Eval vm_compute in map (fun p => w32 (Z.sqrt (p * 2 ^ 64))) (firstn 8 primes64).

Fixpoint be_bytes (n : nat) (z : Z) : bytes :=
  match n with
  | O => []
  | S n' => Zbyte (Z.shiftr z (8 * Z.of_nat n')) :: be_bytes n' z
  end.

Definition pad (msg : bytes) : bytes :=
  let len := Z.of_nat (length msg) in
  msg ++ [Byte.x80] ++ repeat Byte.x00 (Z.to_nat ((55 - len) mod 64)) ++ be_bytes 8 (8 * len).

Fixpoint be_words (n : nat) (bs : bytes) : list Z :=
  match n, bs with
  | S n', a :: b :: c :: d :: rest =>
      (byteZ a * 2 ^ 24 + byteZ b * 2 ^ 16 + byteZ c * 2 ^ 8 + byteZ d) :: be_words n' rest
  | _, _ => []
  end.

(** The message schedule; [win] holds the last sixteen words, oldest first. *)
Fixpoint schedule (n : nat) (win : list Z) : list Z :=
  match n with
  | O => []
  | S n' =>
      let w := w32 (sigma1 (nth 14 win 0) + nth 9 win 0 + sigma0 (nth 1 win 0) + nth 0 win 0) in
      w :: schedule n' (tl win ++ [w])
  end.

Definition sha_round (s : list Z) (kw : Z * Z) : list Z :=
  match s with
  | [a; b; c; d; e; f; g; h] =>
      let t1 := h + Sigma1 e + Ch e f g + fst kw + snd kw in
      let t2 := Sigma0 a + Maj a b c in
      [w32 (t1 + t2); a; b; c; w32 (d + t1); e; f; g]
  | _ => s
  end.

Definition compress (hs block : list Z) : list Z :=
  let s := fold_left sha_round (combine round_constants (block ++ schedule 48 block)) hs in
  map (fun p => w32 (fst p + snd p)) (combine hs s).

Fixpoint sha_blocks (n : nat) (ws hs : list Z) : list Z :=
  match n, ws with
  | S n', _ :: _ => sha_blocks n' (skipn 16 ws) (compress hs (firstn 16 ws))
  | _, _ => hs
  end.

Definition Sum256 (msg : bytes) : bytes :=
  let p := pad msg in
  flat_map (be_bytes 4) (sha_blocks (length p) (be_words (length p) p) initial_hash).

(** ** net/url, on URLs that need no escaping *)

Definition is_alpha (c : ascii) : bool := is_lower c || is_upper c.
Definition is_digit (c : ascii) : bool :=
  let n := nat_of_ascii c in ((48 <=? n) && (n <=? 57))%nat.
Definition one_of (cs : string) (c : ascii) : bool :=
  existsb (Ascii.eqb c) (list_ascii_of_string cs).

(** The characters the sample covers: unreserved characters, the delimiters
    of scheme, authority, path, query and fragment, and the reserved
    characters that net/url leaves unescaped in a path. *)
Definition plain (c : ascii) : bool :=
  is_alpha c || is_digit c || one_of "-._~:/?#$&+,;=" c.

Fixpoint index_of (c : ascii) (s : string) : option nat :=
  match s with
  | EmptyString => None
  | String a t => if Ascii.eqb a c then Some O else option_map S (index_of c t)
  end.

Fixpoint last_index_of (c : ascii) (s : string) : option nat :=
  match s with
  | EmptyString => None
  | String a t =>
      match last_index_of c t with
      | Some i => Some (S i)
      | None => if Ascii.eqb a c then Some O else None
      end
  end.

Definition string_take (n : nat) (s : string) : string := String.substring 0 n s.

(** [strings.Cut(s, sep)] for a one-byte separator. *)
Definition cut (sep : ascii) (s : string) : string * string :=
  match index_of sep s with
  | Some i => (string_take i s, string_drop (S i) s)
  | None => (s, "")
  end.

Definition count (c : ascii) (s : string) : nat :=
  length (filter (fun a => Ascii.eqb a c = true) (list_ascii_of_string s)).

Definition has_suffix_byte (s : string) (c : ascii) : bool :=
  match last_index_of c s with
  | Some i => Nat.eqb (S i) (String.length s)
  | None => false
  end.

Fixpoint to_lower (s : string) : string :=
  match s with
  | EmptyString => EmptyString
  | String c t =>
      String (if is_upper c then ascii_of_nat (nat_of_ascii c + 32) else c) (to_lower t)
  end.

(** [getScheme]. *)
Fixpoint getScheme_from (i : nat) (rest rawURL : string) : result (string * string) :=
  match rest with
  | EmptyString => Ok ("", rawURL)
  | String c t =>
      if is_alpha c then getScheme_from (S i) t rawURL
      else if is_digit c || one_of "+-." c then
        match i with
        | O => Ok ("", rawURL)
        | S _ => getScheme_from (S i) t rawURL
        end
      else if Ascii.eqb c ":" then
        match i with
        | O => Err (errorString "missing protocol scheme")
        | S _ => Ok (string_take i rawURL, t)
        end
      else Ok ("", rawURL)
  end.

Definition getScheme (rawURL : string) : result (string * string) :=
  getScheme_from O rawURL rawURL.

(** [validOptionalPort] and [parseHost], without brackets and escapes. *)
Definition validOptionalPort (port : string) : bool :=
  match port with
  | EmptyString => true
  | String c t => Ascii.eqb c ":" && forallb is_digit (list_ascii_of_string t)
  end.

Definition parseHost (host : string) : result string :=
  match last_index_of ":" host with
  | Some i =>
      if validOptionalPort (string_drop i host) then Ok host
      else Err (errorString ("invalid port after host"))
  | None => Ok host
  end.

Definition empty_URL : URL := mkURL "" "" None "" "" "" false false "" "" "".

(** [parse(rawURL, false)]. *)
Definition parse (rawURL : string) : result URL :=
  if String.eqb rawURL "*" then Ok (mkURL "" "" None "" "*" "" false false "" "" "")
  else
    match getScheme rawURL with
    | Err e => Err e
    | Ok (scheme, rest) =>
        let scheme := to_lower scheme in
        let '(rest, forceQuery, rawQuery) :=
          if has_suffix_byte rest "?" && Nat.eqb (count "?" rest) 1
          then (string_take (String.length rest - 1) rest, true, "")
          else (fst (cut "?" rest), false, snd (cut "?" rest)) in
        if negb (strings_HasPrefix rest "/") && negb (String.eqb scheme "") then
          Ok (mkURL scheme rest None "" "" "" false forceQuery rawQuery "" "")
        else if negb (strings_HasPrefix rest "/")
                && match index_of ":" (fst (cut "/" rest)) with Some _ => true | None => false end
        then Err (errorString "first path segment in URL cannot contain colon")
        else if (negb (String.eqb scheme "") || negb (strings_HasPrefix rest "///"))
                && strings_HasPrefix rest "//" then
          let authority := string_drop 2 rest in
          let '(authority, rest) :=
            match index_of "/" authority with
            | Some i => (string_take i authority, string_drop i authority)
            | None => (authority, "")
            end in
          match parseHost authority with
          | Err e => Err e
          | Ok host => Ok (mkURL scheme "" None host rest "" false forceQuery rawQuery "" "")
          end
        else
          Ok (mkURL scheme "" None "" rest ""
                (negb (String.eqb scheme "") && strings_HasPrefix rest "/")
                forceQuery rawQuery "" "")
    end.

(** [strconv.Quote] of a string that needs no escaping. *)
Definition quoted (s : string) : string :=
  String (ascii_of_nat 34) (s +:+ String (ascii_of_nat 34) EmptyString).

(** [url.Parse]: the fragment is cut off first.  A string with a character
    outside [plain] is outside the sample, which answers with an error of its
    own. *)
Definition Parse (rawURL : string) : result URL :=
  if negb (forallb plain (list_ascii_of_string rawURL)) then
    Err (errorString "sample: the URL needs escaping")
  else
    let '(u, frag) := cut "#" rawURL in
    match parse u with
    | Err e => Err (wrapError ("parse " +:+ quoted u +:+ ": " +:+ Error e) e)
    | Ok url =>
        Ok (mkURL (Scheme url) (Opaque url) (User url) (Host url) (Path url) (RawPath url)
              (OmitHost url) (ForceQuery url) (RawQuery url) frag "")
    end.

(** The [String] method. *)
Definition URL_to_string (u : URL) : string :=
  let scheme := if String.eqb (Scheme u) "" then "" else Scheme u +:+ ":" in
  let path := if String.eqb (RawPath u) "" then Path u else RawPath u in
  let body :=
    if negb (String.eqb (Opaque u) "") then scheme +:+ Opaque u
    else
      let authority :=
        if negb (String.eqb (Scheme u) "") || negb (String.eqb (Host u) "")
           || match User u with Some _ => true | None => false end
        then
          if OmitHost u && String.eqb (Host u) ""
             && match User u with Some _ => false | None => true end
          then ""
          else
            (if negb (String.eqb (Host u) "") || negb (String.eqb (Path u) "")
                || match User u with Some _ => true | None => false end
             then "//" else "")
            +:+ match User u with
                | Some ui =>
                    username ui +:+ (if passwordSet ui then ":" +:+ password ui else "") +:+ "@"
                | None => ""
                end
            +:+ Host u
        else "" in
      let slash :=
        if negb (String.eqb path "") && negb (strings_HasPrefix path "/")
           && negb (String.eqb (Host u) "")
        then "/" else "" in
      let dot :=
        if String.eqb (scheme +:+ authority +:+ slash) ""
           && match index_of ":" (fst (cut "/" path)) with Some _ => true | None => false end
        then "./" else "" in
      scheme +:+ authority +:+ slash +:+ dot +:+ path in
  body
  +:+ (if ForceQuery u || negb (String.eqb (RawQuery u) "") then "?" +:+ RawQuery u else "")
  +:+ (if String.eqb (Fragment u) "" then ""
       else "#" +:+ (if String.eqb (RawFragment u) "" then Fragment u else RawFragment u)).

(** ** The library *)

Definition lib : Lib := {|
  Time := Z;
  Time_UTC := fun t => t;
  Time_Format := fun t layout => if String.eqb layout http_TimeFormat then http_date t else layout;
  url_Parse := Parse;
  URL_String := URL_to_string;
  sha256_Sum256 := Sum256;
  hex_EncodeToString := EncodeToString;
  filepath_Join := fun dir name => dir +:+ "/" +:+ name
|}.
#[local] Existing Instance lib.

(** ** The world: a file system, a network and the counter of a mock *)

Record File := mkFile {
  file_data : bytes;
  file_mtime : Z
}.

Record World := mkWorld {
  files : gmap string File;
  dirs : list string;
  (** paths the process is denied access to *)
  denied : list string;
  (** the modification time of the next file written *)
  clock : Z;
  (** what the servers answer with: status and body, by URL *)
  network : gmap string (Z * bytes);
  (** [callCount] of the tests' mockRoundTripper *)
  callCount : nat
}.

Definition is_denied (path : string) (w : World) : bool :=
  existsb (String.eqb path) (denied w).

Definition set_files (w : World) (fs : gmap string File) (t : Z) : World :=
  mkWorld fs (dirs w) (denied w) t (network w) (callCount w).

Definition lookup_file (op path : string) (w : World) : result File :=
  if is_denied path w then Err (PathError op path ErrPermission)
  else match files w !! path with
       | Some f => Ok f
       | None => Err (PathError op path ErrNotExist)
       end.

Definition os : OS World := {|
  sys_Stat := fun path w =>
    (w, match lookup_file "stat" path w with
        | Ok f => Ok (mkFileInfo (Z.of_nat (length (file_data f))) (file_mtime f) false)
        | Err e => Err e
        end);
  sys_ReadFile := fun path w =>
    (w, match lookup_file "open" path w with
        | Ok f => Ok (file_data f)
        | Err e => Err e
        end);
  sys_WriteFile := fun path data perm w =>
    if is_denied path w then (w, Some (PathError "open" path ErrPermission))
    else (set_files w (<[path := mkFile data (clock w)]> (files w)) (clock w + 1), None);
  sys_Rename := fun oldpath newpath w =>
    match lookup_file "rename" oldpath w with
    | Ok f => (set_files w (<[newpath := f]> (delete oldpath (files w))) (clock w), None)
    | Err e => (w, Some e)
    end;
  sys_MkdirAll := fun path perm w =>
    if is_denied path w then (w, Some (PathError "mkdir" path ErrPermission))
    else (mkWorld (files w) (path :: dirs w) (denied w) (clock w) (network w) (callCount w),
          None);
  http_DefaultTransport := fun req r h w =>
    (w, match network w !! URL_to_string (Request_URL r) with
        | Some (code, body) =>
            Ok (mkResponse code "" (Some (mkReader body None)) ∅
                  (Z.of_nat (length body)) (Some req))
        | None => Err (errorString "dial tcp: connection refused")
        end)
|}.
#[local] Existing Instance os.

(** The tests' [mockRoundTripper]: it counts its calls and answers with
    [roundTripFunc]. *)
Definition mockRoundTripper
    (roundTripFunc : loc -> Request -> Header -> result Response) : RoundTripper World :=
  fun req r h w =>
    (mkWorld (files w) (dirs w) (denied w) (clock w) (network w) (S (callCount w)),
     roundTripFunc req r h).

Definition empty_world : World := mkWorld ∅ [] [] 0 ∅ 0.

(** [httptest.NewRequest(http.MethodGet, target, nil)]: the state holds that
    request alone, with an empty header map. *)
Definition url_of (target : string) : URL :=
  match Parse target with
  | Ok u => u
  | Err _ => empty_URL
  end.

Definition NewRequest (target : string) (w : World) : State World :=
  mkState [mkRequest "GET" (url_of target) (Some O) "example.com"] [∅] w [].

Definition text (s : string) : bytes := list_byte_of_string s.

(** ** The scenarios of the repository's tests *)

Definition dest : URL := url_of "https://example.com/data".

(** The cache file of [dest] under the directory "cache": the directory joined
    with the hexadecimal SHA-256 of "https://example.com/data". *)
Definition cache_path : string :=
  "cache/dae4a532b41395c1cbad62287787f6f3eb3954e0912c688597bde2fa7ec86dba".

(** A world whose cache holds [body] for [dest], last modified at [mtime]. *)
Definition seeded (body : string) (mtime : Z) : World :=
  mkWorld {[ cache_path := mkFile (text body) mtime ]} ["cache"] [] (mtime + 1) ∅ 0.

(** A world with an empty cache directory. *)
Definition unseeded : World := mkWorld ∅ ["cache"] [] 0 ∅ 0.

(** A world in which the cache file exists but may not be accessed. *)
Definition locked : World :=
  mkWorld {[ cache_path := mkFile (text "secret") 0 ]} ["cache"] [cache_path] 1 ∅ 0.

Definition body_of (s : string) : option ReadCloser := Some (mkReader (text s) None).

(** The [roundTripFunc]s of the tests; a failed check is an error. *)
Definition fresh_func (req : loc) (r : Request) (h : Header) : result Response :=
  if negb (String.eqb (Scheme (Request_URL r)) "https")
  then Err (errorString "expected upstream scheme https")
  else if negb (String.eqb (MIMEHeader_Get h "If-Modified-Since") "")
  then Err (errorString "expected no If-Modified-Since on first request")
  else Ok (mkResponse 200 "" (body_of "fresh") ∅ 0 (Some req)).

Definition not_modified_func (req : loc) (r : Request) (h : Header) : result Response :=
  if negb (String.eqb (MIMEHeader_Get h "If-Modified-Since") (http_date test_modTime))
  then Err (errorString "unexpected If-Modified-Since")
  else Ok (mkResponse 304 "" (body_of "") ∅ 0 (Some req)).

Definition server_error_func (req : loc) (r : Request) (h : Header) : result Response :=
  Ok (mkResponse 500 "" (body_of "server-error") ∅ 0 (Some req)).

Definition not_called_func (req : loc) (r : Request) (h : Header) : result Response :=
  Err (errorString "upstream should not be called").

Definition pass_through_func (req : loc) (r : Request) (h : Header) : result Response :=
  if negb (String.eqb (Scheme (Request_URL r)) "https")
  then Err (errorString "expected scheme https")
  else if negb (String.eqb (Host (Request_URL r)) "example.com")
  then Err (errorString "expected host example.com")
  else Ok (mkResponse 200 "" (body_of "pass-through") ∅ 0 (Some req)).

(** A body whose reading breaks off after "par". *)
Definition truncated_func (req : loc) (r : Request) (h : Header) : result Response :=
  Ok (mkResponse 200 ""
        (Some (mkReader (text "par") (Some (errorString "unexpected EOF")))) ∅ 7 (Some req)).

Definition cache_with (f : loc -> Request -> Header -> result Response)
  : cacheRoundTripper World :=
  mkCache (Some (mockRoundTripper f)) "cache".

(** A response without a body. *)
Definition no_body_func (req : loc) (r : Request) (h : Header) : result Response :=
  Ok (mkResponse 200 "" None ∅ 0 (Some req)).

(** A world with an empty cache directory in which the temporary file of
    [writeCacheFile] cannot be written. *)
Definition read_only : World := mkWorld ∅ ["cache"] [cache_path +:+ ".tmp"] 0 ∅ 0.

(** What a test looks at: the body the caller reads, the status, the text of
    the cache file, the mock's counter. *)
Definition read_body (o : option (result Response)) : option string :=
  match o with
  | Some (Ok resp) =>
      match Body resp with
      | Some rc => Some (string_of_list_byte (reader_data rc))
      | None => None
      end
  | _ => None
  end.

Definition status_of (o : option (result Response)) : option Z :=
  match o with
  | Some (Ok resp) => Some (StatusCode resp)
  | _ => None
  end.

Definition error_of {A : Type} (o : option (result A)) : option string :=
  match o with
  | Some (Err e) => Some (Error e)
  | _ => None
  end.

Definition cache_file (st : State World) : option string :=
  option_map (fun f => string_of_list_byte (file_data f)) (files (world st) !! cache_path).

Definition cache_target : string := "cache:https://example.com/data".
Definition cachez_target : string := "cachez:https://example.com/data".

(** The calls to the transport in the log of a state: for each, the
    [If-Modified-Since] values it was handed and the status it answered. *)
Definition calls_of (st : State World) : list (option (list string) * option Z) :=
  flat_map (fun e =>
              match e with
              | EvRoundTrip _ _ h ans =>
                  [(h !! "If-Modified-Since",
                    match ans with
                    | Ok resp => Some (StatusCode resp)
                    | Err _ => None
                    end)]
              | _ => []
              end) (trace st).

(** ** The states the scenarios go through *)

Definition the_request (target : string) : Request :=
  mkRequest "GET" (url_of target) (Some O) "example.com".

Definition info_of (body : string) (mtime : Z) : FileInfo :=
  mkFileInfo (Z.of_nat (length (text body))) mtime false.

(** The state after the cache read has found [body]. *)
Definition after_hit (target body : string) (mtime : Z) : State World :=
  mkState [the_request target] [∅] (seeded body mtime)
    [EvStat cache_path (Ok (info_of body mtime)); EvReadFile cache_path (Ok (text body))].

(** The state after the cache read has found nothing. *)
Definition not_found : error := PathError "stat" cache_path ErrNotExist.

Definition after_miss (target : string) : State World :=
  mkState [the_request target] [∅] unseeded [EvStat cache_path (Err not_found)].

(** The world after one more call to the mock. *)
Definition called (w : World) : World :=
  mkWorld (files w) (dirs w) (denied w) (clock w) (network w) (S (callCount w)).

(** ** Further scenarios *)

(** The server of TestAddCacheRoundTripper behind a transport: "v1" at the
    first request; at the following ones 304, and a failure if
    [If-Modified-Since] is missing. *)
Definition versioned_server : RoundTripper World :=
  fun req r h w =>
    (called w,
     if (callCount w =? 0)%nat
     then Ok (mkResponse 200 "" (body_of "v1") ∅ 2 (Some req))
     else if String.eqb (MIMEHeader_Get h "If-Modified-Since") ""
     then Err (errorString "expected If-Modified-Since header on second request")
     else Ok (mkResponse 304 "" (body_of "") ∅ 0 (Some req))).

(** A world in which the cache directory cannot be created. *)
Definition no_mkdir : World := mkWorld ∅ [] ["cache"] 0 ∅ 0.

(** The error of a cache file that may not be accessed. *)
Definition denied_error : error := PathError "stat" cache_path ErrPermission.

(** The state after the cache read has been denied. *)
Definition after_denial (target : string) : State World :=
  mkState [the_request target] [∅] locked [EvStat cache_path (Err denied_error)].

(** A request made by hand, with a nil header map. *)
Definition bare_request (target : string) : Request :=
  mkRequest "GET" (url_of target) None "example.com".

Definition BareRequest (target : string) (w : World) : State World :=
  mkState [bare_request target] [] w [].

(** Two requests of one caller for the same destination: a validating one and
    a cache-only one. *)
Definition cachez_request : Request :=
  mkRequest "GET" (url_of cachez_target) (Some 1%nat) "example.com".

Definition two_requests (w : World) : State World :=
  mkState [the_request cache_target; cachez_request] [∅; ∅] w [].

(** A cache-only request with another method, host and header. *)
Definition post_request : Request :=
  mkRequest "POST" (url_of cachez_target) (Some 0%nat) "other.example".

Definition PostRequest (w : World) : State World :=
  mkState [post_request] [{[ "Accept" := ["text/plain"] ]}] w [].

(** The response of [fresh_func] to the request at [req]. *)
Definition fresh_response (req : loc) : Response :=
  mkResponse 200 "" (body_of "fresh") ∅ 0 (Some req).

(** The worlds a store goes through: the temporary file written, then
    renamed to the cache file. *)
Definition tmp_written (body : string) (w : World) : World :=
  (sys_WriteFile (cache_path +:+ ".tmp") (text body) 420 w).1.

Definition stored (body : string) (w : World) : World :=
  (sys_Rename (cache_path +:+ ".tmp") cache_path (tmp_written body w)).1.

(** The state after the cache read has found nothing, for two requests. *)
Definition two_after_miss : State World :=
  mkState [the_request cache_target; cachez_request] [∅; ∅] unseeded
    [EvStat cache_path (Err not_found)].

(** The state after [NewRoundTripper] has created the directory "cache". *)
Definition after_mkdir : State World :=
  mkState [the_request cache_target] [∅] unseeded [EvMkdirAll "cache" 493 None].

(** A response with the status [code] and no body at all. *)
Definition bodiless_func (code : Z) (req : loc) (r : Request) (h : Header)
  : result Response :=
  Ok (mkResponse code "" None ∅ 0 (Some req)).

(** A caller that has set [If-Modified-Since], to the empty string. *)
Definition empty_validator : Header := {[ "If-Modified-Since" := [""] ]}.

Definition EmptyValidatorRequest (w : World) : State World :=
  mkState [the_request cache_target] [empty_validator] w [].

End Sample.

(** * Properties *)

(** ** Strings *)

Lemma strings_HasPrefix_app (p rest : string) : strings_HasPrefix (p +:+ rest) p = true.
Proof.
  induction p as [|a p IH]; simpl; [reflexivity|].
  rewrite Ascii.eqb_refl. exact IH.
Qed.

Lemma strings_HasPrefix_inv (s p : string) :
  strings_HasPrefix s p = true -> exists rest, s = p +:+ rest.
Proof.
  revert s. induction p as [|a p IH]; intros s Hs; simpl in *.
  - exists s. reflexivity.
  - destruct s as [|b t]; [discriminate|].
    destruct (Ascii.eqb a b) eqn:Hab; [|discriminate].
    apply Ascii.eqb_eq in Hab. subst b.
    destruct (IH _ Hs) as [rest ->]. exists rest. reflexivity.
Qed.

Lemma string_drop_app (p rest : string) : string_drop (String.length p) (p +:+ rest) = rest.
Proof. induction p as [|a p IH]; simpl; [reflexivity | exact IH]. Qed.

Lemma strings_TrimPrefix_app (p rest : string) : strings_TrimPrefix (p +:+ rest) p = rest.
Proof.
  unfold strings_TrimPrefix. rewrite strings_HasPrefix_app. apply string_drop_app.
Qed.

Lemma string_app_inj (p s t : string) : p +:+ s = p +:+ t -> s = t.
Proof.
  induction p as [|a p IH]; simpl; intros Heq; [exact Heq|].
  injection Heq as Heq. auto.
Qed.

Lemma string_app_nil_r (p : string) : p +:+ "" = p.
Proof. induction p as [|a p IH]; simpl; [reflexivity | now rewrite IH]. Qed.


Lemma strings_HasPrefix_false (s p : string) :
  strings_HasPrefix s p = false -> ~ begins_with s p.
Proof.
  intros Hf [rest ->]. rewrite strings_HasPrefix_app in Hf. discriminate.
Qed.

Section Unwrapping.
Context `{Lib}.

(** What [unwrapScheme] does on a URL whose serialized form is the prefix
    followed by [rest]. *)
Lemma unwrapScheme_app (u : URL) (scheme rest : string) :
  URL_String u = (scheme +:+ ":") +:+ rest ->
  unwrapScheme u scheme =
    if String.eqb rest "" then
      Err (errorString ("missing downstream URL after " +:+ (scheme +:+ ":") +:+ " prefix"))
    else match url_Parse rest with
         | Err err => Err (wrapError ("parse downstream URL: " +:+ Error err) err)
         | Ok targetURL =>
             if String.eqb (Scheme targetURL) "" then
               Err (errorString "downstream URL must include scheme")
             else Ok targetURL
         end.
Proof.
  intros Hraw. unfold unwrapScheme. rewrite Hraw.
  rewrite strings_HasPrefix_app, strings_TrimPrefix_app. reflexivity.
Qed.

(** C8 -- [unwrapScheme] fails exactly when the serialized URL does not begin
    with [scheme ":"], or nothing follows that prefix, or what follows does
    not parse, or it parses to a URL without a scheme; in every other case it
    returns the URL parsed from what follows the prefix.  It is a function of
    its two arguments alone: it neither reads nor changes the state. *)
Theorem unwrapScheme_fails_exactly (u : URL) (scheme : string) :
  let raw := URL_String u in
  let prefix := scheme +:+ ":" in
  ((exists e, unwrapScheme u scheme = Err e) <->
     (~ begins_with raw prefix
      \/ raw = prefix
      \/ (exists rest e, raw = prefix +:+ rest /\ url_Parse rest = Err e)
      \/ (exists rest t, raw = prefix +:+ rest /\ url_Parse rest = Ok t /\ Scheme t = "")))
  /\ (forall t, unwrapScheme u scheme = Ok t <->
        exists rest, raw = prefix +:+ rest /\ rest <> "" /\
                     url_Parse rest = Ok t /\ Scheme t <> "").
Proof.
  intros raw prefix.
  destruct (strings_HasPrefix raw prefix) eqn:Hp.
  - destruct (strings_HasPrefix_inv _ _ Hp) as [rest Hraw].
    pose proof (unwrapScheme_app u scheme rest Hraw) as Hu.
    fold prefix in Hu. fold raw in Hraw.
    split.
    + split.
      * intros [e He]. rewrite Hu in He.
        destruct (String.eqb rest "") eqn:Hrest.
        { apply String.eqb_eq in Hrest. subst rest. right; left.
          rewrite Hraw. apply string_app_nil_r. }
        destruct (url_Parse rest) as [t|e'] eqn:Hparse.
        { destruct (String.eqb (Scheme t) "") eqn:Hs; [|discriminate].
          apply String.eqb_eq in Hs. right; right; right. eauto. }
        right; right; left. eauto.
      * intros [Hno | [Hempty | [(rest' & e & Hr & Hparse) | (rest' & t & Hr & Hparse & Hs)]]].
        { exfalso. apply Hno. exists rest. exact Hraw. }
        { assert (rest = "") as ->.
          { apply (string_app_inj prefix). rewrite string_app_nil_r. congruence. }
          rewrite Hu. simpl. eauto. }
        { assert (rest' = rest) as -> by (apply (string_app_inj prefix); congruence).
          rewrite Hu, Hparse. destruct (String.eqb rest ""); eauto. }
        { assert (rest' = rest) as -> by (apply (string_app_inj prefix); congruence).
          rewrite Hu, Hparse, Hs. simpl. destruct (String.eqb rest ""); eauto. }
    + intros t. rewrite Hu. split.
      * destruct (String.eqb rest "") eqn:Hrest; [discriminate|].
        apply String.eqb_neq in Hrest.
        destruct (url_Parse rest) as [t'|e'] eqn:Hparse; [|discriminate].
        destruct (String.eqb (Scheme t') "") eqn:Hs; [discriminate|].
        apply String.eqb_neq in Hs. intros [= ->]. eauto.
      * intros (rest' & Hr & Hne & Hparse & Hs).
        assert (rest' = rest) as -> by (apply (string_app_inj prefix); congruence).
        apply String.eqb_neq in Hne, Hs. rewrite Hne, Hparse, Hs. reflexivity.
  - pose proof (strings_HasPrefix_false _ _ Hp) as Hno.
    assert (Hu : exists e, unwrapScheme u scheme = Err e).
    { unfold unwrapScheme. fold raw prefix. rewrite Hp. simpl. eauto. }
    split.
    + split; [intros _; left; exact Hno | intros _; exact Hu].
    + intros t. destruct Hu as [e He]. rewrite He. split; [discriminate|].
      intros (rest & Hr & _). exfalso. apply Hno. exists rest. exact Hr.
Qed.

End Unwrapping.

(** ** The effectful code: general facts *)


Section Effects.
Context `{Lib} {W : Type} `{!OS W}.

Lemma bind_Some {A B : Type} (m : M W A) (k : A -> M W B) (st st' : State W) (a : A) :
  m st = (st', Some a) -> bind m k st = k a st'.
Proof. intros Hm. unfold bind. rewrite Hm. reflexivity. Qed.


Lemma storage_only_refl (st : State W) : storage_only st st.
Proof.
  repeat split. exists []. split; [symmetry; apply app_nil_r | constructor].
Qed.

Lemma storage_only_trans (st1 st2 st3 : State W) :
  storage_only st1 st2 -> storage_only st2 st3 -> storage_only st1 st3.
Proof.
  intros (Hr1 & Hh1 & evs1 & Ht1 & Hf1) (Hr2 & Hh2 & evs2 & Ht2 & Hf2).
  split; [congruence|]. split; [congruence|].
  exists (evs1 ++ evs2). split.
  - rewrite Ht2, Ht1. symmetry. apply app_assoc.
  - apply Forall_app. split; assumption.
Qed.

Lemma call_storage_only {A : Type} (f : W -> W * A) (ev : A -> Event) (st : State W) :
  (forall a, is_transport_call (ev a) = false) ->
  exists st' a, call f ev st = (st', Some a) /\ storage_only st st'
                /\ trace st' = trace st ++ [ev a] /\ f (world st) = (world st', a).
Proof.
  intros Hev. unfold call. destruct (f (world st)) as [w a].
  eexists _, a. split; [reflexivity|]. split; [|split; reflexivity].
  repeat split. exists [ev a]. split; [reflexivity|].
  constructor; [apply Hev | constructor].
Qed.

(** [readCacheFile] always returns; it reports no error exactly when it hands
    out the bytes read together with the file's info. *)
Lemma readCacheFile_returns (path : string) (st : State W) :
  exists st1 body info err,
    readCacheFile path st = (st1, Some (body, info, err)) /\ storage_only st st1 /\
    (err = None -> is_Some info).
Proof.
  unfold readCacheFile.
  destruct (call_storage_only (sys_Stat path) (EvStat path) st) as (st1 & ri & Hc & Hs & _);
    [reflexivity|].
  unfold os_Stat. rewrite (bind_Some _ _ _ _ _ Hc).
  destruct ri as [info|err].
  - destruct (call_storage_only (sys_ReadFile path) (EvReadFile path) st1)
      as (st2 & rd & Hc2 & Hs2 & _); [reflexivity|].
    unfold os_ReadFile. rewrite (bind_Some _ _ _ _ _ Hc2).
    pose proof (storage_only_trans _ _ _ Hs Hs2) as Hs3.
    destruct rd as [data|err]; eexists _, _, _, _; (split; [reflexivity|]);
      (split; [exact Hs3|]); [eauto | discriminate].
  - eexists _, _, _, _. split; [reflexivity|]. split; [exact Hs | discriminate].
Qed.

Lemma readCacheFile_inv (path : string) (st st1 : State W)
    (o : option (bytes * option FileInfo * option error)) :
  readCacheFile path st = (st1, o) ->
  storage_only st st1 /\
  exists body info err, o = Some (body, info, err) /\ (err = None -> is_Some info).
Proof.
  intros Hrun.
  destruct (readCacheFile_returns path st) as (st1' & body & info & err & Hrun' & Hs & Hi).
  rewrite Hrun' in Hrun. injection Hrun as <- <-. eauto 6.
Qed.

(** When [readCacheFile] reports no error, the info is what [os.Stat] said of
    the file and the bytes are what [os.ReadFile] gave. *)
Lemma readCacheFile_entry (path : string) (st st1 : State W) (body : bytes)
    (info : FileInfo) :
  readCacheFile path st = (st1, Some (body, Some info, None)) ->
  exists w1, sys_Stat path (world st) = (w1, Ok info)
             /\ sys_ReadFile path w1 = (world st1, Ok body).
Proof.
  unfold readCacheFile, bind, os_Stat, os_ReadFile, call, ret.
  destruct (sys_Stat path (world st)) as [w1 [i|e]]; simpl; [|discriminate].
  destruct (sys_ReadFile path w1) as [w2 [data|e]] eqn:Hrd; simpl; [|discriminate].
  intros [= <- <- <-]. exists w1. split; [reflexivity | exact Hrd].
Qed.

(** [writeCacheFile] always returns and only touches the storage. *)
Lemma writeCacheFile_returns (path : string) (data : bytes) (st : State W) :
  exists st' e, writeCacheFile path data st = (st', Some e) /\ storage_only st st'.
Proof.
  unfold writeCacheFile.
  destruct (call_storage_only (sys_WriteFile (path +:+ ".tmp") data 420)
              (EvWriteFile (path +:+ ".tmp") data 420) st) as (st1 & e & Hc & Hs & _);
    [reflexivity|].
  unfold os_WriteFile. rewrite (bind_Some _ _ _ _ _ Hc).
  destruct e as [err|].
  - eexists _, _. split; [reflexivity | exact Hs].
  - destruct (call_storage_only (sys_Rename (path +:+ ".tmp") path)
                (EvRename (path +:+ ".tmp") path) st1) as (st2 & e & Hc2 & Hs2 & _);
      [reflexivity|].
    unfold os_Rename. rewrite Hc2. eexists _, _. split; [reflexivity|].
    eapply storage_only_trans; eassumption.
Qed.

(** [writeCacheFile], by what the file system answers. *)
Lemma writeCacheFile_run (path : string) (data : bytes) (st : State W) :
  writeCacheFile path data st =
    match sys_WriteFile (path +:+ ".tmp") data 420 (world st) with
    | (w1, Some err) =>
        (mkState (reqs st) (hdrs st) w1
           (trace st ++ [EvWriteFile (path +:+ ".tmp") data 420 (Some err)]),
         Some (Some err))
    | (w1, None) =>
        let '(w2, e) := sys_Rename (path +:+ ".tmp") path w1 in
        (mkState (reqs st) (hdrs st) w2
           (trace st ++ [EvWriteFile (path +:+ ".tmp") data 420 None;
                         EvRename (path +:+ ".tmp") path e]),
         Some e)
    end.
Proof.
  unfold writeCacheFile, bind, os_WriteFile, os_Rename, call, ret.
  destruct (sys_WriteFile (path +:+ ".tmp") data 420 (world st)) as [w1 [err|]]; simpl;
    [reflexivity|].
  destruct (sys_Rename (path +:+ ".tmp") path w1) as [w2 e]; simpl.
  rewrite <- app_assoc. reflexivity.
Qed.

End Effects.

(** ** Validating fetch *)


Section Heap.
Context `{Lib} {W : Type} `{!OS W}.

Lemma deref_req_run (l : loc) (st : State W) (r : Request) :
  reqs st !! l = Some r -> deref_req l st = (st, Some r).
Proof. intros Hl. unfold deref_req. rewrite Hl. reflexivity. Qed.

Lemma Request_Clone_run (req : loc) (st : State W) (r : Request) (hl : loc) (h : Header) :
  reqs st !! req = Some r -> Request_Header r = Some hl -> hdrs st !! hl = Some h ->
  Request_Clone req st =
    (mkState (reqs st ++ [mkRequest (Method r) (Request_URL r) (Some (length (hdrs st)))
                            (Request_Host r)])
             (hdrs st ++ [h]) (world st) (trace st),
     Some (length (reqs st))).
Proof.
  intros Hr Hh Hm. unfold Request_Clone.
  rewrite (bind_Some _ _ _ _ _ (deref_req_run _ _ _ Hr)). rewrite Hh.
  unfold bind, deref_hdr, new_hdr, new_req, ret. rewrite Hm. reflexivity.
Qed.

Lemma deref_req_last (rs : list Request) (x : Request) (hs : list Header) (w : W)
    (t : list Event) :
  deref_req (length rs) (mkState (rs ++ [x]) hs w t) = (mkState (rs ++ [x]) hs w t, Some x).
Proof. unfold deref_req. simpl. rewrite list_lookup_middle; reflexivity. Qed.

Lemma assign_req_last (rs : list Request) (x y : Request) (hs : list Header) (w : W)
    (t : list Event) :
  assign_req (length rs) y (mkState (rs ++ [x]) hs w t) = (mkState (rs ++ [y]) hs w t, Some tt).
Proof.
  unfold assign_req. simpl. rewrite list_lookup_middle by reflexivity.
  rewrite insert_app_r_alt by reflexivity. rewrite Nat.sub_diag. reflexivity.
Qed.

Lemma Header_Get_last (rs : list Request) (hs : list Header) (h : Header) (w : W)
    (t : list Event) (key : string) :
  Header_Get (Some (length hs)) key (mkState rs (hs ++ [h]) w t)
  = (mkState rs (hs ++ [h]) w t, Some (MIMEHeader_Get h key)).
Proof.
  unfold Header_Get, bind, deref_hdr, ret. simpl.
  rewrite list_lookup_middle; reflexivity.
Qed.

Lemma Header_Set_last (rs : list Request) (hs : list Header) (h : Header) (w : W)
    (t : list Event) (key value : string) :
  Header_Set (Some (length hs)) key value (mkState rs (hs ++ [h]) w t)
  = (mkState rs (hs ++ [MIMEHeader_Set h key value]) w t, Some tt).
Proof.
  unfold Header_Set, bind, deref_hdr, assign_hdr. simpl.
  rewrite list_lookup_middle by reflexivity. simpl.
  rewrite insert_app_r_alt by reflexivity. rewrite Nat.sub_diag. reflexivity.
Qed.

Lemma RoundTripper_RoundTrip_last (rt : RoundTripper W) (rs : list Request) (x : Request)
    (hs : list Header) (h : Header) (w : W) (t : list Event) :
  Request_Header x = Some (length hs) ->
  RoundTripper_RoundTrip rt (length rs) (mkState (rs ++ [x]) (hs ++ [h]) w t)
  = let '(w', ans) := rt (length rs) x h w in
    (mkState (rs ++ [x]) (hs ++ [h]) w' (t ++ [EvRoundTrip (length rs) x h ans]), Some ans).
Proof.
  intros Hx. unfold RoundTripper_RoundTrip.
  rewrite (bind_Some _ _ _ _ _ (deref_req_last _ _ _ _ _)). rewrite Hx.
  unfold bind, deref_hdr. simpl. rewrite list_lookup_middle by reflexivity.
  reflexivity.
Qed.

End Heap.

Section ValidatingFetch.
Context `{Lib} {W : Type} `{!OS W}.

(** A call of [roundTripWithValidation c req] in state [st]: the transport
    is set, [req] points to the request [r] whose header map is [h], the URL
    unwraps to the destination [d], and the cache read for [d] leaves the
    state [st1] and gives Go's triple [(cachedBody, cachedInfo, cacheErr)]. *)
Variables (c : cacheRoundTripper W) (rt : RoundTripper W) (req : loc) (st : State W).
Variables (r : Request) (hl : loc) (h : Header) (d : URL).
Variables (st1 : State W) (cachedBody : bytes) (cachedInfo : option FileInfo)
          (cacheErr : option error).

Hypothesis Horiginal : original c = Some rt.
Hypothesis Hreq : reqs st !! req = Some r.
Hypothesis Hheader : Request_Header r = Some hl.
Hypothesis Hmap : hdrs st !! hl = Some h.
Hypothesis Hunwrap : unwrapScheme (Request_URL r) "cache" = Ok d.
Hypothesis Hread :
  readCacheFile (cachePathForURL c d) st = (st1, Some (cachedBody, cachedInfo, cacheErr)).

Let hasCache : bool := match cacheErr with None => true | Some _ => false end.
Let up : loc := length (reqs st).
Let r' : Request := upstream_request r d (length (hdrs st)).
Let h' : Header := upstream_header h cachedInfo cacheErr.
Let cached : Response := cachedResponse req cachedBody.

(** Lines 84-89: cloning, retargeting and the conditional header leave a new
    request and a new header map at the end of the heap, and nothing else. *)
Lemma fetch_prefix (tailk : loc -> M W (result Response)) :
  bind (Request_Clone req)
    (fun upstreamReq =>
       bind (deref_req upstreamReq)
         (fun u =>
            bind (assign_req upstreamReq
                    (mkRequest (Method u) d (Request_Header u) (Request_Host u)))
              (fun _ =>
                 bind (if match cacheErr with None => true | Some _ => false end
                       then bind (Header_Get (Request_Header u) "If-Modified-Since")
                              (fun ims => ret (String.eqb ims ""))
                       else ret false)
                   (fun unset =>
                      bind (if unset
                            then match cachedInfo with
                                 | Some info =>
                                     Header_Set (Request_Header u) "If-Modified-Since"
                                       (Time_Format (Time_UTC (ModTime info)) http_TimeFormat)
                                 | None => panic
                                 end
                            else ret tt)
                        (fun _ => tailk upstreamReq))))) st1
  = tailk up (mkState (reqs st ++ [r']) (hdrs st ++ [h']) (world st1) (trace st1)).
Proof.
  destruct (readCacheFile_inv _ _ _ _ Hread) as ((Hr1 & Hh1 & _) & (b & i & e & Heq & Hinfo)).
  injection Heq as <- <- <-.
  assert (Hclone : Request_Clone req st1 =
            (mkState (reqs st ++ [mkRequest (Method r) (Request_URL r)
                                    (Some (length (hdrs st))) (Request_Host r)])
                     (hdrs st ++ [h]) (world st1) (trace st1), Some up)).
  { rewrite (Request_Clone_run req st1 r hl h); rewrite ?Hr1, ?Hh1; auto. }
  rewrite (bind_Some _ _ _ _ _ Hclone). unfold up.
  rewrite (bind_Some _ _ _ _ _ (deref_req_last _ _ _ _ _)). cbv beta.
  rewrite (bind_Some _ _ _ _ _ (assign_req_last _ _ _ _ _ _)).
  unfold Request_Header at 1 2, Method, Request_Host. cbv beta iota.
  fold (upstream_request r d (length (hdrs st))). fold r'.
  unfold h', upstream_header.
  destruct cacheErr as [e|].
  - rewrite (bind_Some _ _ _
               (mkState (reqs st ++ [r']) (hdrs st ++ [h]) (world st1) (trace st1)) false)
      by reflexivity.
    rewrite (bind_Some _ _ _
               (mkState (reqs st ++ [r']) (hdrs st ++ [h]) (world st1) (trace st1)) tt)
      by reflexivity.
    reflexivity.
  - destruct (Hinfo eq_refl) as [info ->].
    rewrite (bind_Some _ _ _ _ _ (bind_Some _ _ _ _ _ (Header_Get_last _ _ _ _ _ _))).
    fold IMS.
    destruct (String.eqb (MIMEHeader_Get h IMS) "").
    + rewrite (bind_Some _ _ _ _ _ (Header_Set_last _ _ _ _ _ _ _)). reflexivity.
    + rewrite (bind_Some _ _ _
                 (mkState (reqs st ++ [r']) (hdrs st ++ [h]) (world st1) (trace st1)) tt)
        by reflexivity.
      reflexivity.
Qed.

(** The whole run, given what the transport answers to the upstream request:
    the state [st2] at the return of the transport, and the outcome by
    cases. *)
Lemma validating_fetch_run (w3 : W) (ans : result Response) :
  (forall e, cacheErr = Some e -> errors_Is e ErrNotExist = true) ->
  rt up r' h' (world st1) = (w3, ans) ->
  let st2 := mkState (reqs st ++ [r']) (hdrs st ++ [h']) w3
               (trace st1 ++ [EvRoundTrip up r' h' ans]) in
  roundTripWithValidation c req st =
    match ans with
    | Err err => (st2, Some (if hasCache then Ok cached else Err err))
    | Ok resp =>
        if hasCache && (StatusCode resp =? http_StatusNotModified) then (st2, Some (Ok cached))
        else if (http_StatusOK <=? StatusCode resp)
                && (StatusCode resp <? http_StatusMultipleChoices) then
          match Body resp with
          | None => (st2, None)
          | Some rc =>
              match reader_err rc with
              | Some err => (st2, Some (if hasCache then Ok cached else Err err))
              | None =>
                  ((writeCacheFile (cachePathForURL c d) (reader_data rc) st2).1,
                   Some (Ok (mkResponse (StatusCode resp) (Status resp)
                               (Some (bytes_NewReader (reader_data rc)))
                               (Response_Header resp)
                               (Z.of_nat (length (reader_data rc)))
                               (Response_Request resp))))
              end
          end
        else (st2, Some (if hasCache then Ok cached else Ok resp))
    end.
Proof.
  intros Hnonfatal Hrt st2.
  unfold roundTripWithValidation.
  rewrite (bind_Some _ _ _ _ _ (deref_req_run _ _ _ Hreq)). rewrite Hunwrap.
  cbv beta iota zeta.
  rewrite (bind_Some _ _ _ _ _ Hread). cbv beta iota zeta.
  assert (Hcall : RoundTripper_RoundTrip rt up
                    (mkState (reqs st ++ [r']) (hdrs st ++ [h']) (world st1) (trace st1))
                  = (st2, Some ans)).
  { unfold up. rewrite RoundTripper_RoundTrip_last by reflexivity.
    fold up. rewrite Hrt. reflexivity. }
  assert (Hskip : forall F : M W (result Response),
             match cacheErr with
             | Some err => if negb (errors_Is err ErrNotExist) then ret (Err err) else F
             | None => F
             end = F).
  { intros F. clear -Hnonfatal.
    destruct cacheErr as [e|]; [rewrite (Hnonfatal e eq_refl)|]; reflexivity. }
  rewrite Hskip, fetch_prefix, Horiginal, (bind_Some _ _ _ _ _ Hcall).
  fold hasCache cached.
  destruct ans as [resp|err]; [|destruct hasCache; reflexivity].
  destruct (hasCache && (StatusCode resp =? http_StatusNotModified)).
  { unfold bind, drainAndClose, ret. destruct (Body resp); reflexivity. }
  destruct ((http_StatusOK <=? StatusCode resp)
            && (StatusCode resp <? http_StatusMultipleChoices)).
  - destruct (Body resp) as [rc|]; [|reflexivity].
    unfold io_ReadAll, drainAndClose.
    rewrite (bind_Some _ _ _ st2 (reader_data rc, reader_err rc)) by reflexivity.
    rewrite (bind_Some _ _ _ st2 tt) by reflexivity.
    destruct (reader_err rc) as [err|]; [destruct hasCache; reflexivity|].
    destruct (writeCacheFile_returns (cachePathForURL c d) (reader_data rc) st2)
      as (st' & e & Hw & _).
    rewrite (bind_Some _ _ _ _ _ Hw), Hw. reflexivity.
  - destruct hasCache; [|reflexivity].
    unfold bind, drainAndClose, ret. destruct (Body resp); reflexivity.
Qed.


Lemma is_2xx_test (code : Z) :
  is_2xx code ->
  (code =? http_StatusNotModified) = false
  /\ (http_StatusOK <=? code) && (code <? http_StatusMultipleChoices) = true.
Proof.
  unfold is_2xx, http_StatusOK, http_StatusMultipleChoices, http_StatusNotModified.
  intros Hc. split; [apply Z.eqb_neq; lia|].
  apply andb_true_intro. split; [apply Z.leb_le | apply Z.ltb_lt]; lia.
Qed.

Lemma not_2xx_test (code : Z) :
  ~ is_2xx code ->
  (http_StatusOK <=? code) && (code <? http_StatusMultipleChoices) = false.
Proof.
  unfold is_2xx. intros Hc. apply andb_false_iff.
  destruct (Z.leb_spec http_StatusOK code); [|left; reflexivity].
  right. apply Z.ltb_ge. lia.
Qed.

(** C1 -- The transport has answered the upstream request with [ans]: an
    error, or a response whose status is not of the success class.  If a cache
    entry exists ([cacheErr] is nil) the call returns the response synthesized
    from the cached bytes, and no error.  If none exists (the cache read
    reported "not found") the transport's error is returned as it is, and so
    is the transport's response. *)
Theorem validating_fetch_upstream_failure (w3 : W) (ans : result Response) :
  rt up r' h' (world st1) = (w3, ans) ->
  match ans with
  | Err _ => True
  | Ok resp => ~ is_2xx (StatusCode resp)
  end ->
  let st2 := mkState (reqs st ++ [r']) (hdrs st ++ [h']) w3
               (trace st1 ++ [EvRoundTrip up r' h' ans]) in
  (cacheErr = None ->
     roundTripWithValidation c req st = (st2, Some (Ok (cachedResponse req cachedBody))))
  /\ (forall e, cacheErr = Some e -> errors_Is e ErrNotExist = true ->
        roundTripWithValidation c req st = (st2, Some ans)).
Proof.
  intros Hrt Hans st2. split.
  - intros Hce.
    assert (Hnf : forall e, cacheErr = Some e -> errors_Is e ErrNotExist = true)
      by (intros e He; congruence).
    rewrite (validating_fetch_run w3 ans Hnf Hrt).
    fold st2. unfold hasCache. rewrite Hce.
    destruct ans as [resp|err]; [|reflexivity].
    rewrite (not_2xx_test _ Hans). simpl andb.
    destruct (StatusCode resp =? http_StatusNotModified); reflexivity.
  - intros e Hce Hne.
    assert (Hnf : forall e, cacheErr = Some e -> errors_Is e ErrNotExist = true)
      by (intros e' He; congruence).
    rewrite (validating_fetch_run w3 ans Hnf Hrt).
    fold st2. unfold hasCache. rewrite Hce.
    destruct ans as [resp|err]; [|reflexivity].
    rewrite (not_2xx_test _ Hans). reflexivity.
Qed.

(** C2 -- A cache entry exists and the transport answers 304: the call
    returns the response synthesized from the cached bytes.  That response has
    status 200, carries the cache-hit header, its body reads as the cached
    bytes without error, and its content length is their number.
    [cachedResponse] is a total function: it is defined, with these fields,
    for every request and every byte slice. *)
Theorem validating_fetch_not_modified (w3 : W) (resp : Response) :
  cacheErr = None ->
  rt up r' h' (world st1) = (w3, Ok resp) ->
  StatusCode resp = http_StatusNotModified ->
  roundTripWithValidation c req st
  = (mkState (reqs st ++ [r']) (hdrs st ++ [h']) w3
       (trace st1 ++ [EvRoundTrip up r' h' (Ok resp)]),
     Some (Ok (cachedResponse req cachedBody)))
  /\ forall (q : loc) (body : bytes),
       StatusCode (cachedResponse q body) = 200
       /\ Response_Header (cachedResponse q body) !! "X-HTTP-Cache" = Some ["HIT"]
       /\ Body (cachedResponse q body) = Some (mkReader body None)
       /\ ContentLength (cachedResponse q body) = Z.of_nat (length body).
Proof.
  intros Hce Hrt Hcode. split.
  - assert (Hnf : forall e, cacheErr = Some e -> errors_Is e ErrNotExist = true)
      by (intros e He; congruence).
    rewrite (validating_fetch_run w3 (Ok resp) Hnf Hrt).
    unfold hasCache. rewrite Hce, Hcode. reflexivity.
  - intros q body. repeat split.
Qed.

(** The transport answers with a status of the success class and a body
    [rc].  If reading the body fails, the call returns the cached response
    when an entry exists and the read error when none does.  If the body is
    read to the end, the bytes are written with mode 0o644 to the temporary
    file of the destination's cache path and, when that has succeeded, the
    temporary file is renamed to the cache path; nothing else is done to the
    storage.  Whether the write or the renaming fails or not, the call returns
    the transport's response with the buffered bytes as body and their number
    as content length. *)
Theorem validating_fetch_success (w3 : W) (resp : Response) (rc : ReadCloser) :
  (forall e, cacheErr = Some e -> errors_Is e ErrNotExist = true) ->
  rt up r' h' (world st1) = (w3, Ok resp) ->
  is_2xx (StatusCode resp) ->
  Body resp = Some rc ->
  let st2 := mkState (reqs st ++ [r']) (hdrs st ++ [h']) w3
               (trace st1 ++ [EvRoundTrip up r' h' (Ok resp)]) in
  let tmp := cachePathForURL c d +:+ ".tmp" in
  (forall err, reader_err rc = Some err ->
     roundTripWithValidation c req st
     = (st2, Some match cacheErr with
                  | None => Ok (cachedResponse req cachedBody)
                  | Some _ => Err err
                  end))
  /\ (reader_err rc = None ->
      forall w4 werr,
        sys_WriteFile tmp (reader_data rc) 420 w3 = (w4, werr) ->
        exists st' fresh,
          roundTripWithValidation c req st = (st', Some (Ok fresh))
          /\ reqs st' = reqs st2 /\ hdrs st' = hdrs st2
          /\ match werr with
             | Some _ =>
                 world st' = w4
                 /\ trace st' = trace st2 ++ [EvWriteFile tmp (reader_data rc) 420 werr]
             | None =>
                 exists rerr,
                   sys_Rename tmp (cachePathForURL c d) w4 = (world st', rerr)
                   /\ trace st' = trace st2 ++ [EvWriteFile tmp (reader_data rc) 420 None;
                                                EvRename tmp (cachePathForURL c d) rerr]
             end
          /\ Body fresh = Some (mkReader (reader_data rc) None)
          /\ ContentLength fresh = Z.of_nat (length (reader_data rc))
          /\ StatusCode fresh = StatusCode resp
          /\ Status fresh = Status resp
          /\ Response_Header fresh = Response_Header resp
          /\ Response_Request fresh = Response_Request resp).
Proof.
  intros Hnonfatal Hrt Hcode Hbody st2 tmp.
  pose proof (validating_fetch_run w3 (Ok resp) Hnonfatal Hrt) as Hrun.
  cbv beta iota zeta in Hrun. fold st2 in Hrun.
  destruct (is_2xx_test _ Hcode) as [Hne Hin].
  rewrite Hne, andb_false_r, Hin, Hbody in Hrun.
  split.
  - intros err Herr. rewrite Herr in Hrun. rewrite Hrun.
    unfold hasCache. destruct cacheErr; reflexivity.
  - intros Herr w4 werr Hw. rewrite Herr in Hrun.
    rewrite writeCacheFile_run in Hrun. simpl world in Hrun. fold tmp in Hrun.
    rewrite Hw in Hrun.
    destruct werr as [err|].
    + eexists _, _. split; [exact Hrun|]. repeat split.
    + destruct (sys_Rename tmp (cachePathForURL c d) w4) as [w5 rerr] eqn:Hmv.
      eexists _, _. split; [exact Hrun|].
      split; [reflexivity|]. split; [reflexivity|].
      split; [exists rerr; split; reflexivity|]. repeat split.
Qed.


(** When the cache read fails with an error other than "not found", the call
    returns that error right after the read. *)
Lemma validating_fetch_storage_error (e : error) :
  cacheErr = Some e -> errors_Is e ErrNotExist = false ->
  roundTripWithValidation c req st = (st1, Some (Err e)).
Proof.
  intros Hce Hne. unfold roundTripWithValidation.
  rewrite (bind_Some _ _ _ _ _ (deref_req_run _ _ _ Hreq)), Hunwrap.
  cbv beta iota zeta. rewrite (bind_Some _ _ _ _ _ Hread). cbv beta iota zeta.
  clear Hread. revert Hce. intros ->. rewrite Hne. reflexivity.
Qed.

(** What a run leaves behind: either the cache read failed for good and
    nothing else happened, or the transport was called once, on the request
    [r'] with the header [h'], both new on the heap, and the rest is storage
    traffic. *)
Lemma validating_fetch_effects (st' : State W) (o : option (result Response)) :
  roundTripWithValidation c req st = (st', o) ->
  (exists e, cacheErr = Some e /\ errors_Is e ErrNotExist = false
             /\ st' = st1 /\ o = Some (Err e))
  \/ (exists w3 ans evsW,
        (forall e, cacheErr = Some e -> errors_Is e ErrNotExist = true)
        /\ rt up r' h' (world st1) = (w3, ans)
        /\ reqs st' = reqs st ++ [r'] /\ hdrs st' = hdrs st ++ [h']
        /\ trace st' = trace st1 ++ [EvRoundTrip up r' h' ans] ++ evsW
        /\ Forall (fun e => is_transport_call e = false) evsW
        /\ (forall resp, o = Some (Ok resp) ->
              resp = cachedResponse req cachedBody
              \/ exists resp0, ans = Ok resp0
                               /\ Response_Request resp = Response_Request resp0)).
Proof.
  intros Hrun.
  assert (Hcases : (exists e, cacheErr = Some e /\ errors_Is e ErrNotExist = false)
                   \/ (forall e, cacheErr = Some e -> errors_Is e ErrNotExist = true)).
  { clear. destruct cacheErr as [e|]; [|right; discriminate].
    destruct (errors_Is e ErrNotExist) eqn:He; [right; congruence | left; eauto]. }
  destruct Hcases as [(e & Hce & Hne) | Hnf].
  - left. exists e. rewrite (validating_fetch_storage_error e Hce Hne) in Hrun.
    injection Hrun as <- <-. auto.
  - right. destruct (rt up r' h' (world st1)) as [w3 ans] eqn:Hrt.
    rewrite (validating_fetch_run w3 ans Hnf Hrt) in Hrun. cbv zeta in Hrun.
    set (st2 := mkState (reqs st ++ [r']) (hdrs st ++ [h']) w3
                  (trace st1 ++ [EvRoundTrip up r' h' ans])) in *.
    assert (Hst : storage_only st2 st'
                  /\ (forall resp, o = Some (Ok resp) ->
                        resp = cachedResponse req cachedBody
                        \/ exists resp0, ans = Ok resp0
                             /\ Response_Request resp = Response_Request resp0)).
    { destruct ans as [resp|err].
      - destruct (hasCache && (StatusCode resp =? http_StatusNotModified));
          [injection Hrun as <- <-; split; [apply storage_only_refl|];
           intros ? [= <-]; left; reflexivity|].
        destruct ((http_StatusOK <=? StatusCode resp)
                  && (StatusCode resp <? http_StatusMultipleChoices)).
        + destruct (Body resp) as [rc|];
            [|injection Hrun as <- <-; split; [apply storage_only_refl | discriminate]].
          destruct (reader_err rc) as [err|].
          * injection Hrun as <- <-. split; [apply storage_only_refl|].
            destruct hasCache; [intros ? [= <-]; left; reflexivity | discriminate].
          * destruct (writeCacheFile_returns (cachePathForURL c d) (reader_data rc) st2)
              as (st'' & e & Hw & Hs).
            rewrite Hw in Hrun. injection Hrun as <- <-. split; [exact Hs|].
            intros ? [= <-]. right. eexists. split; reflexivity.
        + injection Hrun as <- <-. split; [apply storage_only_refl|].
          destruct hasCache; intros ? [= <-];
            [left; reflexivity | right; eexists; split; reflexivity].
      - injection Hrun as <- <-. split; [apply storage_only_refl|].
        destruct hasCache; [intros ? [= <-]; left; reflexivity | discriminate]. }
    destruct Hst as ((Hr2 & Hh2 & evsW & Ht2 & HW) & Hresp).
    exists w3, ans, evsW. split; [exact Hnf|]. split; [reflexivity|].
    split; [exact Hr2|]. split; [exact Hh2|].
    split; [rewrite Ht2; unfold st2; simpl; rewrite <- app_assoc; reflexivity|].
    split; [exact HW | exact Hresp].
Qed.

(** The transport calls among the events a run adds to the log. *)
Lemma validating_fetch_transport_call (st' : State W) (o : option (result Response))
    (evs : list Event) (up0 : loc) (r0 : Request) (h0 : Header) (ans0 : result Response) :
  roundTripWithValidation c req st = (st', o) ->
  trace st' = trace st ++ evs ->
  EvRoundTrip up0 r0 h0 ans0 ∈ evs ->
  up0 = up /\ r0 = r' /\ h0 = h'
  /\ (forall e, cacheErr = Some e -> errors_Is e ErrNotExist = true)
  /\ reqs st' = reqs st ++ [r'] /\ hdrs st' = hdrs st ++ [h']
  /\ (forall resp, o = Some (Ok resp) ->
        resp = cachedResponse req cachedBody
        \/ exists resp0, ans0 = Ok resp0 /\ Response_Request resp = Response_Request resp0).
Proof.
  intros Hrun Htrace Hin.
  destruct (readCacheFile_inv _ _ _ _ Hread) as ((_ & _ & evs1 & Ht1 & H1) & _).
  rewrite Forall_forall in H1.
  destruct (validating_fetch_effects st' o Hrun)
    as [(e & _ & _ & -> & _) | (w3 & ans & evsW & Hnf & _ & Hr2 & Hh2 & Ht2 & HW & Hresp)].
  - rewrite Ht1 in Htrace. apply app_inv_head in Htrace. subst evs1.
    specialize (H1 _ Hin). discriminate.
  - rewrite Ht2, Ht1, <- app_assoc in Htrace. apply app_inv_head in Htrace. subst evs.
    rewrite Forall_forall in HW.
    apply elem_of_app in Hin as [Hin | Hin]; [specialize (H1 _ Hin); discriminate|].
    apply elem_of_cons in Hin as [Heq | Hin]; [|specialize (HW _ Hin); discriminate].
    injection Heq as -> -> -> ->. auto 10.
Qed.

(** C7, as the code has it -- What the wrapped transport is handed.  Once
    the cache read has not failed for good, a run calls the transport; and
    every call it makes is on a request for the destination whose header map
    is the caller's with [If-Modified-Since] set to the modification time that
    [os.Stat] reported for the cache file, in UTC and in http.TimeFormat, when
    a cache entry exists and the caller's [If-Modified-Since] reads as empty
    with [Header.Get] (no value under the canonical key, or an empty first
    value), and is the caller's unchanged in every other case. *)
Theorem conditional_header_iff (st' : State W) (o : option (result Response))
    (evs : list Event) :
  roundTripWithValidation c req st = (st', o) ->
  trace st' = trace st ++ evs ->
  ((forall e, cacheErr = Some e -> errors_Is e ErrNotExist = true) ->
     exists up0 r0 h0 ans0, EvRoundTrip up0 r0 h0 ans0 ∈ evs)
  /\ forall up0 r0 h0 ans0,
       EvRoundTrip up0 r0 h0 ans0 ∈ evs ->
       Request_URL r0 = d
       /\ (cacheErr = None /\ MIMEHeader_Get h "If-Modified-Since" = "" ->
             exists info w1,
               cachedInfo = Some info
               /\ sys_Stat (cachePathForURL c d) (world st) = (w1, Ok info)
               /\ h0 = MIMEHeader_Set h "If-Modified-Since"
                         (Time_Format (Time_UTC (ModTime info)) http_TimeFormat))
       /\ (~ (cacheErr = None /\ MIMEHeader_Get h "If-Modified-Since" = "") -> h0 = h).
Proof.
  intros Hrun Htrace. split.
  - intros Hnf.
    destruct (readCacheFile_inv _ _ _ _ Hread) as ((_ & _ & evs1 & Ht1 & _) & _).
    destruct (validating_fetch_effects st' o Hrun)
      as [(e & Hce & Hne & _) | (w3 & ans & evsW & _ & _ & _ & _ & Ht2 & _)].
    + rewrite (Hnf e Hce) in Hne. discriminate.
    + rewrite Ht2, Ht1, <- app_assoc in Htrace. apply app_inv_head in Htrace. subst evs.
      exists up, r', h', ans. apply elem_of_app. right. apply elem_of_cons. left. reflexivity.
  - intros up0 r0 h0 ans0 Hin.
    destruct (validating_fetch_transport_call st' o evs up0 r0 h0 ans0 Hrun Htrace Hin)
      as (_ & -> & -> & _).
    destruct (readCacheFile_inv _ _ _ _ Hread) as (_ & (b & i & e & Heq & Hinfo)).
    injection Heq as <- <- <-.
    split; [reflexivity|]. unfold h', upstream_header. fold IMS. split.
    + intros [Hce Hget]. destruct (Hinfo Hce) as [info Hi].
      pose proof Hread as Hentry. rewrite Hce, Hi in Hentry.
      destruct (readCacheFile_entry _ _ _ _ _ Hentry) as (w1 & Hstat & _).
      exists info, w1. split; [exact Hi|]. split; [exact Hstat|].
      rewrite Hce, Hi, Hget. reflexivity.
    + intros Hno. destruct cacheErr as [e|]; [reflexivity|].
      destruct cachedInfo as [info|]; [|reflexivity].
      destruct (String.eqb (MIMEHeader_Get h IMS) "") eqn:Hget; [|reflexivity].
      apply String.eqb_eq in Hget. exfalso. apply Hno. auto.
Qed.

End ValidatingFetch.

(** ** Cache-only fetch *)

Section CacheOnly.
Context `{Lib} {W : Type} `{!OS W}.

Lemma transport_calls_storage_only (st st' : State W) :
  storage_only st st' -> transport_calls (trace st') = transport_calls (trace st).
Proof.
  intros (_ & _ & evs & -> & Hevs). unfold transport_calls.
  rewrite filter_app, length_app.
  replace (filter (fun e => is_transport_call e = true) evs) with (@nil Event);
    [simpl; lia|].
  symmetry. induction Hevs as [|e evs He _ IH]; [reflexivity|].
  rewrite filter_cons_False by congruence. exact IH.
Qed.

(** The three outcomes of [roundTripCacheOnly] on a request whose URL unwraps
    to [d], by the result of the cache read. *)
Lemma roundTripCacheOnly_run (c : cacheRoundTripper W) (req : loc) (st : State W)
    (r : Request) (d : URL) (st1 : State W) (body : bytes) (info : option FileInfo)
    (err : option error) :
  reqs st !! req = Some r ->
  unwrapScheme (Request_URL r) "cachez" = Ok d ->
  readCacheFile (cachePathForURL c d) st = (st1, Some (body, info, err)) ->
  roundTripCacheOnly c req st
  = (st1, Some match err with
               | Some e =>
                   if errors_Is e ErrNotExist
                   then Err (errorString ("cache miss for " +:+ URL_String d))
                   else Err e
               | None => Ok (cachedResponse req body)
               end).
Proof.
  intros Hreq Hunwrap Hread. unfold roundTripCacheOnly.
  rewrite (bind_Some _ _ _ _ _ (deref_req_run _ _ _ Hreq)), Hunwrap.
  cbv beta iota zeta. rewrite (bind_Some _ _ _ _ _ Hread).
  destruct err as [e|]; [destruct (errors_Is e ErrNotExist)|]; reflexivity.
Qed.

(** C5 -- Cache-only fetch on a request whose URL unwraps to [d]: when the
    cache read succeeds the call returns the response synthesized from the
    bytes read, and no error; when it reports "not found" the call fails with
    an error whose message is "cache miss for " followed by the destination
    URL; any other error of the cache read is returned as it is. *)
Theorem cache_only_fetch (c : cacheRoundTripper W) (req : loc) (st : State W)
    (r : Request) (d : URL) (st1 : State W) (body : bytes) (info : option FileInfo)
    (err : option error) :
  reqs st !! req = Some r ->
  unwrapScheme (Request_URL r) "cachez" = Ok d ->
  readCacheFile (cachePathForURL c d) st = (st1, Some (body, info, err)) ->
  (err = None ->
     roundTripCacheOnly c req st = (st1, Some (Ok (cachedResponse req body))))
  /\ (forall e, err = Some e -> errors_Is e ErrNotExist = true ->
        exists miss,
          roundTripCacheOnly c req st = (st1, Some (Err miss))
          /\ Error miss = "cache miss for " +:+ URL_String d)
  /\ (forall e, err = Some e -> errors_Is e ErrNotExist = false ->
        roundTripCacheOnly c req st = (st1, Some (Err e))).
Proof.
  intros Hreq Hunwrap Hread.
  rewrite (roundTripCacheOnly_run c req st r d st1 body info err Hreq Hunwrap Hread).
  split; [intros ->; reflexivity|]. split.
  - intros e -> ->. eexists. split; reflexivity.
  - intros e -> ->. reflexivity.
Qed.

(** [roundTripCacheOnly] returns on every valid request and only touches the
    storage. *)
Lemma roundTripCacheOnly_storage_only (c : cacheRoundTripper W) (req : loc) (st : State W)
    (r : Request) :
  reqs st !! req = Some r ->
  exists st' res, roundTripCacheOnly c req st = (st', Some res) /\ storage_only st st'.
Proof.
  intros Hreq.
  destruct (unwrapScheme (Request_URL r) "cachez") as [d|e] eqn:Hunwrap.
  - destruct (readCacheFile_returns (cachePathForURL c d) st)
      as (st1 & body & info & err & Hread & Hs & _).
    rewrite (roundTripCacheOnly_run c req st r d st1 body info err Hreq Hunwrap Hread).
    eauto.
  - unfold roundTripCacheOnly.
    rewrite (bind_Some _ _ _ _ _ (deref_req_run _ _ _ Hreq)), Hunwrap.
    eexists _, _. split; [reflexivity | apply storage_only_refl].
Qed.

(** C6 -- A request whose scheme is the cache-only marker: [RoundTrip]
    returns (a response or an error: hit, miss, unwrap failure, storage error,
    unset transport) and the log holds as many calls to the wrapped transport
    after the call as before it. *)
Theorem cache_only_never_calls_transport (c : cacheRoundTripper W) (req : loc)
    (st : State W) (r : Request) :
  reqs st !! req = Some r ->
  Scheme (Request_URL r) = "cachez" ->
  exists st' res,
    RoundTrip c req st = (st', Some res)
    /\ transport_calls (trace st') = transport_calls (trace st)
    /\ exists evs, trace st' = trace st ++ evs
                   /\ Forall (fun e => is_transport_call e = false) evs.
Proof.
  intros Hreq Hscheme. unfold RoundTrip.
  destruct (original c) as [rt|].
  - rewrite (bind_Some _ _ _ _ _ (deref_req_run _ _ _ Hreq)), Hscheme.
    cbv beta. simpl String.eqb. cbv iota.
    destruct (roundTripCacheOnly_storage_only c req st r Hreq) as (st' & res & Hrun & Hs).
    exists st', res. split; [exact Hrun|].
    split; [apply transport_calls_storage_only; exact Hs|].
    destruct Hs as (_ & _ & Hevs). exact Hevs.
  - eexists _, _. split; [reflexivity|]. split; [reflexivity|].
    exists []. split; [symmetry; apply app_nil_r | constructor].
Qed.

End CacheOnly.

(** ** The caller's request *)

Section CallerRequest.
Context `{Lib} {W : Type} `{!OS W}.

Lemma lookup_snoc_old {A : Type} (l : list A) (x y : A) (i : nat) :
  l !! i = Some y -> (l ++ [x]) !! i = Some y.
Proof. intros Hl. apply lookup_app_l_Some. exact Hl. Qed.

Lemma lookup_length_None {A : Type} (l : list A) : l !! length l = None.
Proof. apply lookup_ge_None. lia. Qed.

(** C10 -- Validating fetch leaves the caller's request alone.  After the call
    every request and every header map that was on the heap is as it was; in
    particular the caller's request still has its wrapped URL and its header
    map its contents.  The request the transport is called on is a new
    object, retargeted at the unwrapped destination, whose header map is new
    as well: the conditional header can only be there.  A response
    synthesized from the cache names the caller's request in its [Request]
    field; any other response returned is the transport's, with the [Request]
    field the transport gave it. *)
Theorem validating_fetch_leaves_request (c : cacheRoundTripper W) (rt : RoundTripper W)
    (req : loc) (st : State W) (r : Request) (hl : loc) (h : Header)
    (st' : State W) (o : option (result Response)) (evs : list Event) :
  original c = Some rt ->
  reqs st !! req = Some r ->
  Request_Header r = Some hl ->
  hdrs st !! hl = Some h ->
  roundTripWithValidation c req st = (st', o) ->
  trace st' = trace st ++ evs ->
  reqs st' !! req = Some r
  /\ hdrs st' !! hl = Some h
  /\ (forall l x, reqs st !! l = Some x -> reqs st' !! l = Some x)
  /\ (forall l x, hdrs st !! l = Some x -> hdrs st' !! l = Some x)
  /\ (forall up0 r0 h0 ans0,
        EvRoundTrip up0 r0 h0 ans0 ∈ evs ->
        up0 <> req
        /\ reqs st !! up0 = None /\ reqs st' !! up0 = Some r0
        /\ unwrapScheme (Request_URL r) "cache" = Ok (Request_URL r0)
        /\ Method r0 = Method r /\ Request_Host r0 = Request_Host r
        /\ exists hl0, Request_Header r0 = Some hl0 /\ hl0 <> hl
                       /\ hdrs st !! hl0 = None /\ hdrs st' !! hl0 = Some h0)
  /\ (forall resp, o = Some (Ok resp) ->
        (exists body, resp = cachedResponse req body)
        \/ (exists up0 r0 h0 resp0,
              EvRoundTrip up0 r0 h0 (Ok resp0) ∈ evs
              /\ Response_Request resp = Response_Request resp0))
  /\ (forall body, Response_Request (cachedResponse req body) = Some req).
Proof.
  intros Horiginal Hreq Hheader Hmap Hrun Htrace.
  assert (Hframe : (forall l x, reqs st !! l = Some x -> reqs st' !! l = Some x)
                   /\ (forall l x, hdrs st !! l = Some x -> hdrs st' !! l = Some x)
                   /\ (forall up0 r0 h0 ans0,
                         EvRoundTrip up0 r0 h0 ans0 ∈ evs ->
                         reqs st !! up0 = None /\ reqs st' !! up0 = Some r0
                         /\ unwrapScheme (Request_URL r) "cache" = Ok (Request_URL r0)
                         /\ Method r0 = Method r /\ Request_Host r0 = Request_Host r
                         /\ exists hl0, Request_Header r0 = Some hl0
                              /\ hdrs st !! hl0 = None /\ hdrs st' !! hl0 = Some h0)
                   /\ (forall resp, o = Some (Ok resp) ->
                         (exists body, resp = cachedResponse req body)
                         \/ (exists up0 r0 h0 resp0,
                               EvRoundTrip up0 r0 h0 (Ok resp0) ∈ evs
                               /\ Response_Request resp = Response_Request resp0))).
  { destruct (unwrapScheme (Request_URL r) "cache") as [d|e] eqn:Hunwrap.
    - destruct (readCacheFile_returns (cachePathForURL c d) st)
        as (st1 & cachedBody & cachedInfo & cacheErr & Hread & (Hr1 & Hh1 & evs1 & Ht1 & H1) & _).
      destruct (validating_fetch_effects c rt req st r hl h d st1 cachedBody cachedInfo
                  cacheErr Horiginal Hreq Hheader Hmap Hunwrap Hread st' o Hrun)
        as [(e & _ & _ & -> & ->) | (w3 & ans & evsW & _ & _ & Hr2 & Hh2 & Ht2 & HW & Hresp)].
      + rewrite Hr1, Hh1. split; [auto|]. split; [auto|]. split; [|discriminate].
        intros up0 r0 h0 ans0 Hin. exfalso.
        rewrite Ht1 in Htrace. apply app_inv_head in Htrace. subst evs1.
        rewrite Forall_forall in H1. specialize (H1 _ Hin). discriminate.
      + rewrite Hr2, Hh2.
        split; [intros l x; apply lookup_snoc_old|].
        split; [intros l x; apply lookup_snoc_old|].
        split.
        * intros up0 r0 h0 ans0 Hin.
          destruct (validating_fetch_transport_call c rt req st r hl h d st1 cachedBody
                      cachedInfo cacheErr Horiginal Hreq Hheader Hmap Hunwrap Hread
                      st' o evs up0 r0 h0 ans0 Hrun Htrace Hin) as (-> & -> & -> & _).
          split; [apply lookup_length_None|].
          split; [apply list_lookup_middle; reflexivity|].
          split; [reflexivity|]. split; [reflexivity|]. split; [reflexivity|].
          exists (length (hdrs st)). split; [reflexivity|].
          split; [apply lookup_length_None | apply list_lookup_middle; reflexivity].
        * intros resp Ho. destruct (Hresp resp Ho) as [-> | (resp0 & -> & Hrr)]; [eauto|].
          right. eexists _, _, _, resp0. split; [|exact Hrr].
          rewrite Ht2, Ht1, <- app_assoc in Htrace. apply app_inv_head in Htrace.
          subst evs. apply elem_of_app. right. apply elem_of_cons. left. reflexivity.
    - unfold roundTripWithValidation in Hrun.
      rewrite (bind_Some _ _ _ _ _ (deref_req_run _ _ _ Hreq)), Hunwrap in Hrun.
      injection Hrun as <- <-.
      split; [auto|]. split; [auto|]. split; [|discriminate].
      intros up0 r0 h0 ans0 Hin. exfalso.
      rewrite <- (app_nil_r (trace st)) in Htrace at 1.
      apply app_inv_head in Htrace. subst evs. apply elem_of_nil in Hin. exact Hin. }
  destruct Hframe as (Hrs & Hhs & Hcall & Hresp).
  split; [auto|]. split; [auto|]. split; [exact Hrs|]. split; [exact Hhs|].
  split; [|split; [exact Hresp | reflexivity]].
  intros up0 r0 h0 ans0 Hin.
  destruct (Hcall up0 r0 h0 ans0 Hin) as (Hnew & Hup & Hurl & Hm & Hhost & hl0 & Hh0 & Hnew0 & Hl0).
  split; [intros ->; congruence|]. split; [exact Hnew|]. split; [exact Hup|].
  split; [exact Hurl|]. split; [exact Hm|]. split; [exact Hhost|].
  exists hl0. split; [exact Hh0|]. split; [intros ->; congruence|]. auto.
Qed.

End CallerRequest.

(** ** The cache key *)

Section CacheKey.
Context `{Lib} {W : Type} `{!OS W}.

(** A synthetic scheme left on the URL is replaced by "http" before hashing. *)
Lemma cachePathForURL_normalizes (c : cacheRoundTripper W) (u : URL) (scheme : string) :
  scheme = "cache" \/ scheme = "cachez" ->
  cachePathForURL c (set_Scheme u scheme) = cachePathForURL c (set_Scheme u "http").
Proof. intros [-> | ->]; reflexivity. Qed.

(** C3 -- One destination, written [dest], wrapped once with the validating
    marker and once with the cache-only marker.  Unwrapping with the marker of
    each mode either fails for both or gives both the same destination URL,
    hence the same cache path.  And the path does not depend on a synthetic
    scheme left on the URL it is derived from: "cache" and "cachez" are both
    replaced by "http" before hashing. *)
Theorem cache_key_independent_of_marker (c : cacheRoundTripper W) (u1 u2 : URL)
    (dest : string) :
  URL_String u1 = "cache:" +:+ dest ->
  URL_String u2 = "cachez:" +:+ dest ->
  match unwrapScheme u1 "cache", unwrapScheme u2 "cachez" with
  | Ok d1, Ok d2 => d1 = d2 /\ cachePathForURL c d1 = cachePathForURL c d2
  | Err _, Err _ => True
  | _, _ => False
  end
  /\ forall u : URL,
       cachePathForURL c (set_Scheme u "cache") = cachePathForURL c (set_Scheme u "http")
       /\ cachePathForURL c (set_Scheme u "cachez") = cachePathForURL c (set_Scheme u "http").
Proof.
  intros H1 H2. split.
  - rewrite (unwrapScheme_app u1 "cache" dest H1), (unwrapScheme_app u2 "cachez" dest H2).
    destruct (String.eqb dest ""); [exact I|].
    destruct (url_Parse dest) as [t|e]; [|exact I].
    destruct (String.eqb (Scheme t) ""); [exact I | split; reflexivity].
  - intros u. split; apply cachePathForURL_normalizes; auto.
Qed.

End CacheKey.

(** ** Configuration errors *)

Section Configuration.
Context `{Lib} {W : Type} `{!OS W}.

(** C9, as the code has it -- An empty cache directory makes [NewRoundTripper]
    fail at once, and a nil host transport makes [AddCacheRoundTripper] fail at
    once.  An unset transport is no error at construction: when the directory
    can be created, [NewRoundTripper] returns a decorator around the default
    transport.  A decorator whose transport is unset fails at each
    [RoundTrip]. *)
Theorem configuration_errors (cacheDir : string) (original : option (RoundTripper W))
    (req : loc) (st : State W) :
  NewRoundTripper "" original st
  = (st, Some (Err (errorString "cache directory is required")))
  /\ AddCacheRoundTripper cacheDir original None st
     = (st, Some (None, Some (errorString "transport is nil")))
  /\ (forall w, cacheDir <> "" ->
        sys_MkdirAll cacheDir 493 (world st) = (w, None) ->
        NewRoundTripper cacheDir None st
        = (mkState (reqs st) (hdrs st) w (trace st ++ [EvMkdirAll cacheDir 493 None]),
           Some (Ok (mkCache (Some http_DefaultTransport) cacheDir))))
  /\ RoundTrip (mkCache None cacheDir) req st
     = (st, Some (Err (errorString "original RoundTripper is not set"))).
Proof.
  split; [reflexivity|]. split; [reflexivity|]. split; [|reflexivity].
  intros w Hdir Hmk. unfold NewRoundTripper.
  apply String.eqb_neq in Hdir. rewrite Hdir.
  unfold bind, os_MkdirAll, call. rewrite Hmk. reflexivity.
Qed.

End Configuration.

(** * Further properties of the program *)

(** ** The router *)

Section Router.
Context `{Lib} {W : Type} `{!OS W}.

(** X1 -- A request whose scheme is neither marker is handed to the wrapped
    transport as it is: the transport is called once, on the caller's own
    request and header, its answer is returned unchanged, the heap is left
    alone and the storage is not touched. *)
Theorem other_schemes_pass_through (c : cacheRoundTripper W) (rt : RoundTripper W) (req : loc)
    (st : State W) (r : Request) (hl : loc) (h : Header) (w : W) (ans : result Response) :
  original c = Some rt ->
  reqs st !! req = Some r ->
  Request_Header r = Some hl ->
  hdrs st !! hl = Some h ->
  Scheme (Request_URL r) <> "cache" ->
  Scheme (Request_URL r) <> "cachez" ->
  rt req r h (world st) = (w, ans) ->
  RoundTrip c req st
  = (mkState (reqs st) (hdrs st) w (trace st ++ [EvRoundTrip req r h ans]), Some ans).
Proof.
  intros Horiginal Hreq Hheader Hmap Hcache Hcachez Hrt.
  unfold RoundTrip. rewrite Horiginal.
  rewrite (bind_Some _ _ _ _ _ (deref_req_run _ _ _ Hreq)).
  apply String.eqb_neq in Hcache, Hcachez. rewrite Hcache, Hcachez.
  unfold RoundTripper_RoundTrip.
  rewrite (bind_Some _ _ _ _ _ (deref_req_run _ _ _ Hreq)). rewrite Hheader.
  unfold bind, deref_hdr, call. rewrite Hmap, Hrt. reflexivity.
Qed.

(** X2 -- A wrapped URL that does not unwrap: either mode returns the error
    of [unwrapScheme] and leaves the state as it was: no file is examined, the
    transport is not called, nothing is allocated. *)
Theorem malformed_url_is_refused (c : cacheRoundTripper W) (req : loc) (st : State W)
    (r : Request) :
  reqs st !! req = Some r ->
  (forall e, unwrapScheme (Request_URL r) "cache" = Err e ->
     roundTripWithValidation c req st = (st, Some (Err e)))
  /\ (forall e, unwrapScheme (Request_URL r) "cachez" = Err e ->
        roundTripCacheOnly c req st = (st, Some (Err e))).
Proof.
  intros Hreq. split; intros e Hunwrap.
  - unfold roundTripWithValidation.
    rewrite (bind_Some _ _ _ _ _ (deref_req_run _ _ _ Hreq)), Hunwrap. reflexivity.
  - unfold roundTripCacheOnly.
    rewrite (bind_Some _ _ _ _ _ (deref_req_run _ _ _ Hreq)), Hunwrap. reflexivity.
Qed.

(** X3 -- Unwrapping undoes wrapping.  When the serialized request URL is
    the marker, a colon and the serialized form of a URL [d] that parses back
    to itself and has a scheme, [unwrapScheme] returns [d]. *)
Theorem unwrapScheme_of_wrapped (u d : URL) (scheme : string) :
  URL_String u = (scheme +:+ ":") +:+ URL_String d ->
  url_Parse (URL_String d) = Ok d ->
  URL_String d <> "" ->
  Scheme d <> "" ->
  unwrapScheme u scheme = Ok d.
Proof.
  intros Hraw Hparse Hne Hscheme.
  rewrite (unwrapScheme_app u scheme _ Hraw).
  apply String.eqb_neq in Hne, Hscheme. rewrite Hne, Hparse, Hscheme. reflexivity.
Qed.

End Router.

(** ** The cache file *)

Section Storage.
Context `{Lib} {W : Type} `{!OS W}.

Lemma transport_calls_app (evs1 evs2 : list Event) :
  transport_calls (evs1 ++ evs2) = (transport_calls evs1 + transport_calls evs2)%nat.
Proof. unfold transport_calls. rewrite filter_app, length_app. reflexivity. Qed.

Lemma transport_calls_none (evs : list Event) :
  Forall (fun e => is_transport_call e = false) evs -> transport_calls evs = 0%nat.
Proof.
  intros Hevs. unfold transport_calls.
  induction Hevs as [|e evs He _ IH]; [reflexivity|].
  rewrite filter_cons_False by congruence. exact IH.
Qed.

Lemma reads_path_not_write (path : string) (e : Event) :
  reads_path path e -> is_write e = false.
Proof. destruct e; simpl; intros Hp; solve [reflexivity | contradiction]. Qed.

(** [readCacheFile], by what the file system answers. *)
Lemma readCacheFile_run (path : string) (st : State W) :
  readCacheFile path st =
    match sys_Stat path (world st) with
    | (w1, Err err) =>
        (mkState (reqs st) (hdrs st) w1 (trace st ++ [EvStat path (Err err)]),
         Some ([], None, Some err))
    | (w1, Ok info) =>
        match sys_ReadFile path w1 with
        | (w2, Err err) =>
            (mkState (reqs st) (hdrs st) w2
               (trace st ++ [EvStat path (Ok info); EvReadFile path (Err err)]),
             Some ([], None, Some err))
        | (w2, Ok data) =>
            (mkState (reqs st) (hdrs st) w2
               (trace st ++ [EvStat path (Ok info); EvReadFile path (Ok data)]),
             Some (data, Some info, None))
        end
    end.
Proof.
  unfold readCacheFile, bind, os_Stat, os_ReadFile, call, ret.
  destruct (sys_Stat path (world st)) as [w1 [info|err]]; simpl; [|reflexivity].
  destruct (sys_ReadFile path w1) as [w2 [data|err]]; simpl;
    rewrite <- app_assoc; reflexivity.
Qed.

(** [readCacheFile] leaves the heap alone and looks at no file but [path]. *)
Lemma readCacheFile_reads (path : string) (st st1 : State W)
    (o : option (bytes * option FileInfo * option error)) :
  readCacheFile path st = (st1, o) ->
  reqs st1 = reqs st /\ hdrs st1 = hdrs st
  /\ exists evs, trace st1 = trace st ++ evs /\ Forall (reads_path path) evs.
Proof.
  rewrite readCacheFile_run.
  destruct (sys_Stat path (world st)) as [w1 [info|err]];
    [destruct (sys_ReadFile path w1) as [w2 [data|err]]|];
    intros [= <- <-]; (split; [reflexivity|]); (split; [reflexivity|]);
    eexists; (split; [reflexivity|]); repeat constructor.
Qed.

(** [writeCacheFile] leaves the heap alone, writes [data] to the temporary
    file and moves it to [path]; it does nothing else. *)
Lemma writeCacheFile_stores (path : string) (data : bytes) (st : State W) :
  reqs (writeCacheFile path data st).1 = reqs st
  /\ hdrs (writeCacheFile path data st).1 = hdrs st
  /\ exists evs, trace (writeCacheFile path data st).1 = trace st ++ evs
                 /\ Forall (stores_at path data) evs.
Proof.
  rewrite writeCacheFile_run.
  destruct (sys_WriteFile (path +:+ ".tmp") data 420 (world st)) as [w1 [err|]];
    [|destruct (sys_Rename (path +:+ ".tmp") path w1) as [w2 e]];
    (split; [reflexivity|]); (split; [reflexivity|]);
    eexists; (split; [reflexivity|]); repeat constructor.
Qed.

(** X4 -- What [writeCacheFile] has stored, [readCacheFile] reads back.  In a
    world whose file system keeps what is stored through a temporary file, a
    [writeCacheFile] that reports no error is followed by a [readCacheFile]
    of the same path that reports no error and hands out the bytes written. *)
Theorem written_entry_reads_back (path : string) (data : bytes) (st st' : State W) :
  keeps_files path (world st) ->
  writeCacheFile path data st = (st', Some None) ->
  exists info st'', readCacheFile path st' = (st'', Some (data, Some info, None)).
Proof.
  intros Hkeeps. rewrite writeCacheFile_run.
  destruct (sys_WriteFile (path +:+ ".tmp") data 420 (world st)) as [w1 [err|]] eqn:Hw;
    [discriminate|].
  destruct (sys_Rename (path +:+ ".tmp") path w1) as [w2 e] eqn:Hmv.
  intros [= <- ->].
  destruct (Hkeeps data w1 w2 Hw Hmv) as (info & w3 & w4 & Hstat & Hrd).
  exists info. rewrite readCacheFile_run. simpl world. rewrite Hstat, Hrd.
  eexists. reflexivity.
Qed.

End Storage.

(** ** More on the validating fetch *)

Section ValidatingFetchOutcomes.
Context `{Lib} {W : Type} `{!OS W}.

(** X5 -- A cache file that cannot be read for another reason than its
    absence is fatal for a validating fetch: [RoundTrip] returns the error of
    the storage as it is, the wrapped transport is not called and nothing is
    allocated, whether the upstream could have answered or not. *)
Theorem storage_failure_is_fatal (c : cacheRoundTripper W) (rt : RoundTripper W)
    (req : loc) (st st1 : State W) (r : Request) (d : URL) (body : bytes)
    (info : option FileInfo) (e : error) :
  original c = Some rt ->
  reqs st !! req = Some r ->
  Scheme (Request_URL r) = "cache" ->
  unwrapScheme (Request_URL r) "cache" = Ok d ->
  readCacheFile (cachePathForURL c d) st = (st1, Some (body, info, Some e)) ->
  errors_Is e ErrNotExist = false ->
  RoundTrip c req st = (st1, Some (Err e))
  /\ reqs st1 = reqs st /\ hdrs st1 = hdrs st
  /\ transport_calls (trace st1) = transport_calls (trace st).
Proof.
  intros Horiginal Hreq Hscheme Hunwrap Hread Hne.
  destruct (readCacheFile_inv _ _ _ _ Hread) as (Hs & _).
  split.
  - unfold RoundTrip. rewrite Horiginal.
    rewrite (bind_Some _ _ _ _ _ (deref_req_run _ _ _ Hreq)), Hscheme.
    cbv beta. simpl String.eqb. cbv iota.
    exact (validating_fetch_storage_error c req st r ∅ d st1 body info (Some e)
             Hreq Hunwrap Hread e eq_refl Hne).
  - split; [apply Hs|]. split; [apply Hs|].
    apply transport_calls_storage_only. exact Hs.
Qed.

(** X6 -- A request whose header map is nil, against the contract of
    http.RoundTripper.  When a cache entry exists, the clone's header is nil
    as well, [Header.Get] reads it as empty and [Header.Set] writes to the nil
    map: the validating fetch panics, before the wrapped transport is
    called. *)
Theorem nil_header_with_entry_panics (c : cacheRoundTripper W) (req : loc)
    (st st1 : State W) (r : Request) (d : URL) (body : bytes) (info : FileInfo) :
  reqs st !! req = Some r ->
  Request_Header r = None ->
  unwrapScheme (Request_URL r) "cache" = Ok d ->
  readCacheFile (cachePathForURL c d) st = (st1, Some (body, Some info, None)) ->
  (roundTripWithValidation c req st).2 = None
  /\ transport_calls (trace (roundTripWithValidation c req st).1)
     = transport_calls (trace st).
Proof.
  intros Hreq Hheader Hunwrap Hread.
  destruct (readCacheFile_inv _ _ _ _ Hread) as (Hs & _).
  pose proof Hs as (Hr1 & Hh1 & _).
  assert (Hrun : roundTripWithValidation c req st
                 = (mkState (reqs st ++ [mkRequest (Method r) d None (Request_Host r)])
                      (hdrs st) (world st1) (trace st1), None)).
  { unfold roundTripWithValidation.
    rewrite (bind_Some _ _ _ _ _ (deref_req_run _ _ _ Hreq)), Hunwrap.
    cbv beta iota zeta. rewrite (bind_Some _ _ _ _ _ Hread). cbv beta iota zeta.
    assert (Hclone : Request_Clone req st1 =
              (mkState (reqs st ++ [mkRequest (Method r) (Request_URL r) None (Request_Host r)])
                 (hdrs st) (world st1) (trace st1), Some (length (reqs st)))).
    { unfold Request_Clone.
      rewrite (bind_Some _ _ _ st1 r) by (apply deref_req_run; rewrite Hr1; exact Hreq).
      rewrite Hheader. unfold bind, ret, new_req. rewrite Hr1, Hh1. reflexivity. }
    rewrite (bind_Some _ _ _ _ _ Hclone).
    rewrite (bind_Some _ _ _ _ _ (deref_req_last _ _ _ _ _)). cbv beta.
    rewrite (bind_Some _ _ _ _ _ (assign_req_last _ _ _ _ _ _)).
    reflexivity. }
  rewrite Hrun. split; [reflexivity|].
  simpl. apply transport_calls_storage_only. exact Hs.
Qed.

End ValidatingFetchOutcomes.

Section ValidatingFetchEffects.
Context `{Lib} {W : Type} `{!OS W}.

Variables (c : cacheRoundTripper W) (rt : RoundTripper W) (req : loc) (st : State W).
Variables (r : Request) (hl : loc) (h : Header) (d : URL).
Variables (st1 : State W) (cachedBody : bytes) (cachedInfo : option FileInfo)
          (cacheErr : option error).

Hypothesis Horiginal : original c = Some rt.
Hypothesis Hreq : reqs st !! req = Some r.
Hypothesis Hheader : Request_Header r = Some hl.
Hypothesis Hmap : hdrs st !! hl = Some h.
Hypothesis Hunwrap : unwrapScheme (Request_URL r) "cache" = Ok d.
Hypothesis Hread :
  readCacheFile (cachePathForURL c d) st = (st1, Some (cachedBody, cachedInfo, cacheErr)).

Let path : string := cachePathForURL c d.
Let up : loc := length (reqs st).
Let r' : Request := upstream_request r d (length (hdrs st)).
Let h' : Header := upstream_header h cachedInfo cacheErr.

(** The cache read either failed for good or did not. *)
Lemma cache_read_cases :
  (exists e, cacheErr = Some e /\ errors_Is e ErrNotExist = false)
  \/ (forall e, cacheErr = Some e -> errors_Is e ErrNotExist = true).
Proof.
  clear. destruct cacheErr as [e|]; [|right; discriminate].
  destruct (errors_Is e ErrNotExist) eqn:He; [right; congruence | left; eauto].
Qed.

Lemma is_2xx_of_test (code : Z) :
  (http_StatusOK <=? code) && (code <? http_StatusMultipleChoices) = true -> is_2xx code.
Proof.
  clear. intros [Hlo Hhi]%andb_prop. apply Z.leb_le in Hlo. apply Z.ltb_lt in Hhi.
  split; assumption.
Qed.

(** X7 -- A validating fetch calls the wrapped transport once, and only
    once, unless the cache read failed for good, in which case it does not
    call it: there is no retry and no second request, whatever the transport
    answers. *)
Theorem transport_called_once (st' : State W) (o : option (result Response)) :
  roundTripWithValidation c req st = (st', o) ->
  transport_calls (trace st')
  = (transport_calls (trace st)
     + match cacheErr with
       | Some e => if errors_Is e ErrNotExist then 1 else 0
       | None => 1
       end)%nat.
Proof.
  intros Hrun.
  destruct (readCacheFile_inv _ _ _ _ Hread) as (Hs & _).
  pose proof (transport_calls_storage_only _ _ Hs) as H1.
  destruct (validating_fetch_effects c rt req st r hl h d st1 cachedBody cachedInfo cacheErr
              Horiginal Hreq Hheader Hmap Hunwrap Hread st' o Hrun)
    as [(e & -> & Hne & -> & _) | (w3 & ans & evsW & Hnf & _ & _ & _ & Ht & HW & _)].
  - rewrite Hne, H1. lia.
  - rewrite Ht, !transport_calls_app, (transport_calls_none _ HW), H1.
    replace (transport_calls [EvRoundTrip (length (reqs st))
               (upstream_request r d (length (hdrs st)))
               (upstream_header h cachedInfo cacheErr) ans]) with 1%nat by reflexivity.
    destruct cacheErr as [e|]; [rewrite (Hnf e eq_refl)|]; lia.
Qed.


(** X9 -- The cache changes only on success.  Every event by which a
    validating fetch changes the storage comes after a response of the success
    class whose body was read to its end, and is the writing of exactly that
    body to the temporary file of the destination's cache path or the renaming
    of that file to the cache path.  So an entry is never deleted or
    truncated, no other file is written, and an upstream failure, a 304, a
    status outside 2xx or a body that breaks off leave the cache as it was. *)
Theorem cache_written_only_on_success (st' : State W) (o : option (result Response))
    (evs : list Event) :
  roundTripWithValidation c req st = (st', o) ->
  trace st' = trace st ++ evs ->
  forall e, e ∈ evs -> is_write e = true ->
    exists w3 resp rc,
      rt up r' h' (world st1) = (w3, Ok resp)
      /\ is_2xx (StatusCode resp) /\ Body resp = Some rc /\ reader_err rc = None
      /\ stores_at path (reader_data rc) e.
Proof.
  intros Hrun Htrace e Hin Hwrite.
  destruct (readCacheFile_reads _ _ _ _ Hread) as (_ & _ & evs1 & Ht1 & H1).
  rewrite Forall_forall in H1.
  assert (Hquiet : forall evs2,
             trace st' = trace st1 ++ evs2 -> Forall (fun e => is_write e = false) evs2 ->
             False).
  { intros evs2 Ht2 H2. rewrite Forall_forall in H2.
    rewrite Ht2, Ht1, <- app_assoc in Htrace. apply app_inv_head in Htrace. subst evs.
    apply elem_of_app in Hin as [Hin | Hin].
    - rewrite (reads_path_not_write _ _ (H1 _ Hin)) in Hwrite. discriminate.
    - rewrite (H2 _ Hin) in Hwrite. discriminate. }
  destruct cache_read_cases as [(e0 & Hce & Hne) | Hnf].
  { rewrite (validating_fetch_storage_error c req st r h d st1 cachedBody cachedInfo
               cacheErr Hreq Hunwrap Hread e0 Hce Hne) in Hrun.
    injection Hrun as <- <-. exfalso. apply (Hquiet []); [symmetry; apply app_nil_r|].
    constructor. }
  destruct (rt up r' h' (world st1)) as [w3 ans] eqn:Hrt.
  rewrite (validating_fetch_run c rt req st r hl h d st1 cachedBody cachedInfo cacheErr
             Horiginal Hreq Hheader Hmap Hunwrap Hread w3 ans Hnf Hrt) in Hrun.
  cbv zeta in Hrun. fold up r' h' in Hrun.
  set (st2 := mkState (reqs st ++ [r']) (hdrs st ++ [h']) w3
                (trace st1 ++ [EvRoundTrip up r' h' ans])) in *.
  assert (Hcall : st' = st2 -> False).
  { intros ->. apply (Hquiet [EvRoundTrip up r' h' ans]); [reflexivity|].
    repeat constructor. }
  destruct ans as [resp|err]; [|injection Hrun as <- <-; exfalso; apply Hcall; reflexivity].
  destruct (_ && (StatusCode resp =? http_StatusNotModified));
    [injection Hrun as <- <-; exfalso; apply Hcall; reflexivity|].
  destruct ((http_StatusOK <=? StatusCode resp)
            && (StatusCode resp <? http_StatusMultipleChoices)) eqn:Hcode;
    [|injection Hrun as <- <-; exfalso; apply Hcall; reflexivity].
  destruct (Body resp) as [rc|] eqn:Hbody;
    [|injection Hrun as <- <-; exfalso; apply Hcall; reflexivity].
  destruct (reader_err rc) as [err|] eqn:Herr;
    [injection Hrun as <- <-; exfalso; apply Hcall; reflexivity|].
  injection Hrun as <- <-.
  destruct (writeCacheFile_stores (cachePathForURL c d) (reader_data rc) st2)
    as (_ & _ & evsW & HtW & HW).
  rewrite Forall_forall in HW.
  exists w3, resp, rc. split; [reflexivity|]. split; [apply is_2xx_of_test; exact Hcode|].
  split; [exact Hbody|]. split; [exact Herr|].
  rewrite HtW in Htrace. unfold st2 in Htrace. simpl trace in Htrace.
  rewrite Ht1, <- !app_assoc in Htrace. apply app_inv_head in Htrace. subst evs.
  apply elem_of_app in Hin as [Hin | Hin];
    [rewrite (reads_path_not_write _ _ (H1 _ Hin)) in Hwrite; discriminate|].
  apply elem_of_cons in Hin as [-> | Hin]; [discriminate Hwrite|].
  apply HW. exact Hin.
Qed.

End ValidatingFetchEffects.

(** ** A fetch that stores, followed by another fetch *)

Section StoreThenServe.
Context `{Lib} {W : Type} `{!OS W}.

(** A validating fetch as before; this time the transport answers with the
    response [resp] of the success class, whose body [rc] reads to its end,
    and the two steps of [writeCacheFile] succeed, in a world that keeps what
    is stored. *)
Variables (c : cacheRoundTripper W) (rt : RoundTripper W) (req : loc) (st : State W).
Variables (r : Request) (hl : loc) (h : Header) (d : URL).
Variables (st1 : State W) (cachedBody : bytes) (cachedInfo : option FileInfo)
          (cacheErr : option error).
Variables (w3 w4 w5 : W) (resp : Response) (rc : ReadCloser).

Hypothesis Horiginal : original c = Some rt.
Hypothesis Hreq : reqs st !! req = Some r.
Hypothesis Hheader : Request_Header r = Some hl.
Hypothesis Hmap : hdrs st !! hl = Some h.
Hypothesis Hunwrap : unwrapScheme (Request_URL r) "cache" = Ok d.
Hypothesis Hread :
  readCacheFile (cachePathForURL c d) st = (st1, Some (cachedBody, cachedInfo, cacheErr)).

Let path : string := cachePathForURL c d.
Let up : loc := length (reqs st).
Let r' : Request := upstream_request r d (length (hdrs st)).
Let h' : Header := upstream_header h cachedInfo cacheErr.

Hypothesis Hnonfatal : forall e, cacheErr = Some e -> errors_Is e ErrNotExist = true.
Hypothesis Hrt : rt up r' h' (world st1) = (w3, Ok resp).
Hypothesis Hcode : is_2xx (StatusCode resp).
Hypothesis Hbody : Body resp = Some rc.
Hypothesis Hfull : reader_err rc = None.
Hypothesis Hwrite : sys_WriteFile (path +:+ ".tmp") (reader_data rc) 420 w3 = (w4, None).
Hypothesis Hrename : sys_Rename (path +:+ ".tmp") path w4 = (w5, None).
Hypothesis Hkeeps : keeps_files path w3.

(** The state the fetch leaves and the response it returns. *)
Let st3 : State W :=
  mkState (reqs st ++ [r']) (hdrs st ++ [h']) w5
    (trace st1 ++ [EvRoundTrip up r' h' (Ok resp);
                   EvWriteFile (path +:+ ".tmp") (reader_data rc) 420 None;
                   EvRename (path +:+ ".tmp") path None]).
Let fresh : Response :=
  mkResponse (StatusCode resp) (Status resp) (Some (bytes_NewReader (reader_data rc)))
    (Response_Header resp) (Z.of_nat (length (reader_data rc))) (Response_Request resp).

Lemma first_fetch_stores : roundTripWithValidation c req st = (st3, Some (Ok fresh)).
Proof.
  rewrite (validating_fetch_run c rt req st r hl h d st1 cachedBody cachedInfo cacheErr
             Horiginal Hreq Hheader Hmap Hunwrap Hread w3 (Ok resp) Hnonfatal Hrt).
  cbv zeta.
  assert (Hne : (StatusCode resp =? http_StatusNotModified) = false
                /\ (http_StatusOK <=? StatusCode resp)
                   && (StatusCode resp <? http_StatusMultipleChoices) = true).
  { clear -Hcode.
    unfold is_2xx, http_StatusOK, http_StatusMultipleChoices, http_StatusNotModified in *.
    split; [apply Z.eqb_neq; lia|].
    apply andb_true_intro. split; [apply Z.leb_le | apply Z.ltb_lt]; lia. }
  destruct Hne as [Hne Hin].
  rewrite Hne, andb_false_r, Hin, Hbody, Hfull.
  rewrite writeCacheFile_run. simpl world. fold path up r' h'.
  rewrite Hwrite, Hrename. simpl fst. unfold st3, fresh. simpl trace.
  rewrite <- app_assoc. reflexivity.
Qed.

(** The cache read that follows finds what the fetch has stored. *)
Lemma second_read :
  exists info st3', readCacheFile path st3 = (st3', Some (reader_data rc, Some info, None))
                    /\ reqs st3' = reqs st3 /\ hdrs st3' = hdrs st3.
Proof.
  destruct (Hkeeps _ _ _ Hwrite Hrename) as (info & w6 & w7 & Hstat & Hrd).
  exists info. rewrite readCacheFile_run. simpl world. rewrite Hstat, Hrd.
  eexists. split; [reflexivity|]. split; reflexivity.
Qed.

(** X10 -- What a validating fetch has stored, a cache-only fetch serves.
    After the fetch, a cache-only request for the same destination is answered
    with the response synthesized from the body the transport sent, byte for
    byte, without a call to the transport. *)
Theorem stored_response_serves_cache_only (req2 : loc) (r2 : Request) :
  reqs st !! req2 = Some r2 ->
  unwrapScheme (Request_URL r2) "cachez" = Ok d ->
  roundTripWithValidation c req st = (st3, Some (Ok fresh))
  /\ exists st4,
       roundTripCacheOnly c req2 st3
       = (st4, Some (Ok (cachedResponse req2 (reader_data rc))))
       /\ transport_calls (trace st4) = transport_calls (trace st3).
Proof.
  intros Hreq2 Hunwrap2. split; [exact first_fetch_stores|].
  destruct second_read as (info & st3' & Hread3 & _).
  exists st3'.
  assert (Hreq3 : reqs st3 !! req2 = Some r2) by (apply lookup_app_l_Some; exact Hreq2).
  rewrite (roundTripCacheOnly_run c req2 st3 r2 d st3' _ _ _ Hreq3 Hunwrap2 Hread3).
  split; [reflexivity|].
  destruct (readCacheFile_inv _ _ _ _ Hread3) as (Hs & _).
  apply transport_calls_storage_only. exact Hs.
Qed.

(** X11 -- What a validating fetch has stored, the next one revalidates.
    When the caller sends the request again, without [If-Modified-Since] of
    its own, the transport is asked with [If-Modified-Since] set to the
    modification time of the file just stored; and if it then fails, or
    answers 304 or any status outside the success class, the call returns the
    response synthesized from the body stored by the first fetch. *)
Theorem stored_response_is_revalidated :
  MIMEHeader_Get h IMS = "" ->
  roundTripWithValidation c req st = (st3, Some (Ok fresh))
  /\ exists info st3',
       readCacheFile path st3 = (st3', Some (reader_data rc, Some info, None))
       /\ forall w6 ans2,
            rt (length (reqs st3)) (upstream_request r d (length (hdrs st3)))
               (MIMEHeader_Set h IMS (Time_Format (Time_UTC (ModTime info)) http_TimeFormat))
               (world st3') = (w6, ans2) ->
            match ans2 with
            | Ok resp2 => ~ is_2xx (StatusCode resp2)
            | Err _ => True
            end ->
            (roundTripWithValidation c req st3).2
            = Some (Ok (cachedResponse req (reader_data rc))).
Proof.
  intros Hget. split; [exact first_fetch_stores|].
  destruct second_read as (info & st3' & Hread3 & _).
  exists info, st3'. split; [exact Hread3|].
  intros w6 ans2 Hrt2 Hans2.
  assert (Hreq3 : reqs st3 !! req = Some r) by (apply lookup_app_l_Some; exact Hreq).
  assert (Hmap3 : hdrs st3 !! hl = Some h) by (apply lookup_app_l_Some; exact Hmap).
  assert (Hnf3 : forall e, @None error = Some e -> errors_Is e ErrNotExist = true)
    by discriminate.
  assert (Hh : upstream_header h (Some info) None
               = MIMEHeader_Set h IMS (Time_Format (Time_UTC (ModTime info)) http_TimeFormat)).
  { unfold upstream_header. rewrite Hget. reflexivity. }
  rewrite <- Hh in Hrt2.
  rewrite (validating_fetch_run c rt req st3 r hl h d st3' (reader_data rc) (Some info) None
             Horiginal Hreq3 Hheader Hmap3 Hunwrap Hread3 w6 ans2 Hnf3 Hrt2).
  cbv zeta. destruct ans2 as [resp2|err]; [|reflexivity].
  simpl andb.
  destruct (StatusCode resp2 =? http_StatusNotModified); [reflexivity|].
  assert (Hout : (http_StatusOK <=? StatusCode resp2)
                 && (StatusCode resp2 <? http_StatusMultipleChoices) = false).
  { clear -Hans2. unfold is_2xx in Hans2. apply andb_false_iff.
    destruct (Z.leb_spec http_StatusOK (StatusCode resp2)); [|left; reflexivity].
    right. apply Z.ltb_ge. lia. }
  rewrite Hout. reflexivity.
Qed.

End StoreThenServe.

(** ** More on the cache-only fetch *)

Section CacheOnlyReads.
Context `{Lib} {W : Type} `{!OS W}.

(** X12 -- A cache-only fetch is read-only.  It leaves the heap as it was
    and changes nothing in the storage: when the URL unwraps, every event it
    adds to the log is an [os.Stat] or an [os.ReadFile] of the cache path of
    the destination; when the URL does not unwrap, it adds none. *)
Theorem cache_only_reads_one_file (c : cacheRoundTripper W) (req : loc)
    (st st' : State W) (r : Request) (o : option (result Response)) :
  reqs st !! req = Some r ->
  roundTripCacheOnly c req st = (st', o) ->
  reqs st' = reqs st /\ hdrs st' = hdrs st
  /\ exists evs,
       trace st' = trace st ++ evs
       /\ Forall (fun e => is_write e = false) evs
       /\ match unwrapScheme (Request_URL r) "cachez" with
          | Ok d => Forall (reads_path (cachePathForURL c d)) evs
          | Err _ => evs = []
          end.
Proof.
  intros Hreq Hrun.
  destruct (unwrapScheme (Request_URL r) "cachez") as [d|e] eqn:Hunwrap.
  - destruct (readCacheFile (cachePathForURL c d) st) as [st1 o1] eqn:Hread.
    destruct (readCacheFile_inv _ _ _ _ Hread) as (_ & body & info & err & -> & _).
    rewrite (roundTripCacheOnly_run c req st r d st1 body info err Hreq Hunwrap Hread) in Hrun.
    injection Hrun as <- <-.
    destruct (readCacheFile_reads _ _ _ _ Hread) as (Hr & Hh & evs & Ht & Hevs).
    split; [exact Hr|]. split; [exact Hh|]. exists evs. split; [exact Ht|].
    split; [|exact Hevs].
    eapply Forall_impl; [exact Hevs|]. intros e. apply reads_path_not_write.
  - unfold roundTripCacheOnly in Hrun.
    rewrite (bind_Some _ _ _ _ _ (deref_req_run _ _ _ Hreq)), Hunwrap in Hrun.
    injection Hrun as <- <-. split; [reflexivity|]. split; [reflexivity|].
    exists []. split; [symmetry; apply app_nil_r|]. split; [constructor | reflexivity].
Qed.

(** X13 -- The answer of a cache-only fetch depends on the request through
    its URL alone.  Two requests with the same URL, whatever their methods,
    hosts and headers, get the same outcome in the same world, and leave the
    same world behind. *)
Theorem cache_only_depends_on_url (c : cacheRoundTripper W) (req : loc)
    (stA stB : State W) (rA rB : Request) :
  reqs stA !! req = Some rA ->
  reqs stB !! req = Some rB ->
  Request_URL rA = Request_URL rB ->
  world stA = world stB ->
  (roundTripCacheOnly c req stA).2 = (roundTripCacheOnly c req stB).2
  /\ world (roundTripCacheOnly c req stA).1 = world (roundTripCacheOnly c req stB).1.
Proof.
  intros HA HB Hurl Hworld.
  destruct (unwrapScheme (Request_URL rB) "cachez") as [d|e] eqn:HunwrapB.
  - assert (HunwrapA : unwrapScheme (Request_URL rA) "cachez" = Ok d)
      by (rewrite Hurl; exact HunwrapB).
    pose proof (readCacheFile_run (cachePathForURL c d) stA) as HrA.
    pose proof (readCacheFile_run (cachePathForURL c d) stB) as HrB.
    rewrite Hworld in HrA.
    destruct (sys_Stat (cachePathForURL c d) (world stB)) as [w1 [info|err]];
      [destruct (sys_ReadFile (cachePathForURL c d) w1) as [w2 [data|err]]|];
      rewrite (roundTripCacheOnly_run c req stA rA d _ _ _ _ HA HunwrapA HrA),
              (roundTripCacheOnly_run c req stB rB d _ _ _ _ HB HunwrapB HrB);
      split; reflexivity.
  - unfold roundTripCacheOnly.
    rewrite (bind_Some _ _ _ _ _ (deref_req_run _ _ _ HA)).
    rewrite (bind_Some _ _ _ _ _ (deref_req_run _ _ _ HB)).
    rewrite Hurl, HunwrapB. split; [reflexivity | exact Hworld].
Qed.

End CacheOnlyReads.

(** ** Construction and registration *)

Section Construction.
Context `{Lib} {W : Type} `{!OS W}.

(** X14 -- When the cache directory cannot be created, [NewRoundTripper]
    fails after that one call to [os.MkdirAll], with an error that reads
    "create cache directory: " followed by the message of the cause and that
    wraps the cause: [errors.Is] finds in it whatever it finds in the error of
    [os.MkdirAll]. *)
Theorem NewRoundTripper_wraps_mkdir_error (dir : string)
    (original : option (RoundTripper W)) (st : State W) (w : W) (err : error) :
  dir <> "" ->
  sys_MkdirAll dir 493 (world st) = (w, Some err) ->
  exists e,
    NewRoundTripper dir original st
    = (mkState (reqs st) (hdrs st) w (trace st ++ [EvMkdirAll dir 493 (Some err)]),
       Some (Err e))
    /\ Error e = "create cache directory: " +:+ Error err
    /\ forall target, errors_Is err target = true -> errors_Is e target = true.
Proof.
  intros Hdir Hmk. eexists. split; [|split].
  - unfold NewRoundTripper. apply String.eqb_neq in Hdir. rewrite Hdir.
    unfold bind, os_MkdirAll, call. rewrite Hmk. reflexivity.
  - reflexivity.
  - intros target Htarget. simpl. rewrite Htarget.
    destruct (decide _); reflexivity.
Qed.

(** X15 -- What [NewRoundTripper] returns when it does not fail: the
    directory is not empty and [os.MkdirAll] has created it, with mode 0o755,
    in the one storage call made; the decorator keeps the directory and wraps
    the transport given, or the default transport if none was given, so that
    its transport is never unset. *)
Theorem constructed_decorator (dir : string) (original : option (RoundTripper W))
    (st st' : State W) (c : cacheRoundTripper W) :
  NewRoundTripper dir original st = (st', Some (Ok c)) ->
  dir <> ""
  /\ sys_MkdirAll dir 493 (world st) = (world st', None)
  /\ trace st' = trace st ++ [EvMkdirAll dir 493 None]
  /\ reqs st' = reqs st /\ hdrs st' = hdrs st
  /\ c = mkCache (Some match original with
                       | Some rt => rt
                       | None => http_DefaultTransport
                       end) dir.
Proof.
  unfold NewRoundTripper.
  destruct (String.eqb dir "") eqn:Hdir; [discriminate|].
  apply String.eqb_neq in Hdir.
  unfold bind, os_MkdirAll, call.
  destruct (sys_MkdirAll dir 493 (world st)) as [w [err|]]; [discriminate|].
  intros [= <- <-]. repeat split; try reflexivity. exact Hdir.
Qed.

(** X16 -- Registration.  On a host transport that has neither scheme
    registered, when [NewRoundTripper] succeeds, [AddCacheRoundTripper]
    returns no error and leaves the transport with one and the same decorator
    under "cache" and under "cachez", and every other scheme as it was. *)
Theorem AddCacheRoundTripper_registers (dir : string) (original : option (RoundTripper W))
    (t : Transport W) (st st' : State W) (c : cacheRoundTripper W) :
  t !! "cache" = None ->
  t !! "cachez" = None ->
  NewRoundTripper dir original st = (st', Some (Ok c)) ->
  exists t',
    AddCacheRoundTripper dir original (Some t) st = (st', Some (Some t', None))
    /\ t' !! "cache" = Some c /\ t' !! "cachez" = Some c
    /\ forall s, s <> "cache" -> s <> "cachez" -> t' !! s = t !! s.
Proof.
  intros Hcache Hcachez Hnew.
  exists (<["cachez" := c]> (<["cache" := c]> t)). split; [|split; [|split]].
  - unfold AddCacheRoundTripper. rewrite (bind_Some _ _ _ _ _ Hnew).
    unfold Transport_RegisterProtocol, bind, ret. rewrite Hcache.
    rewrite lookup_insert_ne by discriminate. rewrite Hcachez. reflexivity.
  - rewrite lookup_insert_ne by discriminate. apply lookup_insert_eq.
  - apply lookup_insert_eq.
  - intros s Hs1 Hs2. rewrite !lookup_insert_ne by congruence. reflexivity.
Qed.

(** X17 -- Registration is not idempotent.  After [AddCacheRoundTripper] has
    succeeded on a host transport, a second call on the same transport never
    succeeds: if [NewRoundTripper] fails, its error is returned and the
    transport is left as it is; if it succeeds, the cache directory has been
    created and the registration of "cache" panics. *)
Theorem AddCacheRoundTripper_again (dir dir2 : string)
    (original original2 : option (RoundTripper W)) (t t1 : Transport W)
    (st st1 : State W) :
  AddCacheRoundTripper dir original (Some t) st = (st1, Some (Some t1, None)) ->
  (forall st2 c2,
     NewRoundTripper dir2 original2 st1 = (st2, Some (Ok c2)) ->
     AddCacheRoundTripper dir2 original2 (Some t1) st1 = (st2, None))
  /\ (forall st2 e,
        NewRoundTripper dir2 original2 st1 = (st2, Some (Err e)) ->
        AddCacheRoundTripper dir2 original2 (Some t1) st1 = (st2, Some (Some t1, Some e))).
Proof.
  intros Hfirst.
  assert (Hreg : is_Some (t1 !! "cache")).
  { revert Hfirst. unfold AddCacheRoundTripper, bind.
    destruct (NewRoundTripper dir original st) as [st' [[c|e]|]]; [|discriminate..].
    unfold Transport_RegisterProtocol.
    destruct (t !! "cache"); [discriminate|]. unfold ret.
    destruct (<["cache" := c]> t !! "cachez"); [discriminate|].
    intros [= _ <-]. exists c.
    rewrite lookup_insert_ne by discriminate. apply lookup_insert_eq. }
  destruct Hreg as [c1 Hc1]. split.
  - intros st2 c2 Hnew. unfold AddCacheRoundTripper. rewrite (bind_Some _ _ _ _ _ Hnew).
    unfold Transport_RegisterProtocol, bind. rewrite Hc1. reflexivity.
  - intros st2 e Hnew. unfold AddCacheRoundTripper. rewrite (bind_Some _ _ _ _ _ Hnew).
    reflexivity.
Qed.

End Construction.

(** ** Errors and their causes *)

Section Causes.
Context `{Lib} {W : Type} `{!OS W}.

Lemma errors_Is_errorString (s : string) (target : error) :
  errors_Is (errorString s) target = true -> target = errorString s.
Proof.
  change (errors_Is (errorString s) target)
    with (if decide (errorString s = target) then true else false).
  destruct (decide (errorString s = target)); [auto | discriminate].
Qed.

Lemma errors_Is_wrapError (msg : string) (err target : error) :
  errors_Is err target = true -> errors_Is (wrapError msg err) target = true.
Proof.
  intros Htarget.
  change (errors_Is (wrapError msg err) target)
    with (if decide (wrapError msg err = target) then true else errors_Is err target).
  rewrite Htarget. destruct (decide (wrapError msg err = target)); reflexivity.
Qed.

(** X18 -- A cache miss hides its cause.  The error of a cache-only fetch
    that finds no entry is made without [%w]: it wraps nothing, so [errors.Is]
    does not find [os.ErrNotExist] in it, nor the error of the storage. *)
Theorem cache_miss_is_opaque (c : cacheRoundTripper W) (req : loc) (st st1 : State W)
    (r : Request) (d : URL) (body : bytes) (info : option FileInfo) (e : error) :
  reqs st !! req = Some r ->
  unwrapScheme (Request_URL r) "cachez" = Ok d ->
  readCacheFile (cachePathForURL c d) st = (st1, Some (body, info, Some e)) ->
  errors_Is e ErrNotExist = true ->
  exists miss,
    roundTripCacheOnly c req st = (st1, Some (Err miss))
    /\ errors_Is miss ErrNotExist = false
    /\ errors_Is miss e = false
    /\ forall target, errors_Is miss target = true -> target = miss.
Proof.
  intros Hreq Hunwrap Hread He.
  rewrite (roundTripCacheOnly_run c req st r d st1 body info (Some e) Hreq Hunwrap Hread).
  rewrite He. eexists. split; [reflexivity|]. split; [|split].
  - match goal with |- ?b = false => destruct b eqn:Hb; [|reflexivity] end.
    apply errors_Is_errorString in Hb. discriminate Hb.
  - match goal with |- ?b = false => destruct b eqn:Hb; [|reflexivity] end.
    apply errors_Is_errorString in Hb. subst e.
    apply errors_Is_errorString in He. discriminate He.
  - intros target. apply errors_Is_errorString.
Qed.

(** X19 -- A destination that does not parse keeps its cause.  When what
    follows the marker is not empty and [url.Parse] refuses it,
    [unwrapScheme] fails with an error that reads "parse downstream URL: "
    followed by the message of the parser's error and that wraps it:
    [errors.Is] finds in it whatever it finds in the parser's error. *)
Theorem unwrapScheme_wraps_parse_error (u : URL) (scheme rest : string) (err : error) :
  URL_String u = (scheme +:+ ":") +:+ rest ->
  rest <> "" ->
  url_Parse rest = Err err ->
  exists e,
    unwrapScheme u scheme = Err e
    /\ Error e = "parse downstream URL: " +:+ Error err
    /\ forall target, errors_Is err target = true -> errors_Is e target = true.
Proof.
  intros Hraw Hne Hparse.
  rewrite (unwrapScheme_app u scheme _ Hraw).
  apply String.eqb_neq in Hne. rewrite Hne, Hparse.
  eexists. split; [reflexivity|]. split; [reflexivity|].
  intros target. apply errors_Is_wrapError.
Qed.

End Causes.

(** * The sample at work *)

Module Runs.
Import Sample.
#[local] Existing Instance lib.
#[local] Existing Instance os.

Example http_date_epoch : http_date 0 = "Thu, 01 Jan 1970 00:00:00 GMT".
Proof. reflexivity. Qed.

Example http_date_leap : http_date 951782400 = "Tue, 29 Feb 2000 00:00:00 GMT".
Proof. reflexivity. Qed.

Example http_date_test : http_date test_modTime = "Fri, 02 Jan 2026 03:04:05 GMT".
Proof. reflexivity. Qed.

Example Sum256_abc :
  EncodeToString (Sum256 (list_byte_of_string "abc"))
  = "ba7816bf8f01cfea414140de5dae2223b00361a396177a9cb410ff61f20015ad".
Proof. vm_compute. reflexivity. Qed.

Example Sum256_two_blocks :
  EncodeToString (Sum256 (list_byte_of_string
    "abcdbcdecdefdefgefghfghighijhijkijkljklmklmnlmnomnopnopq0123456789"))
  = "fc3dec554815b278d981f0ebe2ccadae141574535febf82636d6864b8a60bfe5".
Proof. vm_compute. reflexivity. Qed.

Example cache_path_of_dest (original : option (RoundTripper World)) :
  cachePathForURL (mkCache original "cache") dest = cache_path.
Proof. vm_compute. reflexivity. Qed.

(** TestNewRoundTripper. *)
Example TestNewRoundTripper :
  error_of (NewRoundTripper "" None (NewRequest cache_target unseeded)).2
    = Some "cache directory is required"
  /\ error_of (NewRoundTripper "cache" None (NewRequest cache_target unseeded)).2 = None
  /\ option_map (fun _ => tt) (NewRoundTripper "cache" None (NewRequest cache_target unseeded)).2
     = Some tt.
Proof. vm_compute. auto. Qed.

(** TestRoundTripCacheFetchAndStore. *)
Example TestRoundTripCacheFetchAndStore :
  let run := RoundTrip (cache_with fresh_func) 0%nat (NewRequest cache_target unseeded) in
  read_body run.2 = Some "fresh" /\ cache_file run.1 = Some "fresh".
Proof. vm_compute. auto. Qed.

(** TestRoundTripCacheUsesIfModifiedSinceAndFallsBackToCacheOn304: the mock
    is called, with the header the test expects, and answers 304. *)
Example TestRoundTripCacheUsesIfModifiedSinceAndFallsBackToCacheOn304 :
  let run := RoundTrip (cache_with not_modified_func) 0%nat
               (NewRequest cache_target (seeded "cached-value" test_modTime)) in
  status_of run.2 = Some 200 /\ read_body run.2 = Some "cached-value"
  /\ calls_of run.1 = [(Some ["Fri, 02 Jan 2026 03:04:05 GMT"], Some 304)].
Proof. vm_compute. auto. Qed.

(** TestRoundTripCacheFallsBackToCacheOnFailure. *)
Example TestRoundTripCacheFallsBackToCacheOnFailure :
  let run := RoundTrip (cache_with server_error_func) 0%nat
               (NewRequest cache_target (seeded "cached-error-fallback" 0)) in
  read_body run.2 = Some "cached-error-fallback".
Proof. vm_compute. reflexivity. Qed.

(** TestRoundTripCachezUsesCacheOnly. *)
Example TestRoundTripCachezUsesCacheOnly :
  let run := RoundTrip (cache_with not_called_func) 0%nat
               (NewRequest cachez_target (seeded "cachez-value" 0)) in
  callCount (world run.1) = 0%nat /\ read_body run.2 = Some "cachez-value".
Proof. vm_compute. auto. Qed.

(** TestRoundTripCachezMiss. *)
Example TestRoundTripCachezMiss :
  let run := RoundTrip (cache_with not_called_func) 0%nat
               (NewRequest "cachez:https://example.com/miss" unseeded) in
  error_of run.2 = Some "cache miss for https://example.com/miss"
  /\ callCount (world run.1) = 0%nat.
Proof. vm_compute. auto. Qed.

(** TestAddCacheRoundTripper, its first check. *)
Example TestAddCacheRoundTripper_nil :
  (AddCacheRoundTripper "cache" None None (NewRequest cache_target unseeded)).2
  = Some (None, Some (errorString "transport is nil")).
Proof. reflexivity. Qed.

(** TestRoundTripPassThroughWithoutPrefix. *)
Example TestRoundTripPassThroughWithoutPrefix :
  let run := RoundTrip (cache_with pass_through_func) 0%nat
               (NewRequest "https://example.com/data" unseeded) in
  callCount (world run.1) = 1%nat /\ read_body run.2 = Some "pass-through".
Proof. vm_compute. auto. Qed.

(** A validating fetch that succeeds on an empty cache, then a cache-only
    fetch for the same destination: the second call reads what the first one
    stored, and the transport is called once in all. *)
Example fetch_then_cache_only :
  let first := RoundTrip (cache_with fresh_func) 0%nat (NewRequest cache_target unseeded) in
  let second := RoundTrip (cache_with fresh_func) 0%nat
                  (NewRequest cachez_target (world first.1)) in
  read_body second.2 = Some "fresh" /\ callCount (world second.1) = 1%nat.
Proof. vm_compute. auto. Qed.

(** A cache file that cannot be read: both modes return the error of the
    storage, and the transport is not called. *)
Example storage_error_is_returned :
  let validating := RoundTrip (cache_with fresh_func) 0%nat (NewRequest cache_target locked) in
  let cache_only := RoundTrip (cache_with fresh_func) 0%nat (NewRequest cachez_target locked) in
  error_of validating.2 = Some ("stat " +:+ cache_path +:+ ": permission denied")
  /\ error_of cache_only.2 = Some ("stat " +:+ cache_path +:+ ": permission denied")
  /\ callCount (world validating.1) = 0%nat /\ callCount (world cache_only.1) = 0%nat.
Proof. vm_compute. auto. Qed.

(** A body that breaks off: the cached copy is served when there is one, the
    read error is returned when there is none. *)
Example truncated_body :
  read_body (RoundTrip (cache_with truncated_func) 0%nat
               (NewRequest cache_target (seeded "old" 0))).2 = Some "old"
  /\ error_of (RoundTrip (cache_with truncated_func) 0%nat
                 (NewRequest cache_target unseeded)).2 = Some "unexpected EOF".
Proof. vm_compute. auto. Qed.

(** The cache cannot be written: the fresh response is returned all the same,
    and no cache file appears. *)
Example write_failure_is_swallowed :
  let run := RoundTrip (cache_with fresh_func) 0%nat (NewRequest cache_target read_only) in
  read_body run.2 = Some "fresh" /\ cache_file run.1 = None.
Proof. vm_compute. auto. Qed.

(** A 200 without a body: the call panics. *)
Example nil_body_panics :
  (RoundTrip (cache_with no_body_func) 0%nat (NewRequest cache_target unseeded)).2 = None.
Proof. vm_compute. reflexivity. Qed.

(** The URL of the README's example, "cache://example.com/", has an authority
    of its own; what follows the marker then has no scheme, and the request is
    refused. *)
Example readme_target_is_refused :
  error_of (RoundTrip (cache_with fresh_func) 0%nat
              (NewRequest "cache://example.com/" unseeded)).2
  = Some "downstream URL must include scheme".
Proof. vm_compute. reflexivity. Qed.

(** The cache-hit marker is stored under a key that is not in canonical form,
    so a lookup with [Header.Get] does not find it. *)
Example cache_hit_marker_not_canonical (req : loc) (body : bytes) :
  CanonicalMIMEHeaderKey "X-HTTP-Cache" = "X-Http-Cache"
  /\ MIMEHeader_Get (Response_Header (cachedResponse req body)) "X-HTTP-Cache" = "".
Proof. split; reflexivity. Qed.

(** ** The theorems at work on the scenarios *)

(** The 500 of TestRoundTripCacheFallsBackToCacheOnFailure, through C1. *)
Lemma validating_fetch_upstream_failure_witness :
  let c := cache_with server_error_func in
  let st := NewRequest cache_target (seeded "cached-error-fallback" 0) in
  unwrapScheme (Request_URL (the_request cache_target)) "cache" = Ok dest
  /\ readCacheFile (cachePathForURL c dest) st
     = (after_hit cache_target "cached-error-fallback" 0,
        Some (text "cached-error-fallback", Some (info_of "cached-error-fallback" 0), None))
  /\ (roundTripWithValidation c 0%nat st).2
     = Some (Ok (cachedResponse 0%nat (text "cached-error-fallback"))).
Proof.
  intros c st.
  assert (Hunwrap : unwrapScheme (Request_URL (the_request cache_target)) "cache" = Ok dest)
    by reflexivity.
  assert (Hread : readCacheFile (cachePathForURL c dest) st
                  = (after_hit cache_target "cached-error-fallback" 0,
                     Some (text "cached-error-fallback",
                           Some (info_of "cached-error-fallback" 0), None)))
    by reflexivity.
  assert (Hrt : mockRoundTripper server_error_func (length (reqs st))
                  (upstream_request (the_request cache_target) dest (length (hdrs st)))
                  (upstream_header ∅ (Some (info_of "cached-error-fallback" 0)) None)
                  (world (after_hit cache_target "cached-error-fallback" 0))
                = (called (seeded "cached-error-fallback" 0),
                   Ok (mkResponse 500 "" (body_of "server-error") ∅ 0 (Some 1%nat))))
    by reflexivity.
  assert (Hcode : ~ is_2xx 500)
    by (unfold is_2xx, http_StatusOK, http_StatusMultipleChoices; lia).
  split; [exact Hunwrap|]. split; [exact Hread|].
  rewrite (proj1 (validating_fetch_upstream_failure c (mockRoundTripper server_error_func)
                    0%nat st (the_request cache_target) 0%nat ∅ dest _ _ _ _
                    eq_refl eq_refl eq_refl eq_refl Hunwrap Hread _ _ Hrt Hcode)
                 eq_refl).
  reflexivity.
Defined.

(** The 304 of TestRoundTripCacheUsesIfModifiedSinceAndFallsBackToCacheOn304,
    through C2. *)
Lemma validating_fetch_not_modified_witness :
  let c := cache_with not_modified_func in
  let st := NewRequest cache_target (seeded "cached-value" test_modTime) in
  readCacheFile (cachePathForURL c dest) st
  = (after_hit cache_target "cached-value" test_modTime,
     Some (text "cached-value", Some (info_of "cached-value" test_modTime), None))
  /\ (roundTripWithValidation c 0%nat st).2
     = Some (Ok (cachedResponse 0%nat (text "cached-value")))
  /\ ContentLength (cachedResponse 0%nat (text "cached-value")) = 12.
Proof.
  intros c st.
  assert (Hunwrap : unwrapScheme (Request_URL (the_request cache_target)) "cache" = Ok dest)
    by reflexivity.
  assert (Hread : readCacheFile (cachePathForURL c dest) st
                  = (after_hit cache_target "cached-value" test_modTime,
                     Some (text "cached-value",
                           Some (info_of "cached-value" test_modTime), None)))
    by reflexivity.
  assert (Hrt : mockRoundTripper not_modified_func (length (reqs st))
                  (upstream_request (the_request cache_target) dest (length (hdrs st)))
                  (upstream_header ∅ (Some (info_of "cached-value" test_modTime)) None)
                  (world (after_hit cache_target "cached-value" test_modTime))
                = (called (seeded "cached-value" test_modTime),
                   Ok (mkResponse 304 "" (body_of "") ∅ 0 (Some 1%nat))))
    by reflexivity.
  destruct (validating_fetch_not_modified c (mockRoundTripper not_modified_func)
              0%nat st (the_request cache_target) 0%nat ∅ dest _ _ _ _
              eq_refl eq_refl eq_refl eq_refl Hunwrap Hread _ _ eq_refl Hrt eq_refl)
    as [Hrun Hfields].
  split; [exact Hread|]. split; [rewrite Hrun; reflexivity|].
  destruct (Hfields 0%nat (text "cached-value")) as (_ & _ & _ & Hlen).
  rewrite Hlen. reflexivity.
Defined.

(** The first fetch of TestRoundTripCacheFetchAndStore: the body is stored
    through the temporary file and returned. *)
Lemma validating_fetch_success_witness :
  let c := cache_with fresh_func in
  let st := NewRequest cache_target unseeded in
  readCacheFile (cachePathForURL c dest) st
  = (after_miss cache_target, Some ([], None, Some not_found))
  /\ errors_Is not_found ErrNotExist = true
  /\ exists st' fresh rerr,
       roundTripWithValidation c 0%nat st = (st', Some (Ok fresh))
       /\ Body fresh = body_of "fresh" /\ ContentLength fresh = 5
       /\ trace st'
          = trace (after_miss cache_target)
            ++ [EvRoundTrip 1%nat (upstream_request (the_request cache_target) dest 1%nat)
                  (upstream_header ∅ None (Some not_found)) (Ok (fresh_response 1%nat));
                EvWriteFile (cachePathForURL c dest +:+ ".tmp") (text "fresh") 420 None;
                EvRename (cachePathForURL c dest +:+ ".tmp") (cachePathForURL c dest) rerr].
Proof.
  intros c st.
  assert (Hunwrap : unwrapScheme (Request_URL (the_request cache_target)) "cache" = Ok dest)
    by reflexivity.
  assert (Hread : readCacheFile (cachePathForURL c dest) st
                  = (after_miss cache_target, Some ([], None, Some not_found)))
    by reflexivity.
  assert (Hmiss : forall e, Some not_found = Some e -> errors_Is e ErrNotExist = true)
    by (intros e [= <-]; reflexivity).
  assert (Hrt : mockRoundTripper fresh_func (length (reqs st))
                  (upstream_request (the_request cache_target) dest (length (hdrs st)))
                  (upstream_header ∅ None (Some not_found))
                  (world (after_miss cache_target))
                = (called unseeded, Ok (fresh_response 1%nat)))
    by reflexivity.
  assert (Hcode : is_2xx 200)
    by (unfold is_2xx, http_StatusOK, http_StatusMultipleChoices; lia).
  assert (Hwrite : sys_WriteFile (cachePathForURL c dest +:+ ".tmp") (text "fresh") 420
                     (called unseeded)
                   = (tmp_written "fresh" (called unseeded), None))
    by reflexivity.
  split; [exact Hread|]. split; [reflexivity|].
  destruct (validating_fetch_success c (mockRoundTripper fresh_func)
              0%nat st (the_request cache_target) 0%nat ∅ dest _ _ _ _
              eq_refl eq_refl eq_refl eq_refl Hunwrap Hread _ _
              (mkReader (text "fresh") None) Hmiss Hrt Hcode eq_refl) as [_ Hfresh].
  destruct (Hfresh eq_refl _ _ Hwrite)
    as (st' & fresh & Hrun & _ & _ & (rerr & _ & Htrace) & Hbody & Hlen & _).
  exists st', fresh, rerr. split; [exact Hrun|]. split; [exact Hbody|].
  split; [exact Hlen | exact Htrace].
Defined.

(** TestRoundTripCachezUsesCacheOnly, through C5. *)
Lemma cache_only_fetch_witness :
  let c := cache_with not_called_func in
  let st := NewRequest cachez_target (seeded "cachez-value" 0) in
  unwrapScheme (Request_URL (the_request cachez_target)) "cachez" = Ok dest
  /\ readCacheFile (cachePathForURL c dest) st
     = (after_hit cachez_target "cachez-value" 0,
        Some (text "cachez-value", Some (info_of "cachez-value" 0), None))
  /\ roundTripCacheOnly c 0%nat st
     = (after_hit cachez_target "cachez-value" 0,
        Some (Ok (cachedResponse 0%nat (text "cachez-value")))).
Proof.
  intros c st.
  assert (Hunwrap : unwrapScheme (Request_URL (the_request cachez_target)) "cachez" = Ok dest)
    by reflexivity.
  assert (Hread : readCacheFile (cachePathForURL c dest) st
                  = (after_hit cachez_target "cachez-value" 0,
                     Some (text "cachez-value", Some (info_of "cachez-value" 0), None)))
    by reflexivity.
  split; [exact Hunwrap|]. split; [exact Hread|].
  exact (proj1 (cache_only_fetch c 0%nat st (the_request cachez_target) dest _ _ _ _
                  eq_refl Hunwrap Hread) eq_refl).
Defined.

(** TestRoundTripCachezMiss, through C6. *)
Lemma cache_only_never_calls_transport_witness :
  let st := NewRequest "cachez:https://example.com/miss" unseeded in
  Scheme (Request_URL (the_request "cachez:https://example.com/miss")) = "cachez"
  /\ exists st' res,
       RoundTrip (cache_with not_called_func) 0%nat st = (st', Some res)
       /\ transport_calls (trace st') = 0%nat.
Proof.
  intros st.
  assert (Hscheme : Scheme (Request_URL (the_request "cachez:https://example.com/miss"))
                    = "cachez") by reflexivity.
  split; [exact Hscheme|].
  destruct (cache_only_never_calls_transport (cache_with not_called_func) 0%nat st
              (the_request "cachez:https://example.com/miss") eq_refl Hscheme)
    as (st' & res & Hrun & Hcalls & _).
  exists st', res. split; [exact Hrun | exact Hcalls].
Defined.

(** The header the mock of the 304 test is handed, through C7. *)
Lemma conditional_header_iff_witness :
  let c := cache_with not_modified_func in
  let st := NewRequest cache_target (seeded "cached-value" test_modTime) in
  MIMEHeader_Get (∅ : Header) "If-Modified-Since" = ""
  /\ exists up0 r0 h0 ans0,
       EvRoundTrip up0 r0 h0 ans0 ∈ trace (roundTripWithValidation c 0%nat st).1
       /\ h0 = {[ "If-Modified-Since" := ["Fri, 02 Jan 2026 03:04:05 GMT"] ]}.
Proof.
  intros c st.
  assert (Hunwrap : unwrapScheme (Request_URL (the_request cache_target)) "cache" = Ok dest)
    by reflexivity.
  assert (Hread : readCacheFile (cachePathForURL c dest) st
                  = (after_hit cache_target "cached-value" test_modTime,
                     Some (text "cached-value",
                           Some (info_of "cached-value" test_modTime), None)))
    by reflexivity.
  assert (Hget : MIMEHeader_Get (∅ : Header) "If-Modified-Since" = "") by reflexivity.
  split; [exact Hget|].
  destruct (roundTripWithValidation c 0%nat st) as [st' o] eqn:Hrun. simpl fst.
  destruct (conditional_header_iff c (mockRoundTripper not_modified_func)
              0%nat st (the_request cache_target) 0%nat ∅ dest _ _ _ _
              eq_refl eq_refl eq_refl eq_refl Hunwrap Hread
              st' o (trace st') Hrun eq_refl) as [Hcalled Hheader].
  destruct (Hcalled ltac:(discriminate)) as (up0 & r0 & h0 & ans0 & Hin).
  exists up0, r0, h0, ans0. split; [exact Hin|].
  destruct (Hheader up0 r0 h0 ans0 Hin) as (_ & Hset & _).
  destruct (Hset (conj eq_refl Hget)) as (info & w1 & Hinfo & _ & ->).
  injection Hinfo as <-. reflexivity.
Defined.

(** The caller's request after the 304 test, through C10. *)
Lemma validating_fetch_leaves_request_witness :
  let c := cache_with not_modified_func in
  let st := NewRequest cache_target (seeded "cached-value" test_modTime) in
  reqs (roundTripWithValidation c 0%nat st).1 !! 0%nat = Some (the_request cache_target)
  /\ hdrs (roundTripWithValidation c 0%nat st).1 !! 0%nat = Some ∅
  /\ URL_String (Request_URL (the_request cache_target)) = cache_target.
Proof.
  intros c st.
  destruct (roundTripWithValidation c 0%nat st) as [st' o] eqn:Hrun. simpl fst.
  destruct (validating_fetch_leaves_request c (mockRoundTripper not_modified_func)
              0%nat st (the_request cache_target) 0%nat ∅ st' o (trace st')
              eq_refl eq_refl eq_refl eq_refl Hrun eq_refl)
    as (Hreq & Hhdr & _).
  split; [exact Hreq|]. split; [exact Hhdr | reflexivity].
Defined.

(** One destination under both markers, through C3. *)
Lemma cache_key_independent_of_marker_witness :
  let c := cache_with fresh_func in
  URL_String (url_of cache_target) = "cache:" +:+ "https://example.com/data"
  /\ URL_String (url_of cachez_target) = "cachez:" +:+ "https://example.com/data"
  /\ unwrapScheme (url_of cache_target) "cache" = Ok dest
  /\ unwrapScheme (url_of cachez_target) "cachez" = Ok dest
  /\ cachePathForURL c (set_Scheme dest "cache") = cachePathForURL c (set_Scheme dest "cachez").
Proof.
  intros c.
  assert (H1 : URL_String (url_of cache_target) = "cache:" +:+ "https://example.com/data")
    by reflexivity.
  assert (H2 : URL_String (url_of cachez_target) = "cachez:" +:+ "https://example.com/data")
    by reflexivity.
  split; [exact H1|]. split; [exact H2|].
  split; [reflexivity|]. split; [reflexivity|].
  destruct (cache_key_independent_of_marker c (url_of cache_target) (url_of cachez_target)
              "https://example.com/data" H1 H2) as [_ Hnorm].
  destruct (Hnorm dest) as [Hc Hz]. rewrite Hc, Hz. reflexivity.
Defined.

(** A wrapped URL and a URL with the wrong marker, through C8. *)
Lemma unwrapScheme_fails_exactly_witness :
  unwrapScheme (url_of cache_target) "cache" = Ok dest
  /\ exists e, unwrapScheme (url_of cachez_target) "cache" = Err e.
Proof.
  destruct (unwrapScheme_fails_exactly (url_of cache_target) "cache") as [_ Hok].
  destruct (unwrapScheme_fails_exactly (url_of cachez_target) "cache") as [Herr _].
  split.
  - apply Hok. exists "https://example.com/data".
    split; [reflexivity|]. split; [discriminate|]. split; [reflexivity | discriminate].
  - apply Herr. left. intros [rest Hrest]. vm_compute in Hrest. discriminate Hrest.
Defined.

(** C9, as the claim has it, fails: with the transport unset and a directory
    that can be created, [NewRoundTripper] does not return an error. *)
Lemma construction_without_transport_succeeds :
  ~ exists st' e,
      NewRoundTripper "cache" None (NewRequest cache_target empty_world) = (st', Some (Err e)).
Proof.
  intros (st' & e & Hrun).
  assert (Hok : (NewRoundTripper "cache" None (NewRequest cache_target empty_world)).2
                = Some (Ok (mkCache (Some http_DefaultTransport) "cache")))
    by reflexivity.
  rewrite Hrun in Hok. discriminate Hok.
Qed.

(** What [NewRoundTripper] returns there, through C9 as the code has it. *)
Lemma configuration_errors_witness :
  "cache" <> ""
  /\ sys_MkdirAll "cache" 493 empty_world = (unseeded, None)
  /\ (NewRoundTripper "cache" None (NewRequest cache_target empty_world)).2
     = Some (Ok (mkCache (Some http_DefaultTransport) "cache")).
Proof.
  assert (Hdir : "cache" <> "") by discriminate.
  assert (Hmk : sys_MkdirAll "cache" 493 (world (NewRequest cache_target empty_world))
                = (unseeded, None)) by reflexivity.
  split; [exact Hdir|]. split; [exact Hmk|].
  rewrite (proj1 (proj2 (proj2 (configuration_errors "cache" None 0%nat
                                  (NewRequest cache_target empty_world))))
             unseeded Hdir Hmk).
  reflexivity.
Defined.

(** C4 -- A response of the success class without a body.  The claim has
    the body buffered and the response returned for every such response; the
    code calls [io.ReadAll] on the nil reader and panics, before
    [drainAndClose] could check for it.  The sibling paths do check: with the
    same nil body, a status outside the success class is returned as it is and
    a 304 is answered from the cache. *)
Theorem success_without_body_panics :
  (RoundTrip (cache_with (bodiless_func 200)) 0%nat (NewRequest cache_target unseeded)).2
  = None
  /\ (RoundTrip (cache_with (bodiless_func 204)) 0%nat
        (NewRequest cache_target (seeded "old" 0))).2 = None
  /\ status_of (RoundTrip (cache_with (bodiless_func 500)) 0%nat
                  (NewRequest cache_target unseeded)).2 = Some 500
  /\ read_body (RoundTrip (cache_with (bodiless_func 304)) 0%nat
                  (NewRequest cache_target (seeded "old" 0))).2 = Some "old".
Proof. vm_compute. auto. Qed.

(** C7, as the claim has it, fails: a cache entry exists and the caller has
    set [If-Modified-Since], to the empty string; the header handed to the
    transport carries the modification time of the cache file all the same. *)
Lemma conditional_header_over_callers :
  let c := cache_with not_modified_func in
  let st := EmptyValidatorRequest (seeded "cached-value" test_modTime) in
  ~ (forall up0 r0 h0 ans0,
       EvRoundTrip up0 r0 h0 ans0 ∈ trace (roundTripWithValidation c 0%nat st).1 ->
       (h0 !! IMS = Some [http_date test_modTime] <-> ~ caller_set empty_validator IMS)).
Proof.
  intros c st Hclaim.
  assert (Hunwrap : unwrapScheme (Request_URL (the_request cache_target)) "cache" = Ok dest)
    by reflexivity.
  assert (Hread : readCacheFile (cachePathForURL c dest) st
            = (mkState [the_request cache_target] [empty_validator]
                 (seeded "cached-value" test_modTime)
                 [EvStat cache_path (Ok (info_of "cached-value" test_modTime));
                  EvReadFile cache_path (Ok (text "cached-value"))],
               Some (text "cached-value", Some (info_of "cached-value" test_modTime), None)))
    by reflexivity.
  assert (Hnf : forall e, @None error = Some e -> errors_Is e ErrNotExist = true)
    by discriminate.
  assert (Hrt : mockRoundTripper not_modified_func (length (reqs st))
                  (upstream_request (the_request cache_target) dest (length (hdrs st)))
                  (upstream_header empty_validator
                     (Some (info_of "cached-value" test_modTime)) None)
                  (seeded "cached-value" test_modTime)
                = (called (seeded "cached-value" test_modTime),
                   Ok (mkResponse 304 "" (body_of "") ∅ 0 (Some 1%nat))))
    by reflexivity.
  assert (Hsent : upstream_header empty_validator
                    (Some (info_of "cached-value" test_modTime)) None !! IMS
                  = Some [http_date test_modTime])
    by reflexivity.
  assert (Hset : caller_set empty_validator IMS) by (exists [""]; reflexivity).
  set (sent := upstream_header empty_validator
                 (Some (info_of "cached-value" test_modTime)) None) in *.
  set (ans := Ok (mkResponse 304 "" (body_of "") ∅ 0 (Some 1%nat))) in *.
  pose proof (validating_fetch_run c (mockRoundTripper not_modified_func) 0%nat st
                (the_request cache_target) 0%nat empty_validator dest _ _ _ _
                eq_refl eq_refl eq_refl eq_refl Hunwrap Hread _ ans Hnf Hrt) as Hrun.
  cbv zeta in Hrun.
  assert (Hin : EvRoundTrip (length (reqs st))
                  (upstream_request (the_request cache_target) dest (length (hdrs st)))
                  sent ans
                ∈ trace (roundTripWithValidation c 0%nat st).1).
  { rewrite Hrun. apply elem_of_app. right. apply list_elem_of_here. }
  exact (proj1 (Hclaim _ _ _ _ Hin) Hsent Hset).
Qed.

(** ** The further properties at work on the scenarios *)

(** The file system of the sample keeps what is stored through a temporary
    file, at every path that may be accessed. *)
Lemma sample_keeps_files (path : string) (w : World) :
  is_denied path w = false -> keeps_files path w.
Proof.
  intros Hpath data w1 w2 Hw Hmv.
  assert (Hd : forall p w' fs t, is_denied p (set_files w' fs t) = is_denied p w')
    by reflexivity.
  unfold sys_WriteFile, os in Hw.
  destruct (is_denied (path +:+ ".tmp") w) eqn:Htmp; [discriminate Hw|].
  injection Hw as <-.
  unfold sys_Rename, os, lookup_file in Hmv.
  rewrite Hd, Htmp in Hmv. simpl files in Hmv.
  rewrite lookup_insert_eq in Hmv. injection Hmv as <-.
  eexists _, _, _. split.
  - unfold sys_Stat, os, lookup_file. rewrite !Hd, Hpath. simpl files.
    rewrite lookup_insert_eq. reflexivity.
  - unfold sys_ReadFile, os, lookup_file. rewrite !Hd, Hpath. simpl files.
    rewrite lookup_insert_eq. reflexivity.
Qed.

(** TestRoundTripPassThroughWithoutPrefix, through X1. *)
Lemma other_schemes_pass_through_witness :
  let c := cache_with pass_through_func in
  let st := NewRequest "https://example.com/data" unseeded in
  Scheme (Request_URL (the_request "https://example.com/data")) = "https"
  /\ RoundTrip c 0%nat st
     = (mkState (reqs st) (hdrs st) (called unseeded)
          [EvRoundTrip 0%nat (the_request "https://example.com/data") ∅
             (Ok (mkResponse 200 "" (body_of "pass-through") ∅ 0 (Some 0%nat)))],
        Some (Ok (mkResponse 200 "" (body_of "pass-through") ∅ 0 (Some 0%nat)))).
Proof.
  intros c st.
  assert (Hscheme : Scheme (Request_URL (the_request "https://example.com/data")) = "https")
    by reflexivity.
  assert (Hcache : Scheme (Request_URL (the_request "https://example.com/data")) <> "cache")
    by (rewrite Hscheme; discriminate).
  assert (Hcachez : Scheme (Request_URL (the_request "https://example.com/data")) <> "cachez")
    by (rewrite Hscheme; discriminate).
  assert (Hrt : mockRoundTripper pass_through_func 0%nat
                  (the_request "https://example.com/data") ∅ (world st)
                = (called unseeded,
                   Ok (mkResponse 200 "" (body_of "pass-through") ∅ 0 (Some 0%nat))))
    by reflexivity.
  split; [exact Hscheme|].
  exact (other_schemes_pass_through c (mockRoundTripper pass_through_func) 0%nat st
           (the_request "https://example.com/data") 0%nat ∅ _ _
           eq_refl eq_refl eq_refl eq_refl Hcache Hcachez Hrt).
Defined.

(** The URL of the README's example, through X2. *)
Lemma malformed_url_is_refused_witness :
  let c := cache_with fresh_func in
  let st := NewRequest "cache://example.com/" unseeded in
  unwrapScheme (Request_URL (the_request "cache://example.com/")) "cache"
  = Err (errorString "downstream URL must include scheme")
  /\ roundTripWithValidation c 0%nat st
     = (st, Some (Err (errorString "downstream URL must include scheme"))).
Proof.
  intros c st.
  assert (Hunwrap : unwrapScheme (Request_URL (the_request "cache://example.com/")) "cache"
                    = Err (errorString "downstream URL must include scheme"))
    by reflexivity.
  split; [exact Hunwrap|].
  exact (proj1 (malformed_url_is_refused c 0%nat st (the_request "cache://example.com/")
                  eq_refl) _ Hunwrap).
Defined.

(** The URL of the tests, through X3. *)
Lemma unwrapScheme_of_wrapped_witness :
  URL_String (url_of cache_target) = ("cache" +:+ ":") +:+ URL_String dest
  /\ url_Parse (URL_String dest) = Ok dest
  /\ unwrapScheme (url_of cache_target) "cache" = Ok dest.
Proof.
  assert (Hraw : URL_String (url_of cache_target) = ("cache" +:+ ":") +:+ URL_String dest)
    by reflexivity.
  assert (Hparse : url_Parse (URL_String dest) = Ok dest) by reflexivity.
  assert (Hne : URL_String dest <> "")
    by (intros Heq; vm_compute in Heq; discriminate Heq).
  assert (Hscheme : Scheme dest <> "")
    by (intros Heq; vm_compute in Heq; discriminate Heq).
  split; [exact Hraw|]. split; [exact Hparse|].
  exact (unwrapScheme_of_wrapped (url_of cache_target) dest "cache" Hraw Hparse Hne Hscheme).
Defined.

(** The cache file that may not be accessed, through X5. *)
Lemma storage_failure_is_fatal_witness :
  let c := cache_with fresh_func in
  let st := NewRequest cache_target locked in
  readCacheFile (cachePathForURL c dest) st
  = (after_denial cache_target, Some ([], None, Some denied_error))
  /\ errors_Is denied_error ErrNotExist = false
  /\ RoundTrip c 0%nat st = (after_denial cache_target, Some (Err denied_error))
  /\ transport_calls (trace (after_denial cache_target)) = 0%nat.
Proof.
  intros c st.
  assert (Hscheme : Scheme (Request_URL (the_request cache_target)) = "cache")
    by reflexivity.
  assert (Hunwrap : unwrapScheme (Request_URL (the_request cache_target)) "cache" = Ok dest)
    by reflexivity.
  assert (Hread : readCacheFile (cachePathForURL c dest) st
                  = (after_denial cache_target, Some ([], None, Some denied_error)))
    by reflexivity.
  assert (Hne : errors_Is denied_error ErrNotExist = false) by reflexivity.
  split; [exact Hread|]. split; [exact Hne|].
  destruct (storage_failure_is_fatal c (mockRoundTripper fresh_func) 0%nat st
              (after_denial cache_target) (the_request cache_target) dest [] None
              denied_error eq_refl eq_refl Hscheme Hunwrap Hread Hne)
    as (Hrun & _ & _ & Hcalls).
  split; [exact Hrun | exact Hcalls].
Defined.

(** The first fetch of TestRoundTripCacheFetchAndStore, through X7. *)
Lemma transport_called_once_witness :
  let c := cache_with fresh_func in
  let st := NewRequest cache_target unseeded in
  readCacheFile (cachePathForURL c dest) st
  = (after_miss cache_target, Some ([], None, Some not_found))
  /\ transport_calls (trace (roundTripWithValidation c 0%nat st).1) = 1%nat.
Proof.
  intros c st.
  assert (Hunwrap : unwrapScheme (Request_URL (the_request cache_target)) "cache" = Ok dest)
    by reflexivity.
  assert (Hread : readCacheFile (cachePathForURL c dest) st
                  = (after_miss cache_target, Some ([], None, Some not_found)))
    by reflexivity.
  split; [exact Hread|].
  destruct (roundTripWithValidation c 0%nat st) as [st' o] eqn:Hrun. simpl fst.
  rewrite (transport_called_once c (mockRoundTripper fresh_func) 0%nat st
             (the_request cache_target) 0%nat ∅ dest _ _ _ _
             eq_refl eq_refl eq_refl eq_refl Hunwrap Hread st' o Hrun).
  reflexivity.
Defined.


(** The first fetch of TestRoundTripCacheFetchAndStore, through X9: what it
    does to the storage is to store "fresh". *)
Lemma cache_written_only_on_success_witness :
  let c := cache_with fresh_func in
  let st := NewRequest cache_target unseeded in
  readCacheFile (cachePathForURL c dest) st
  = (after_miss cache_target, Some ([], None, Some not_found))
  /\ forall e, e ∈ trace (roundTripWithValidation c 0%nat st).1 -> is_write e = true ->
       stores_at (cachePathForURL c dest) (text "fresh") e.
Proof.
  intros c st.
  assert (Hunwrap : unwrapScheme (Request_URL (the_request cache_target)) "cache" = Ok dest)
    by reflexivity.
  assert (Hread : readCacheFile (cachePathForURL c dest) st
                  = (after_miss cache_target, Some ([], None, Some not_found)))
    by reflexivity.
  assert (Hrt : mockRoundTripper fresh_func (length (reqs st))
                  (upstream_request (the_request cache_target) dest (length (hdrs st)))
                  (upstream_header ∅ None (Some not_found))
                  (world (after_miss cache_target))
                = (called unseeded, Ok (fresh_response 1%nat)))
    by reflexivity.
  split; [exact Hread|].
  destruct (roundTripWithValidation c 0%nat st) as [st' o] eqn:Hrun. simpl fst.
  intros e Hin Hwrite.
  destruct (cache_written_only_on_success c (mockRoundTripper fresh_func) 0%nat st
              (the_request cache_target) 0%nat ∅ dest _ _ _ _
              eq_refl eq_refl eq_refl eq_refl Hunwrap Hread st' o (trace st') Hrun eq_refl
              e Hin Hwrite)
    as (w3 & resp & rc & Hrt' & _ & Hbody & _ & Hstores).
  rewrite Hrt in Hrt'. injection Hrt' as _ <-.
  injection Hbody as <-. exact Hstores.
Defined.

(** A request with a nil header map and a cache entry, through X6. *)
Lemma nil_header_with_entry_panics_witness :
  let c := cache_with fresh_func in
  let st := BareRequest cache_target (seeded "old" 0) in
  readCacheFile (cachePathForURL c dest) st
  = (mkState [bare_request cache_target] [] (seeded "old" 0)
       [EvStat cache_path (Ok (info_of "old" 0)); EvReadFile cache_path (Ok (text "old"))],
     Some (text "old", Some (info_of "old" 0), None))
  /\ (roundTripWithValidation c 0%nat st).2 = None
  /\ callCount (world (roundTripWithValidation c 0%nat st).1) = 0%nat.
Proof.
  intros c st.
  assert (Hunwrap : unwrapScheme (Request_URL (bare_request cache_target)) "cache" = Ok dest)
    by reflexivity.
  assert (Hread : readCacheFile (cachePathForURL c dest) st
            = (mkState [bare_request cache_target] [] (seeded "old" 0)
                 [EvStat cache_path (Ok (info_of "old" 0));
                  EvReadFile cache_path (Ok (text "old"))],
               Some (text "old", Some (info_of "old" 0), None)))
    by reflexivity.
  split; [exact Hread|].
  split; [|reflexivity].
  exact (proj1 (nil_header_with_entry_panics c 0%nat st _ (bare_request cache_target) dest
                  _ _ eq_refl eq_refl Hunwrap Hread)).
Defined.

(** The two requests of TestAddCacheRoundTripper: the second is answered from
    what the first has stored, after a revalidation. *)
Example TestAddCacheRoundTripper_requests :
  let c := mkCache (Some versioned_server) "cache" in
  let first := RoundTrip c 0%nat (NewRequest cache_target unseeded) in
  let second := RoundTrip c 0%nat (NewRequest cache_target (world first.1)) in
  read_body first.2 = Some "v1" /\ read_body second.2 = Some "v1"
  /\ callCount (world second.1) = 2%nat.
Proof. vm_compute. auto. Qed.

(** A store in the empty cache, through X4. *)
Lemma written_entry_reads_back_witness :
  let st := NewRequest cache_target unseeded in
  keeps_files cache_path (world st)
  /\ (writeCacheFile cache_path (text "fresh") st).2 = Some None
  /\ exists info st'',
       readCacheFile cache_path (writeCacheFile cache_path (text "fresh") st).1
       = (st'', Some (text "fresh", Some info, None)).
Proof.
  intros st.
  assert (Hkeeps : keeps_files cache_path (world st))
    by (apply sample_keeps_files; reflexivity).
  assert (Hok : (writeCacheFile cache_path (text "fresh") st).2 = Some None) by reflexivity.
  split; [exact Hkeeps|]. split; [exact Hok|].
  destruct (writeCacheFile cache_path (text "fresh") st) as [st' o] eqn:Hrun.
  change (o = Some None) in Hok. subst o.
  exact (written_entry_reads_back cache_path (text "fresh") st st' Hkeeps Hrun).
Defined.

(** A validating fetch and a cache-only fetch of one caller, through X10. *)
Lemma stored_response_serves_cache_only_witness :
  let c := cache_with fresh_func in
  let st := two_requests unseeded in
  readCacheFile (cachePathForURL c dest) st
  = (two_after_miss, Some ([], None, Some not_found))
  /\ unwrapScheme (Request_URL cachez_request) "cachez" = Ok dest
  /\ exists st3 fresh st4,
       roundTripWithValidation c 0%nat st = (st3, Some (Ok fresh))
       /\ roundTripCacheOnly c 1%nat st3
          = (st4, Some (Ok (cachedResponse 1%nat (text "fresh")))).
Proof.
  intros c st.
  assert (Hunwrap : unwrapScheme (Request_URL (the_request cache_target)) "cache" = Ok dest)
    by reflexivity.
  assert (Hunwrap2 : unwrapScheme (Request_URL cachez_request) "cachez" = Ok dest)
    by reflexivity.
  assert (Hread : readCacheFile (cachePathForURL c dest) st
                  = (two_after_miss, Some ([], None, Some not_found)))
    by reflexivity.
  assert (Hmiss : forall e, Some not_found = Some e -> errors_Is e ErrNotExist = true)
    by (intros e [= <-]; reflexivity).
  assert (Hrt : mockRoundTripper fresh_func (length (reqs st))
                  (upstream_request (the_request cache_target) dest (length (hdrs st)))
                  (upstream_header ∅ None (Some not_found))
                  (world two_after_miss)
                = (called unseeded, Ok (fresh_response 2%nat)))
    by reflexivity.
  assert (Hcode : is_2xx 200)
    by (unfold is_2xx, http_StatusOK, http_StatusMultipleChoices; lia).
  assert (Hwrite : sys_WriteFile (cachePathForURL c dest +:+ ".tmp") (text "fresh") 420
                     (called unseeded)
                   = (tmp_written "fresh" (called unseeded), None))
    by reflexivity.
  assert (Hrename : sys_Rename (cachePathForURL c dest +:+ ".tmp") (cachePathForURL c dest)
                      (tmp_written "fresh" (called unseeded))
                    = (stored "fresh" (called unseeded), None))
    by reflexivity.
  assert (Hkeeps : keeps_files (cachePathForURL c dest) (called unseeded))
    by (apply sample_keeps_files; reflexivity).
  split; [exact Hread|]. split; [exact Hunwrap2|].
  destruct (stored_response_serves_cache_only c (mockRoundTripper fresh_func) 0%nat st
              (the_request cache_target) 0%nat ∅ dest _ _ _ _ _ _ _
              (fresh_response 2%nat) (mkReader (text "fresh") None)
              eq_refl eq_refl eq_refl eq_refl Hunwrap Hread Hmiss Hrt Hcode eq_refl eq_refl
              Hwrite Hrename Hkeeps 1%nat cachez_request eq_refl Hunwrap2)
    as (Hfirst & st4 & Hsecond & _).
  eexists _, _, st4. split; [exact Hfirst | exact Hsecond].
Defined.

(** The same request sent twice, through X11: the second time the mock of the
    first test refuses the conditional header, and the caller gets what the
    first fetch has stored. *)
Lemma stored_response_is_revalidated_witness :
  let c := cache_with fresh_func in
  let st := NewRequest cache_target unseeded in
  readCacheFile (cachePathForURL c dest) st
  = (after_miss cache_target, Some ([], None, Some not_found))
  /\ MIMEHeader_Get (∅ : Header) IMS = ""
  /\ exists st3 fresh info st3',
       roundTripWithValidation c 0%nat st = (st3, Some (Ok fresh))
       /\ readCacheFile (cachePathForURL c dest) st3
          = (st3', Some (text "fresh", Some info, None))
       /\ forall w6 ans2,
            mockRoundTripper fresh_func (length (reqs st3))
              (upstream_request (the_request cache_target) dest (length (hdrs st3)))
              (MIMEHeader_Set ∅ IMS (Time_Format (Time_UTC (ModTime info)) http_TimeFormat))
              (world st3') = (w6, ans2) ->
            match ans2 with
            | Ok resp2 => ~ is_2xx (StatusCode resp2)
            | Err _ => True
            end ->
            (roundTripWithValidation c 0%nat st3).2
            = Some (Ok (cachedResponse 0%nat (text "fresh"))).
Proof.
  intros c st.
  assert (Hunwrap : unwrapScheme (Request_URL (the_request cache_target)) "cache" = Ok dest)
    by reflexivity.
  assert (Hread : readCacheFile (cachePathForURL c dest) st
                  = (after_miss cache_target, Some ([], None, Some not_found)))
    by reflexivity.
  assert (Hmiss : forall e, Some not_found = Some e -> errors_Is e ErrNotExist = true)
    by (intros e [= <-]; reflexivity).
  assert (Hrt : mockRoundTripper fresh_func (length (reqs st))
                  (upstream_request (the_request cache_target) dest (length (hdrs st)))
                  (upstream_header ∅ None (Some not_found))
                  (world (after_miss cache_target))
                = (called unseeded, Ok (fresh_response 1%nat)))
    by reflexivity.
  assert (Hcode : is_2xx 200)
    by (unfold is_2xx, http_StatusOK, http_StatusMultipleChoices; lia).
  assert (Hwrite : sys_WriteFile (cachePathForURL c dest +:+ ".tmp") (text "fresh") 420
                     (called unseeded)
                   = (tmp_written "fresh" (called unseeded), None))
    by reflexivity.
  assert (Hrename : sys_Rename (cachePathForURL c dest +:+ ".tmp") (cachePathForURL c dest)
                      (tmp_written "fresh" (called unseeded))
                    = (stored "fresh" (called unseeded), None))
    by reflexivity.
  assert (Hkeeps : keeps_files (cachePathForURL c dest) (called unseeded))
    by (apply sample_keeps_files; reflexivity).
  assert (Hget : MIMEHeader_Get (∅ : Header) IMS = "") by reflexivity.
  split; [exact Hread|]. split; [exact Hget|].
  destruct (stored_response_is_revalidated c (mockRoundTripper fresh_func) 0%nat st
              (the_request cache_target) 0%nat ∅ dest _ _ _ _ _ _ _
              (fresh_response 1%nat) (mkReader (text "fresh") None)
              eq_refl eq_refl eq_refl eq_refl Hunwrap Hread Hmiss Hrt Hcode eq_refl eq_refl
              Hwrite Hrename Hkeeps Hget)
    as (Hfirst & info & st3' & Hread3 & Hnext).
  eexists _, _, info, st3'. split; [exact Hfirst|]. split; [exact Hread3 | exact Hnext].
Defined.

(** TestRoundTripCachezUsesCacheOnly, through X12. *)
Lemma cache_only_reads_one_file_witness :
  let c := cache_with not_called_func in
  let st := NewRequest cachez_target (seeded "cachez-value" 0) in
  unwrapScheme (Request_URL (the_request cachez_target)) "cachez" = Ok dest
  /\ reqs (roundTripCacheOnly c 0%nat st).1 = reqs st
  /\ Forall (reads_path (cachePathForURL c dest)) (trace (roundTripCacheOnly c 0%nat st).1).
Proof.
  intros c st.
  assert (Hunwrap : unwrapScheme (Request_URL (the_request cachez_target)) "cachez" = Ok dest)
    by reflexivity.
  split; [exact Hunwrap|].
  destruct (roundTripCacheOnly c 0%nat st) as [st' o] eqn:Hrun. simpl fst.
  destruct (cache_only_reads_one_file c 0%nat st st' (the_request cachez_target) o
              eq_refl Hrun) as (Hreqs & _ & evs & Htrace & _ & Hevs).
  split; [exact Hreqs|].
  rewrite Hunwrap in Hevs. rewrite Htrace. exact Hevs.
Defined.

(** A GET and a POST for the same cache-only URL, through X13. *)
Lemma cache_only_depends_on_url_witness :
  let c := cache_with not_called_func in
  let stA := NewRequest cachez_target (seeded "cachez-value" 0) in
  let stB := PostRequest (seeded "cachez-value" 0) in
  Request_URL (the_request cachez_target) = Request_URL post_request
  /\ (roundTripCacheOnly c 0%nat stA).2 = (roundTripCacheOnly c 0%nat stB).2.
Proof.
  intros c stA stB.
  assert (Hurl : Request_URL (the_request cachez_target) = Request_URL post_request)
    by reflexivity.
  split; [exact Hurl|].
  exact (proj1 (cache_only_depends_on_url c 0%nat stA stB (the_request cachez_target)
                  post_request eq_refl eq_refl Hurl eq_refl)).
Defined.

(** A cache directory that cannot be created, through X14. *)
Lemma NewRoundTripper_wraps_mkdir_error_witness :
  let st := NewRequest cache_target no_mkdir in
  "cache" <> ""
  /\ sys_MkdirAll "cache" 493 (world st)
     = (no_mkdir, Some (PathError "mkdir" "cache" ErrPermission))
  /\ exists e,
       (NewRoundTripper "cache" None st).2 = Some (Err e)
       /\ Error e = "create cache directory: mkdir cache: permission denied"
       /\ errors_Is e ErrPermission = true.
Proof.
  intros st.
  assert (Hdir : "cache" <> "") by discriminate.
  assert (Hmk : sys_MkdirAll "cache" 493 (world st)
                = (no_mkdir, Some (PathError "mkdir" "cache" ErrPermission)))
    by reflexivity.
  split; [exact Hdir|]. split; [exact Hmk|].
  destruct (NewRoundTripper_wraps_mkdir_error "cache" None st _ _ Hdir Hmk)
    as (e & Hrun & Hmsg & Hwraps).
  exists e. split; [rewrite Hrun; reflexivity|].
  split; [rewrite Hmsg; reflexivity|]. apply Hwraps. reflexivity.
Defined.

(** TestNewRoundTripper with a transport of the tests, through X15. *)
Lemma constructed_decorator_witness :
  let st := NewRequest cache_target empty_world in
  NewRoundTripper "cache" (Some (mockRoundTripper fresh_func)) st
  = (after_mkdir, Some (Ok (cache_with fresh_func)))
  /\ original (cache_with fresh_func) = Some (mockRoundTripper fresh_func)
  /\ trace after_mkdir = [EvMkdirAll "cache" 493 None].
Proof.
  intros st.
  assert (Hnew : NewRoundTripper "cache" (Some (mockRoundTripper fresh_func)) st
                 = (after_mkdir, Some (Ok (cache_with fresh_func))))
    by reflexivity.
  split; [exact Hnew|].
  destruct (constructed_decorator "cache" (Some (mockRoundTripper fresh_func)) st
              after_mkdir (cache_with fresh_func) Hnew)
    as (_ & _ & Htrace & _ & _ & Hc).
  split; [rewrite Hc; reflexivity | exact Htrace].
Defined.

(** TestAddCacheRoundTripper on a transport without registered schemes,
    through X16. *)
Lemma AddCacheRoundTripper_registers_witness :
  let st := NewRequest cache_target empty_world in
  NewRoundTripper "cache" (Some (mockRoundTripper fresh_func)) st
  = (after_mkdir, Some (Ok (cache_with fresh_func)))
  /\ exists t',
       AddCacheRoundTripper "cache" (Some (mockRoundTripper fresh_func)) (Some ∅) st
       = (after_mkdir, Some (Some t', None))
       /\ t' !! "cache" = Some (cache_with fresh_func)
       /\ t' !! "cachez" = Some (cache_with fresh_func)
       /\ t' !! "https" = None.
Proof.
  intros st.
  assert (Hnew : NewRoundTripper "cache" (Some (mockRoundTripper fresh_func)) st
                 = (after_mkdir, Some (Ok (cache_with fresh_func))))
    by reflexivity.
  split; [exact Hnew|].
  destruct (AddCacheRoundTripper_registers "cache" (Some (mockRoundTripper fresh_func))
              ∅ st after_mkdir (cache_with fresh_func)
              (lookup_empty _) (lookup_empty _) Hnew)
    as (t' & Hrun & Hcache & Hcachez & Hother).
  exists t'. split; [exact Hrun|]. split; [exact Hcache|]. split; [exact Hcachez|].
  rewrite Hother by discriminate. apply lookup_empty.
Defined.

(** [AddCacheRoundTripper] called twice on one transport, through X17. *)
Lemma AddCacheRoundTripper_again_witness :
  let st := NewRequest cache_target empty_world in
  let t1 : Transport World :=
    <["cachez" := cache_with fresh_func]> (<["cache" := cache_with fresh_func]> ∅) in
  AddCacheRoundTripper "cache" (Some (mockRoundTripper fresh_func)) (Some ∅) st
  = (after_mkdir, Some (Some t1, None))
  /\ exists st2,
       AddCacheRoundTripper "cache" (Some (mockRoundTripper fresh_func)) (Some t1) after_mkdir
       = (st2, None).
Proof.
  intros st t1.
  assert (Hfirst : AddCacheRoundTripper "cache" (Some (mockRoundTripper fresh_func))
                     (Some ∅) st
                   = (after_mkdir, Some (Some t1, None)))
    by reflexivity.
  split; [exact Hfirst|].
  destruct (NewRoundTripper "cache" (Some (mockRoundTripper fresh_func)) after_mkdir)
    as [st2 o] eqn:Hnew.
  assert (Ho : (NewRoundTripper "cache" (Some (mockRoundTripper fresh_func)) after_mkdir).2
               = Some (Ok (cache_with fresh_func))) by reflexivity.
  rewrite Hnew in Ho. change (o = Some (Ok (cache_with fresh_func))) in Ho. subst o.
  exists st2.
  exact (proj1 (AddCacheRoundTripper_again "cache" "cache"
                  (Some (mockRoundTripper fresh_func)) (Some (mockRoundTripper fresh_func))
                  ∅ t1 st after_mkdir Hfirst) st2 _ Hnew).
Defined.

(** A cache-only fetch in the empty cache, through X18. *)
Lemma cache_miss_is_opaque_witness :
  let c := cache_with not_called_func in
  let st := NewRequest cachez_target unseeded in
  readCacheFile (cachePathForURL c dest) st
  = (after_miss cachez_target, Some ([], None, Some not_found))
  /\ errors_Is not_found ErrNotExist = true
  /\ exists miss,
       roundTripCacheOnly c 0%nat st = (after_miss cachez_target, Some (Err miss))
       /\ errors_Is miss ErrNotExist = false.
Proof.
  intros c st.
  assert (Hunwrap : unwrapScheme (Request_URL (the_request cachez_target)) "cachez" = Ok dest)
    by reflexivity.
  assert (Hread : readCacheFile (cachePathForURL c dest) st
                  = (after_miss cachez_target, Some ([], None, Some not_found)))
    by reflexivity.
  assert (He : errors_Is not_found ErrNotExist = true) by reflexivity.
  split; [exact Hread|]. split; [exact He|].
  destruct (cache_miss_is_opaque c 0%nat st (after_miss cachez_target)
              (the_request cachez_target) dest [] None not_found eq_refl Hunwrap Hread He)
    as (miss & Hrun & Hopaque & _).
  exists miss. split; [exact Hrun | exact Hopaque].
Defined.

(** A marker followed by a colon, through X19: the parser misses the scheme. *)
Lemma unwrapScheme_wraps_parse_error_witness :
  let cause := errorString "missing protocol scheme" in
  URL_String (url_of "cache::x") = ("cache" +:+ ":") +:+ ":x"
  /\ exists err e,
       url_Parse ":x" = Err err
       /\ unwrapScheme (url_of "cache::x") "cache" = Err e
       /\ Error e = "parse downstream URL: parse " +:+ quoted ":x"
                    +:+ ": missing protocol scheme"
       /\ errors_Is e cause = true.
Proof.
  intros cause.
  assert (Hraw : URL_String (url_of "cache::x") = ("cache" +:+ ":") +:+ ":x") by reflexivity.
  assert (Hne : ":x" <> "") by discriminate.
  assert (Hparse : url_Parse ":x"
                   = Err (wrapError ("parse " +:+ quoted ":x" +:+ ": missing protocol scheme")
                            cause))
    by reflexivity.
  split; [exact Hraw|].
  destruct (unwrapScheme_wraps_parse_error (url_of "cache::x") "cache" ":x" _
              Hraw Hne Hparse) as (e & Hrun & Hmsg & Hwraps).
  eexists _, e. split; [exact Hparse|]. split; [exact Hrun|].
  split; [rewrite Hmsg; reflexivity|]. apply Hwraps. reflexivity.
Defined.

End Runs.
